(** * API_Fetcher: the fetch / normalise / fall-back pipeline of [api_fetcher.py]

    A shallow embedding of the Python module and the properties of its
    natural-language specification.

    Conventions of the embedding.
    - A Python [str] is a Rocq [string]: the bytes of its UTF-8 encoding.
      The built-ins [in], [upper], [strip], [split], [replace] and [float]
      are written out for ASCII text, which is what URLs, currency codes and
      prices are made of; bytes above 127 are carried through untouched, so
      that [upper], [strip] and [float] leave aside the case mapping of
      letters, the spaces and the digits that Unicode has outside ASCII.
    - A decoded JSON document is a value of [json]; a Python [dict] is an
      association list in insertion order, whose keys are pairwise distinct.
    - A Python exception is a constructor of [exn], which stands for a
      class and its subclasses; code that may raise returns a [result].
    - The console, the network and the keyboard are a [world] threaded
      through the effectful functions, which records every call made. *)

From Stdlib Require Import List Bool Arith ZArith Lia Ascii String.
From Stdlib Require Import DecimalString DecimalPos SpecFloat.
From Stdlib Require Import Sorted Permutation.
Import ListNotations.

Open Scope string_scope.
Open Scope list_scope.

(** ** Exceptions *)

Inductive exn : Type :=
| KeyError
| AttributeError
| TypeError
| ValueError
| EOFError.

Inductive result (A : Type) : Type :=
| Ok (a : A)
| Raise (e : exn).

Arguments Ok {A} a.
Arguments Raise {A} e.

Definition rbind {A B : Type} (r : result A) (k : A -> result B) : result B :=
  match r with
  | Ok a => k a
  | Raise e => Raise e
  end.

Notation "'let*' x ':=' c 'in' k" := (rbind c (fun x => k))
  (at level 10, x name, c at level 100, k at level 200).

(** ** Strings *)

Module Str.

(** [needle in hay] *)
Fixpoint contains (needle hay : string) : bool :=
  String.prefix needle hay ||
  match hay with
  | EmptyString => false
  | String _ rest => contains needle rest
  end.

Definition is_lower (c : ascii) : bool :=
  (97 <=? nat_of_ascii c)%nat && (nat_of_ascii c <=? 122)%nat.

Definition is_upper (c : ascii) : bool :=
  (65 <=? nat_of_ascii c)%nat && (nat_of_ascii c <=? 90)%nat.

Definition upper_char (c : ascii) : ascii :=
  if is_lower c then ascii_of_nat (nat_of_ascii c - 32) else c.

Definition lower_char (c : ascii) : ascii :=
  if is_upper c then ascii_of_nat (nat_of_ascii c + 32) else c.

Fixpoint map (f : ascii -> ascii) (s : string) : string :=
  match s with
  | EmptyString => EmptyString
  | String c rest => String (f c) (map f rest)
  end.

(** [s.upper()] and [s.lower()] *)
Definition upper (s : string) : string := map upper_char s.
Definition lower (s : string) : string := map lower_char s.

(** [c.isspace()] for a character of [str]: TAB, LF, VT, FF, CR,
    FS, GS, RS, US and the space. *)
Definition isspace (c : ascii) : bool :=
  let n := nat_of_ascii c in
  ((9 <=? n) && (n <=? 13) || (28 <=? n) && (n <=? 32))%nat.

Fixpoint lstrip_with (sp : ascii -> bool) (s : string) : string :=
  match s with
  | EmptyString => EmptyString
  | String c rest => if sp c then lstrip_with sp rest else s
  end.

(** Drops the trailing characters that satisfy [sp]. *)
Fixpoint rstrip_with (sp : ascii -> bool) (s : string) : string :=
  match s with
  | EmptyString => EmptyString
  | String c rest =>
      match rstrip_with sp rest with
      | EmptyString => if sp c then EmptyString else String c EmptyString
      | kept => String c kept
      end
  end.

Definition strip_with (sp : ascii -> bool) (s : string) : string :=
  rstrip_with sp (lstrip_with sp s).

(** [s.strip()] *)
Definition strip (s : string) : string := strip_with isspace s.

(** [s.split(sep)] for a separator of one character: always at least
    one field. *)
Fixpoint split (sep : ascii) (s : string) : list string :=
  match s with
  | EmptyString => [EmptyString]
  | String c rest =>
      if Ascii.eqb c sep then EmptyString :: split sep rest
      else match split sep rest with
           | field :: fields => String c field :: fields
           | [] => [String c EmptyString]
           end
  end.

(** [s.replace(c, "")] for a pattern of one character *)
Fixpoint remove (c : ascii) (s : string) : string :=
  match s with
  | EmptyString => EmptyString
  | String a rest => if Ascii.eqb a c then remove c rest else String a (remove c rest)
  end.

(** [x in l] for a list of strings *)
Definition mem (x : string) (l : list string) : bool :=
  existsb (String.eqb x) l.

End Str.

(** ** JSON documents and Python dictionaries *)

#[local] Set Warnings "-register-all".

Inductive json : Type :=
| JNull
| JBool (b : bool)
| JInt (z : Z)
| JFloat (f : spec_float)
| JStr (s : string)
| JList (l : list json)
| JDict (d : list (string * json)).

Definition pydict : Type := list (string * json).

Module Dict.

(** [d.get(k)] on the association list *)
Fixpoint get (d : pydict) (k : string) : option json :=
  match d with
  | [] => None
  | (k', v) :: rest => if String.eqb k' k then Some v else get rest k
  end.

(** [d[k] = v]: an existing key keeps its place, a new one goes last. *)
Fixpoint set (d : pydict) (k : string) (v : json) : pydict :=
  match d with
  | [] => [(k, v)]
  | (k', v') :: rest =>
      if String.eqb k' k then (k', v) :: rest else (k', v') :: set rest k v
  end.

Definition keys (d : pydict) : list string := List.map fst d.

(** [{key: value for k, v in items if cond}]: [elt k v] evaluates the
    condition, the key and the value for one item; the first exception
    ends the comprehension. *)
Fixpoint comprehension (elt : string -> json -> result (option (string * json)))
         (items : pydict) (acc : pydict) : result pydict :=
  match items with
  | [] => Ok acc
  | (k, v) :: rest =>
      match elt k v with
      | Raise e => Raise e
      | Ok None => comprehension elt rest acc
      | Ok (Some (k', v')) => comprehension elt rest (set acc k' v')
      end
  end.

End Dict.

(** Truth value of a decoded document, as tested by [if data:]. *)
Definition truthy (v : json) : bool :=
  match v with
  | JNull => false
  | JBool b => b
  | JInt z => negb (Z.eqb z 0)
  | JFloat (S754_zero _) => false
  | JFloat _ => true
  | JStr s => negb (String.eqb s "")
  | JList l => match l with [] => false | _ => true end
  | JDict d => match d with [] => false | _ => true end
  end.

(** Truth value of [prices], an [Optional[Dict[str, str]]]. *)
Definition truthy_prices (p : option pydict) : bool :=
  match p with
  | Some (_ :: _) => true
  | _ => false
  end.

(** [v.get(k, default)]: only a dict has the method. *)
Definition py_get (v : json) (k : string) (default : json) : result json :=
  match v with
  | JDict d => Ok (match Dict.get d k with Some x => x | None => default end)
  | _ => Raise AttributeError
  end.

(** [v.items()]: only a dict has the method. *)
Definition py_items (v : json) : result pydict :=
  match v with
  | JDict d => Ok d
  | _ => Raise AttributeError
  end.

(** [v[k]] for a string [k]: a missing key of a dict is a [KeyError], and
    no other decoded value can be indexed by a string. *)
Definition py_getitem (v : json) (k : string) : result json :=
  match v with
  | JDict d => match Dict.get d k with Some x => Ok x | None => Raise KeyError end
  | _ => Raise TypeError
  end.

Definition Z_to_string (z : Z) : string := NilZero.string_of_int (Z.to_int z).

(** ** Configuration *)

Definition DEFAULT_API : string := "https://api.exchangerate-api.com/v4/latest/USD".

Definition BACKUP_APIS : list string :=
  [ "https://api.coindesk.com/v2/bpi/currentprice.json";
    "https://api.coingecko.com/api/v3/simple/price?ids=bitcoin&vs_currencies=usd,eur,gbp,jpy,cny";
    "https://blockchain.info/ticker";
    "https://api.coinbase.com/v2/exchange-rates?currency=BTC" ].

Definition CURRENCY_SYMBOLS : list (string * string) :=
  [ ("USD", "$"); ("GBP", "£"); ("EUR", "€");
    ("JPY", "¥"); ("CNY", "¥"); ("BTC", "₿") ].

(** ** The world: network, keyboard and console *)

Inductive event : Type :=
| EvInput (prompt : string)            (* input(prompt) was called *)
| EvGet (url : string)                 (* requests.get(url, timeout=TIMEOUT) *)
| EvApiError (url : string)            (* stderr: API Error (url): ... *)
| EvParsingError (e : exn)             (* stderr: Parsing Error: ... *)
| EvAttempt (n : nat) (url : string)   (* stdout: Attempt n: Fetching from url *)
| EvAllFailed                          (* the remediation lines of main *)
| EvAvailable (codes : list string)    (* stdout: Available currencies: ... *)
| EvInvalid (codes : list string).     (* stdout: Invalid currencies: ... *)

(** What [requests.get(url, timeout=TIMEOUT)], [raise_for_status()] and
    [json()] come to: a 2xx answer whose body decodes to [data]; a
    [RequestException] (time-out, connection, status, decoding), the class
    that [fetch_data] catches; or an exception [e] of another class, as the
    [ValueError] of an integer of more than 4300 digits in the body or the
    [LocationParseError] of a host name that cannot be parsed. *)
Inductive reply : Type :=
| Body (data : json)
| RequestException
| OtherException (e : exn).

(** [http n url] is what the [n]-th GET of the run meets when it is sent
    to [url]. [stdin] holds the lines still to be typed; [input] on an
    empty [stdin] raises [EOFError]. [trace] is everything done so far,
    oldest first. *)
Record world : Type := World {
  http : nat -> string -> reply;
  sent : nat;
  stdin : list string;
  trace : list event
}.

Definition M (A : Type) : Type := world -> result A * world.

Definition ret {A : Type} (a : A) : M A := fun w => (Ok a, w).

Definition raise {A : Type} (e : exn) : M A := fun w => (Raise e, w).

Definition bind {A B : Type} (m : M A) (k : A -> M B) : M B :=
  fun w =>
    match m w with
    | (Ok a, w') => k a w'
    | (Raise e, w') => (Raise e, w')
    end.

Notation "x <- c ;; k" := (bind c (fun x => k))
  (at level 61, c at next level, right associativity).
Notation "c ;; k" := (bind c (fun _ => k))
  (at level 61, right associativity).

Definition emit (ev : event) : M unit :=
  fun w => (Ok tt, World (http w) (sent w) (stdin w) (trace w ++ [ev])).

(** [requests.get(url, timeout=TIMEOUT)], [raise_for_status()] and
    [json()] against the world *)
Definition http_get (url : string) : M reply :=
  fun w => (Ok (http w (sent w) url),
            World (http w) (S (sent w)) (stdin w) (trace w ++ [EvGet url])).

(** [input(prompt)] *)
Definition py_input (prompt : string) : M string :=
  fun w =>
    let w' := World (http w) (sent w) (tl (stdin w)) (trace w ++ [EvInput prompt]) in
    match stdin w with
    | [] => (Raise EOFError, w')
    | line :: _ => (Ok line, w')
    end.

(** ** Core functions *)

(** The handler catches [RequestException] and nothing else: any other
    exception leaves the function. *)
Definition fetch_data (url : string) : M json :=
  response <- http_get url ;;
  match response with
  | Body data => ret data
  | RequestException => emit (EvApiError url) ;; ret JNull
  | OtherException e => raise e
  end.

(** ** Floating-point numbers: [float(s)] and the format [,.2f] *)

Module PyFloat.

Definition prec : Z := 53.
Definition emax : Z := 1024.

(** The binary64 number nearest to [(-1)^neg * m * 10^e], ties to even:
    what a correctly rounded decimal-to-binary conversion returns. *)
Definition of_decimal (neg : bool) (m : Z) (e : Z) : spec_float :=
  match m with
  | Zpos p =>
      if (0 <=? e)%Z
      then binary_round prec emax neg (Z.to_pos (Zpos p * 10 ^ e)) 0
      else SFdiv prec emax (S754_finite neg p 0)
                 (S754_finite false (Z.to_pos (10 ^ (- e))) 0)
  | _ => S754_zero neg
  end.

Definition is_digit (c : ascii) : bool :=
  (48 <=? nat_of_ascii c)%nat && (nat_of_ascii c <=? 57)%nat.

Definition digit_value (c : ascii) : Z := Z.of_nat (nat_of_ascii c - 48).

(** Whitespace of the C locale: TAB, LF, VT, FF, CR and the space. *)
Definition c_isspace (c : ascii) : bool :=
  let n := nat_of_ascii c in
  ((9 <=? n) && (n <=? 13) || (n =? 32))%nat.

(** An underscore is dropped when it stands between two digits, and is
    an error anywhere else; [prev] is the character just read. *)
Fixpoint drop_underscores (prev : ascii) (s : string) : option string :=
  match s with
  | EmptyString => if Ascii.eqb prev "_" then None else Some EmptyString
  | String c rest =>
      if Ascii.eqb c "_" then
        if is_digit prev then drop_underscores c rest else None
      else if Ascii.eqb prev "_" && negb (is_digit c) then None
      else option_map (String c) (drop_underscores c rest)
  end.

(** The leading digits of [s], read as a number with [acc] in front,
    how many they are, and what follows them. *)
Fixpoint span_digits (acc : Z) (s : string) : Z * nat * string :=
  match s with
  | String c rest =>
      if is_digit c then
        let '(v, n, r) := span_digits (10 * acc + digit_value c) rest in (v, S n, r)
      else (acc, O, s)
  | EmptyString => (acc, O, s)
  end.

Definition take_sign (s : string) : bool * string :=
  match s with
  | String "-" rest => (true, rest)
  | String "+" rest => (false, rest)
  | _ => (false, s)
  end.

(** [digits [. digits] [(e|E) [sign] digits]] with a digit on at least
    one side of the point, and nothing after it: the mantissa as an
    integer and the power of ten that scales it. *)
Definition parse_number (s : string) : option (Z * Z) :=
  let '(ip, ni, r1) := span_digits 0 s in
  let '(m, nf, r2) :=
    match r1 with
    | String "." t => span_digits ip t
    | _ => (ip, O, r1)
    end in
  if (ni + nf =? 0)%nat then None
  else
    match r2 with
    | EmptyString => Some (m, - Z.of_nat nf)%Z
    | String c t =>
        if Ascii.eqb c "e" || Ascii.eqb c "E" then
          let '(eneg, t') := take_sign t in
          let '(ev, ne, r3) := span_digits 0 t' in
          if (ne =? 0)%nat then None
          else match r3 with
               | EmptyString =>
                   Some (m, (if eneg then - ev else ev) - Z.of_nat nf)%Z
               | _ => None
               end
        else None
    end.

(** [float(s)]; [None] stands for [ValueError]. *)
Definition py_float (s : string) : option spec_float :=
  match drop_underscores zero s with
  | None => None
  | Some s1 =>
      let '(neg, body) := take_sign (Str.strip_with c_isspace s1) in
      let word := Str.lower body in
      if String.eqb word "inf" || String.eqb word "infinity" then Some (S754_infinity neg)
      else if String.eqb word "nan" then Some S754_nan
      else match parse_number body with
           | Some (m, e) => Some (of_decimal neg m e)
           | None => None
           end
  end.

(** [num / den] rounded to the nearest integer, ties to even ([den > 0]) *)
Definition round_half_even (num den : Z) : Z :=
  let q := (num / den)%Z in
  match (2 * (num mod den) ?= den)%Z with
  | Lt => q
  | Gt => (q + 1)%Z
  | Eq => if Z.even q then q else (q + 1)%Z
  end.

(** [m * 2^e * 100] rounded to an integer *)
Definition hundredths (m : positive) (e : Z) : Z :=
  if (0 <=? e)%Z then (Zpos m * 2 ^ e * 100)%Z
  else round_half_even (Zpos m * 100) (2 ^ (- e)).

(** A comma before every group of three digits, counted from the right. *)
Fixpoint commas (digits : string) : string :=
  match digits with
  | EmptyString => EmptyString
  | String c rest =>
      String c (if ((String.length rest mod 3 =? 0) && negb (String.length rest =? 0))%nat
                then "," ++ commas rest else commas rest)
  end.

Definition two_digits (k : Z) : string :=
  if (k <? 10)%Z then "0" ++ Z_to_string k else Z_to_string k.

Definition sign_string (neg : bool) : string := if neg then "-" else "".

(** [f"{x:,.2f}"] *)
Definition format_2f (x : spec_float) : string :=
  match x with
  | S754_nan => "nan"
  | S754_infinity s => sign_string s ++ "inf"
  | S754_zero s => sign_string s ++ "0.00"
  | S754_finite s m e =>
      let n := hundredths m e in
      sign_string s ++ commas (Z_to_string (n / 100)) ++ "." ++ two_digits (n mod 100)
  end.

End PyFloat.

Fixpoint assoc_get (table : list (string * string)) (k : string) : option string :=
  match table with
  | [] => None
  | (k', v) :: rest => if String.eqb k' k then Some v else assoc_get rest k
  end.

Definition format_price (currency price : string) : string :=
  let symbol := match assoc_get CURRENCY_SYMBOLS currency with
                | Some s => s
                | None => ""
                end in
  let clean_price := Str.remove "," price in
  match PyFloat.py_float clean_price with
  | Some x => symbol ++ PyFloat.format_2f x
  | None => symbol ++ price
  end.

(** ** User interface *)

Definition nl : string := String "010" EmptyString.

Definition get_user_input (prompt : string) (default : string) : M string :=
  line <- py_input prompt ;;
  let user_input := Str.strip line in
  ret (if String.eqb user_input "" then default else user_input).

(** [sorted(l)] for a list of strings: insertion in code-point order *)
Fixpoint insert_sorted (x : string) (l : list string) : list string :=
  match l with
  | [] => [x]
  | y :: rest => if String.leb x y then x :: l else y :: insert_sorted x rest
  end.

Definition sorted (l : list string) : list string :=
  fold_right insert_sorted [] l.

Definition select_prompt : string :=
  "Enter currency codes (comma-separated)" ++ nl ++ "or press Enter for all: ".

(** One turn of the [while True] loop of [select_currencies]:
    [Some l] when the turn ends in [return l], [None] when it ends at the
    bottom of the loop body, after the complaint about the invalid codes. *)
Definition select_turn (available : list string) : M (option (list string)) :=
  answer <- get_user_input select_prompt "" ;;
  let selection := Str.upper answer in
  if String.eqb selection "" then ret (Some available)
  else
    let selected := List.map Str.strip (Str.split "," selection) in
    let invalid := List.filter (fun c => negb (Str.mem c available)) selected in
    match invalid with
    | [] => ret (Some selected)
    | _ :: _ => emit (EvInvalid invalid) ;; ret None
    end.

(** The [while True] loop. Every turn reads one line, and reading from an
    empty [stdin] raises, so the loop makes at most [length stdin + 1]
    turns: [turns] bounds the turns still to come after this one, and its
    exhaustion is never met when the loop is started by
    [select_currencies]. *)
Fixpoint select_loop (turns : nat) (available : list string) : M (list string) :=
  r <- select_turn available ;;
  match r with
  | Some selected => ret selected
  | None =>
      match turns with
      | O => raise EOFError
      | S turns' => select_loop turns' available
      end
  end.

Definition select_currencies (available : list string) : M (list string) :=
  emit (EvAvailable (sorted available)) ;;
  fun w => select_loop (List.length (stdin w)) available w.

(** ** Main execution *)

Inductive outcome : Type :=
| Success (prices : pydict)
| AllFailed.

Definition url_prompt : string :=
  "Enter API URL (press Enter for default)" ++ nl ++
  "Default: " ++ DEFAULT_API ++ nl ++ "> ".

Definition exit_prompt : string := nl ++ "Press Enter to exit...".

(** ** Vocabulary of the specification *)

(** The four normalisation rules, and the rule a source selects: the first
    test of the [if]/[elif] chain of [parse_response] that holds. *)
Inductive schema : Type := Coindesk | Coingecko | Blockchain | Coinbase.

Definition schema_tag (source : string) : option schema :=
  if Str.contains "coindesk" source then Some Coindesk
  else if Str.contains "coingecko" source then Some Coingecko
  else if Str.contains "blockchain" source then Some Blockchain
  else if Str.contains "coinbase" source then Some Coinbase
  else None.

(** The URLs requested so far, oldest first. *)
Fixpoint fetched (t : list event) : list string :=
  match t with
  | [] => []
  | EvGet url :: rest => url :: fetched rest
  | _ :: rest => fetched rest
  end.

(** A key is an upper-case code when upper-casing leaves it alone. *)
Definition uppercase (k : string) : Prop := Str.upper k = k.

Definition is_str (v : json) : Prop := exists s, v = JStr s.

(** A minimal well-formed fixture of each schema, after the extraction
    rules: the object the rule reads is there and holds at least one quote
    (for the coinbase-like rule, one in a currency other than BTC); the
    codes that are output as given are upper-case; a coindesk-like member
    has its price string in [rate], a blockchain-like member has a [last]. *)
Definition well_formed_fixture (t : schema) (data : json) : Prop :=
  match t with
  | Coindesk =>
      exists d bpi,
        data = JDict d /\ Dict.get d "bpi" = Some (JDict bpi) /\ bpi <> [] /\
        Forall (fun kv => uppercase (fst kv) /\
                          exists info rate, snd kv = JDict info /\
                                            Dict.get info "rate" = Some (JStr rate)) bpi
  | Coingecko =>
      exists d bitcoin,
        data = JDict d /\ Dict.get d "bitcoin" = Some (JDict bitcoin) /\ bitcoin <> []
  | Blockchain =>
      exists d,
        data = JDict d /\ d <> [] /\
        Forall (fun kv => uppercase (fst kv) /\
                          exists info last, snd kv = JDict info /\
                                            Dict.get info "last" = Some last) d
  | Coinbase =>
      exists d dd rates,
        data = JDict d /\ Dict.get d "data" = Some (JDict dd) /\
        Dict.get dd "rates" = Some (JDict rates) /\
        Forall (fun kv => uppercase (fst kv)) rates /\
        exists kv, In kv rates /\ fst kv <> "BTC"
  end.

(** The primary URL of [main] after the answer to its first question. *)
Definition chosen_url (answer : string) : string :=
  if String.eqb (Str.strip answer) "" then DEFAULT_API else Str.strip answer.

(** The codes a typed line stands for in [select_currencies]. *)
Definition codes_of (line : string) : list string :=
  List.map Str.strip (Str.split "," (Str.upper (Str.strip line))).

(** ** Fixtures *)

(** One small answer per schema, a stand-in for [repr], and two networks:
    one on which only the coingecko-like source gives prices, the default
    URL answering a document no rule reads and the other sources being out
    of reach; one on which every source is out of reach. *)
Definition coindesk_url : string := nth 0 BACKUP_APIS "".
Definition coingecko_url : string := nth 1 BACKUP_APIS "".
Definition blockchain_url : string := nth 2 BACKUP_APIS "".
Definition coinbase_url : string := nth 3 BACKUP_APIS "".

Definition coindesk_fixture : json :=
  JDict [("bpi", JDict [("USD", JDict [("code", JStr "USD"); ("rate", JStr "64,123.4500")]);
                        ("EUR", JDict [("code", JStr "EUR"); ("rate", JStr "59,001.2000")])])].

Definition coingecko_fixture : json :=
  JDict [("bitcoin", JDict [("usd", JInt 64123); ("eur", JInt 59001)])].

Definition blockchain_fixture : json :=
  JDict [("USD", JDict [("15m", JInt 64123); ("last", JInt 64123)]);
         ("GBP", JDict [("15m", JInt 50210); ("last", JInt 50210)])].

Definition coinbase_rates : pydict :=
  [("USD", JStr "64123.45"); ("BTC", JStr "1"); ("EUR", JStr "59001.2")].

Definition coinbase_fixture : json :=
  JDict [("data", JDict [("currency", JStr "BTC"); ("rates", JDict coinbase_rates)])].

Definition fixture (t : schema) : json :=
  match t with
  | Coindesk => coindesk_fixture
  | Coingecko => coingecko_fixture
  | Blockchain => blockchain_fixture
  | Coinbase => coinbase_fixture
  end.

Definition sample_repr : json -> string := fun _ => "<repr>".

Definition exchange_rates : json := JDict [("base", JStr "USD"); ("rates", JDict [])].

Definition coingecko_only (n : nat) (url : string) : reply :=
  if String.eqb url DEFAULT_API then Body exchange_rates
  else if String.eqb url coingecko_url then Body coingecko_fixture
  else RequestException.

Definition network_down (n : nat) (url : string) : reply := RequestException.

Definition session (net : nat -> string -> reply) (typed : list string) : world :=
  World net 0 typed [].

(** ** The normaliser, the fall-back loop and the start of [main] *)

Section Pipeline.

(** [str(v)] of a float, a list or a dict is Python's [repr], whose
    shortest-digits float printing is not reproduced here: it is a
    parameter of the development, and no property below depends on it. *)
Variable py_repr : json -> string.

(** [str(v)] *)
Definition py_str (v : json) : string :=
  match v with
  | JStr s => s
  | JInt z => Z_to_string z
  | JBool true => "True"
  | JBool false => "False"
  | JNull => "None"
  | _ => py_repr v
  end.

(** The body of the [try] block of [parse_response]: [Ok None] when no
    branch of the [if]/[elif] chain is taken. *)
Definition parse_body (data : json) (source : string) : result (option pydict) :=
  if Str.contains "coindesk" source then
    let* bpi := py_get data "bpi" (JDict []) in
    let* items := py_items bpi in
    let* m := Dict.comprehension
                (fun curr info =>
                   let* rate := py_getitem info "rate" in
                   Ok (Some (curr, rate)))
                items [] in
    Ok (Some m)
  else if Str.contains "coingecko" source then
    let* bitcoin := py_get data "bitcoin" (JDict []) in
    let* items := py_items bitcoin in
    let* m := Dict.comprehension
                (fun curr price => Ok (Some (Str.upper curr, JStr (py_str price))))
                items [] in
    Ok (Some m)
  else if Str.contains "blockchain" source then
    let* items := py_items data in
    let* m := Dict.comprehension
                (fun curr info =>
                   let* last := py_getitem info "last" in
                   Ok (Some (curr, JStr (py_str last))))
                items [] in
    Ok (Some m)
  else if Str.contains "coinbase" source then
    let* d := py_get data "data" (JDict []) in
    let* rates := py_get d "rates" (JDict []) in
    let* items := py_items rates in
    let* m := Dict.comprehension
                (fun curr rate =>
                   if negb (String.eqb curr "BTC")
                   then Ok (Some (curr, JStr (py_str rate)))
                   else Ok None)
                items [] in
    Ok (Some m)
  else Ok None.

(** The [try] block with its handler: a [KeyError] or [AttributeError]
    is reported on stderr and the function returns [None]; any other
    exception leaves the function. *)
Definition parse_response (data : json) (source : string) : M (option pydict) :=
  match parse_body data source with
  | Ok r => ret r
  | Raise KeyError => emit (EvParsingError KeyError) ;; ret None
  | Raise AttributeError => emit (EvParsingError AttributeError) ;; ret None
  | Raise e => raise e
  end.

(** [for attempt, url in enumerate(urls, attempt): ...] with the
    variable [prices]; the result is the value of [prices] when the loop
    is left, by [break] or by exhaustion. *)
Fixpoint fetch_loop (attempt : nat) (urls : list string) (prices : option pydict)
  : M (option pydict) :=
  match urls with
  | [] => ret prices
  | url :: rest =>
      emit (EvAttempt attempt url) ;;
      data <- fetch_data url ;;
      if truthy data then
        prices' <- parse_response data url ;;
        if truthy_prices prices' then ret prices'
        else fetch_loop (S attempt) rest prices'
      else fetch_loop (S attempt) rest prices
  end.

(** The orchestrator: [prices = None], the loop over the candidates and
    the test [if not prices] that follows it. *)
Definition resolve_prices (candidates : list string) : M outcome :=
  prices <- fetch_loop 1 candidates None ;;
  match prices with
  | Some (p :: ps) => ret (Success (p :: ps))
  | _ => ret AllFailed
  end.

(** [main] from the question about the URL to the point where the
    prices are known or the session is given up. *)
Definition main_prices : M outcome :=
  answer <- get_user_input url_prompt "" ;;
  let api_url := if String.eqb answer "" then DEFAULT_API else answer in
  r <- resolve_prices (api_url :: BACKUP_APIS) ;;
  match r with
  | Success prices => ret (Success prices)
  | AllFailed => emit EvAllFailed ;; _ <- py_input exit_prompt ;; ret AllFailed
  end.

(** A candidate fails when its fetch fails, that is, meets a
    [RequestException], or when normalising its body yields [None] (also
    after a reported parsing error) or an empty mapping. A body that is
    false for [if data:] is never normalised by [main]; it is one of those
    that would yield [None] or an empty mapping ([falsy_body_fails] below).
    A candidate whose fetch or normalisation raises an exception that is not
    caught does not fail in this sense: the exception ends the run. *)
Definition attempt_fails (r : reply) (url : string) : bool :=
  match r with
  | RequestException => true
  | Body data =>
      match parse_body data url with
      | Ok None | Ok (Some []) => true
      | Raise KeyError | Raise AttributeError => true
      | _ => false
      end
  | OtherException _ => false
  end.

(** Every candidate of [urls] fails, the first one being answered as
    the [k]-th request of the run. *)
Fixpoint all_fail (net : nat -> string -> reply) (k : nat) (urls : list string)
  : bool :=
  match urls with
  | [] => true
  | url :: rest => attempt_fails (net k url) url && all_fail net (S k) rest
  end.

(** The field [name] of a member, when the member is an object that has
    it. *)
Definition member_field (name : string) (v : json) : option json :=
  match v with
  | JDict info => Dict.get info name
  | _ => None
  end.

(** The codes of a typed line that are not on offer, whether the line is
    turned down by [select_currencies], what it selects when it is not, and
    what the console shows for a run of lines that are turned down. *)
Definition invalid_codes (available : list string) (line : string) : list string :=
  List.filter (fun c => negb (Str.mem c available)) (codes_of line).

Definition rejected (available : list string) (line : string) : bool :=
  negb (String.eqb (Str.strip line) "") &&
  match invalid_codes available line with
  | [] => false
  | _ :: _ => true
  end.

Definition selection_of (available : list string) (line : string) : list string :=
  if String.eqb (Str.strip line) "" then available else codes_of line.

Definition complaints (available : list string) (lines : list string) : list event :=
  flat_map (fun line => [EvInput select_prompt; EvInvalid (invalid_codes available line)])
           lines.

(** ** Report generation and the whole of [main] *)

Definition REPORT_FILE : string := "btc_price_report.txt".

(** What the program shows besides the events of [world]. *)
Inductive display : Type :=
| ShowTitle                          (* stdout: the title and its rule *)
| ShowNoInternet                     (* stderr: No internet connection detected *)
| ShowHeading                        (* stdout: Current Bitcoin Prices: *)
| ShowPrice (curr text : string)     (* stdout: "  curr: text" *)
| ShowFileError                      (* stderr: File Error: ... *)
| ShowSaved.                         (* stdout: Report saved to btc_price_report.txt *)

(** The report file as the program leaves it. *)
Inductive file_state : Type :=
| Untouched                  (* never opened by the program *)
| Damaged                    (* opened, then an operation on it raised *)
| Holds (text : string).     (* opened, written and closed *)

(** How an operation on the report file ends: it goes through; it raises
    an [IOError], the class that [generate_report] catches; or it raises an
    exception [e] of another class, as the [UnicodeEncodeError] of a write
    whose text UTF-8 cannot encode. *)
Inductive file_op : Type :=
| Done
| IOError
| OtherError (e : exn).

(** The machine the program runs on: the [world] of the pipeline;
    [online], whether a connection to 1.1.1.1:53 can be made; [clock], what
    [datetime.now().strftime("%Y-%m-%d %H:%M:%S")] gives; [disk n], how the
    [n]-th operation on the report file ends: the opening is operation 0,
    the writes follow and the closing ends them; [report], the state of the
    report file; [shown], what has been displayed, oldest first. *)
Record machine : Type := Machine {
  console : world;
  online : bool;
  clock : string;
  disk : nat -> file_op;
  report : file_state;
  shown : list display
}.

Definition P (A : Type) : Type := machine -> result A * machine.

Definition pret {A : Type} (a : A) : P A := fun mc => (Ok a, mc).

Definition pbind {A B : Type} (m : P A) (k : A -> P B) : P B :=
  fun mc =>
    match m mc with
    | (Ok a, mc') => k a mc'
    | (Raise e, mc') => (Raise e, mc')
    end.

Notation "x <~ c ;; k" := (pbind c (fun x => k))
  (at level 61, c at next level, right associativity).
Notation "c ~> k" := (pbind c (fun _ => k))
  (at level 61, right associativity).

(** A computation of the pipeline, run on the console of the machine. *)
Definition lift {A : Type} (m : M A) : P A :=
  fun mc =>
    let '(r, w) := m (console mc) in
    (r, Machine w (online mc) (clock mc) (disk mc) (report mc) (shown mc)).

Definition of_result {A : Type} (r : result A) : P A := fun mc => (r, mc).

Definition show (d : display) : P unit :=
  fun mc =>
    (Ok tt, Machine (console mc) (online mc) (clock mc) (disk mc) (report mc)
                    (shown mc ++ [d])).

Definition check_internet : P bool := fun mc => (Ok (online mc), mc).

(** [format_price(currency, price)] on a value of the mapping: only a
    string has the method [replace]. *)
Definition format_price_value (currency : string) (price : json) : result string :=
  match price with
  | JStr p => Ok (format_price currency p)
  | _ => Raise AttributeError
  end.

Definition rule40 : string := "----------------------------------------".

Definition report_header (timestamp : string) : string :=
  "📊 BITCOIN PRICE REPORT" ++ nl ++ rule40 ++ nl ++
  "Generated: " ++ timestamp ++ nl ++ rule40 ++ nl.

(** The argument of one [f.write] of the loop of [generate_report]. *)
Definition report_line (prices : pydict) (currency : string) : result string :=
  let* price := py_getitem (JDict prices) currency in
  let* text := format_price_value currency price in
  Ok (currency ++ ": " ++ text ++ nl)%string.

(** How the body of the [with] block of [generate_report] ends. *)
Inductive written : Type :=
| Completed                (* it is left normally *)
| Refused                  (* a write raised an [IOError] *)
| Failed (e : exn)         (* a write raised an exception of another class *)
| Escaped (e : exn).       (* the text of a line could not be made *)

(** The loop over [sorted(prices.keys())]: [op] numbers the next operation
    on the file and [text] is what has been written; the result also tells
    the number of the operation that comes next. *)
Fixpoint write_prices (fs : nat -> file_op) (op : nat) (prices : pydict)
         (currencies : list string) (text : string) : written * string * nat :=
  match currencies with
  | [] => (Completed, text, op)
  | currency :: rest =>
      match report_line prices currency with
      | Raise e => (Escaped e, text, op)
      | Ok line =>
          match fs op with
          | Done => write_prices fs (S op) prices rest (text ++ line)
          | IOError => (Refused, text, S op)
          | OtherError e => (Failed e, text, S op)
          end
      end
  end.

Definition set_report (f : file_state) (mc : machine) : machine :=
  Machine (console mc) (online mc) (clock mc) (disk mc) f (shown mc).

(** The handler of [generate_report]. *)
Definition file_error : P bool := show ShowFileError ~> pret false.

(** The [with] block is left through the closing of the file, also when an
    exception crosses it, and an exception raised by the closing takes the
    place of the one that was crossing. The handler catches [IOError] and
    nothing else. *)
Definition generate_report (prices : pydict) : P bool :=
  fun mc =>
    let timestamp := clock mc in
    match disk mc 0 with
    | IOError => file_error mc
    | OtherError e => (Raise e, mc)
    | Done =>
        let '(how, text, op) :=
          match disk mc 1 with
          | Done => write_prices (disk mc) 2 prices (sorted (Dict.keys prices))
                                 (report_header timestamp)
          | IOError => (Refused, EmptyString, 2)
          | OtherError e => (Failed e, EmptyString, 2)
          end in
        match disk mc op with
        | IOError => file_error (set_report Damaged mc)
        | OtherError e => (Raise e, set_report Damaged mc)
        | Done =>
            match how with
            | Completed => (Ok true, set_report (Holds text) mc)
            | Refused => file_error (set_report Damaged mc)
            | Failed e => (Raise e, set_report Damaged mc)
            | Escaped e => (Raise e, set_report (Holds text) mc)
            end
        end
    end.

(** The loop that prints the prices. *)
Fixpoint show_prices (items : pydict) : P unit :=
  match items with
  | [] => pret tt
  | (curr, price) :: rest =>
      text <~ of_result (format_price_value curr price) ;;
      show (ShowPrice curr text) ~> show_prices rest
  end.

(** [main] once the prices are known: the selection, the display and the
    report. *)
Definition main_report (prices : pydict) : P unit :=
  selected <~ lift (select_currencies (Dict.keys prices)) ;;
  filtered_prices <~ of_result
    (Dict.comprehension
       (fun k v => if Str.mem k selected then Ok (Some (k, v)) else Ok None)
       prices []) ;;
  show ShowHeading ~>
  show_prices filtered_prices ~>
  saved <~ generate_report filtered_prices ;;
  (if saved then show ShowSaved else pret tt) ~>
  lift (py_input exit_prompt) ~>
  pret tt.

Definition main : P unit :=
  show ShowTitle ~>
  connected <~ check_internet ;;
  if negb connected then
    show ShowNoInternet ~>
    lift (py_input "Press Enter to exit...") ~>
    pret tt
  else
    r <~ lift main_prices ;;
    match r with
    | AllFailed => pret tt
    | Success prices => main_report prices
    end.

(** The texts of [lines] one after the other. *)
Definition paste (lines : list string) : string := fold_right String.append "" lines.

(** The line of the report for a code whose price is the string [p]. *)
Definition priced_line (currency p : string) : string :=
  (currency ++ ": " ++ format_price currency p ++ nl)%string.

(** The order of [sorted] on strings. *)
Definition code_le (a b : string) : Prop := String.leb a b = true.

(** A string that does not start with whitespace. *)
Definition starts_clean (s : string) : Prop :=
  match s with
  | EmptyString => True
  | String c _ => Str.isspace c = false
  end.

(** A string of decimal digits only. *)
Fixpoint digits_only (s : string) : bool :=
  match s with
  | EmptyString => true
  | String c rest => PyFloat.is_digit c && digits_only rest
  end.

(** Three prices as a source may give them, a machine that is on line with
    nothing displayed and no report yet, and a network on which the
    blockchain-like source answers members that are not objects, the
    coinbase-like source answers well and no other source answers. *)
Definition quotes : pydict :=
  [("USD", JStr "64,123.4500"); ("EUR", JStr "59001.2"); ("GBP", JStr "n/a")].

Definition desk (typed : list string) (ok : nat -> file_op) : machine :=
  Machine (session network_down typed) true "2024-01-01 12:00:00" ok Untouched [].

Definition broken_ticker (n : nat) (url : string) : reply :=
  if String.eqb url blockchain_url then Body (JDict [("USD", JInt 64123)])
  else if String.eqb url coinbase_url then Body coinbase_fixture
  else RequestException.


(** * Properties *)

(** ** Strings and dictionaries *)

Lemma upper_char_idempotent (c : ascii) :
  Str.upper_char (Str.upper_char c) = Str.upper_char c.
Proof.
  destruct c as [[] [] [] [] [] [] [] []]; reflexivity.
Qed.

Lemma upper_idempotent (s : string) : Str.upper (Str.upper s) = Str.upper s.
Proof.
  unfold Str.upper.
  induction s as [|c s IH]; cbn [Str.map]; [reflexivity|].
  now rewrite upper_char_idempotent, IH.
Qed.

Lemma fetched_app (a b : list event) : fetched (a ++ b) = fetched a ++ fetched b.
Proof.
  induction a as [|ev a IH]; simpl; [reflexivity|].
  destruct ev; simpl; now rewrite IH.
Qed.

Lemma dict_set_nonempty (d : pydict) (k : string) (v : json) : Dict.set d k v <> [].
Proof.
  destruct d as [|[k' v'] d]; simpl; [discriminate|].
  destruct (String.eqb k' k); discriminate.
Qed.

Lemma dict_set_Forall (P : string * json -> Prop) (d : pydict) (k : string) (v : json) :
  Forall P d -> P (k, v) -> Forall P (Dict.set d k v).
Proof.
  intros Hd Hk. induction Hd as [|[k' v'] d Hx Hd IH]; simpl.
  - constructor; [assumption|constructor].
  - destruct (String.eqb_spec k' k) as [->|_].
    + constructor; assumption.
    + constructor; assumption.
Qed.

Lemma dict_set_fresh (d : pydict) (k : string) (v : json) :
  ~ In k (Dict.keys d) -> Dict.set d k v = d ++ [(k, v)].
Proof.
  induction d as [|[k' v'] d IH]; intros Hk; cbn; [reflexivity|].
  destruct (String.eqb_spec k' k) as [->|_].
  - exfalso. apply Hk. now left.
  - rewrite IH; [reflexivity|]. intros Hin. apply Hk. now right.
Qed.

(** A comprehension that keeps the keys, never raises and filters on the
    key is a filter followed by a map, when the keys are distinct. *)
Lemma comprehension_filter_map (keep : string -> bool) (val : json -> json)
      (items : pydict) :
  forall acc : pydict,
    NoDup (Dict.keys acc ++ Dict.keys items) ->
    Dict.comprehension
      (fun k v => if keep k then Ok (Some (k, val v)) else Ok None) items acc
    = Ok (acc ++ List.map (fun kv => (fst kv, val (snd kv)))
                          (List.filter (fun kv => keep (fst kv)) items)).
Proof.
  induction items as [|[k v] items IH]; intros acc Hnd; cbn.
  - now rewrite app_nil_r.
  - cbn [Dict.keys List.map fst] in Hnd. destruct (keep k).
    + rewrite dict_set_fresh.
      * rewrite IH.
        -- cbn. now rewrite <- app_assoc.
        -- unfold Dict.keys in *. rewrite map_app, <- app_assoc. exact Hnd.
      * apply NoDup_remove_2 in Hnd. intros Hin. apply Hnd.
        apply in_or_app. now left.
    + apply IH. now apply NoDup_remove_1 in Hnd.
Qed.

(** What holds of the accumulator and of every pair produced holds of
    the result. *)
Lemma comprehension_invariant (P : string * json -> Prop)
      (elt : string -> json -> result (option (string * json))) (items : pydict) :
  forall acc r,
    (forall k v kv, In (k, v) items -> elt k v = Ok (Some kv) -> P kv) ->
    Forall P acc ->
    Dict.comprehension elt items acc = Ok r ->
    Forall P r.
Proof.
  induction items as [|[k v] items IH]; intros acc r Helt Hacc Hrun; cbn in Hrun.
  - now injection Hrun as <-.
  - destruct (elt k v) as [[[k' v']|]|e] eqn:E; [| |discriminate].
    + apply (IH (Dict.set acc k' v') r); try assumption.
      * intros k0 v0 kv Hin. apply Helt. now right.
      * apply dict_set_Forall; [assumption|]. apply (Helt k v); [now left|assumption].
    + apply (IH acc r); try assumption.
      intros k0 v0 kv Hin. apply Helt. now right.
Qed.

Lemma comprehension_grows (elt : string -> json -> result (option (string * json)))
      (items : pydict) :
  forall acc r,
    acc <> [] -> Dict.comprehension elt items acc = Ok r -> r <> [].
Proof.
  induction items as [|[k v] items IH]; intros acc r Hacc Hrun; cbn in Hrun.
  - now injection Hrun as <-.
  - destruct (elt k v) as [[[k' v']|]|e]; [| |discriminate].
    + apply (IH _ r (dict_set_nonempty acc k' v') Hrun).
    + apply (IH acc r Hacc Hrun).
Qed.

Lemma comprehension_total (elt : string -> json -> result (option (string * json)))
      (items : pydict) :
  forall acc,
    (forall k v, In (k, v) items -> exists o, elt k v = Ok o) ->
    exists r, Dict.comprehension elt items acc = Ok r.
Proof.
  induction items as [|[k v] items IH]; intros acc Helt; cbn.
  - now exists acc.
  - destruct (Helt k v (or_introl eq_refl)) as [[[k' v']|] ->];
      apply IH; intros k0 v0 Hin; apply Helt; now right.
Qed.


Lemma comprehension_produces (elt : string -> json -> result (option (string * json)))
      (items : pydict) (k : string) (v : json) (kv : string * json) :
  forall acc r,
    In (k, v) items -> elt k v = Ok (Some kv) ->
    Dict.comprehension elt items acc = Ok r -> r <> [].
Proof.
  induction items as [|[k0 v0] items IH]; intros acc r Hin Helt Hrun; [contradiction|].
  cbn in Hrun. destruct Hin as [Heq|Hin].
  - injection Heq as -> ->. rewrite Helt in Hrun. destruct kv as [k' v'].
    apply (comprehension_grows elt items _ r (dict_set_nonempty acc k' v') Hrun).
  - destruct (elt k0 v0) as [[[k' v']|]|e]; [| |discriminate];
      apply (IH _ r Hin Helt Hrun).
Qed.

(** ** The normaliser and the fall-back loop *)

Lemma parse_response_ok (data : json) (source : string) (r : option pydict) (w : world) :
  parse_body data source = Ok r -> parse_response data source w = (Ok r, w).
Proof.
  intros H. unfold parse_response. now rewrite H.
Qed.


Lemma parse_body_untagged (data : json) (source : string) :
  schema_tag source = None -> parse_body data source = Ok None.
Proof.
  unfold schema_tag, parse_body.
  destruct (Str.contains "coindesk" source); [discriminate|].
  destruct (Str.contains "coingecko" source); [discriminate|].
  destruct (Str.contains "blockchain" source); [discriminate|].
  destruct (Str.contains "coinbase" source); [discriminate|reflexivity].
Qed.

(** One turn of the loop, written out. *)
Lemma fetch_loop_cons (n : nat) (url : string) (rest : list string)
      (p : option pydict) (w : world) :
  fetch_loop n (url :: rest) p w =
  let w1 := World (http w) (S (sent w)) (stdin w) (trace w ++ [EvAttempt n url; EvGet url]) in
  match http w (sent w) url with
  | OtherException e => (Raise e, w1)
  | RequestException =>
      fetch_loop (S n) rest p
        (World (http w) (S (sent w)) (stdin w)
               (trace w ++ [EvAttempt n url; EvGet url; EvApiError url]))
  | Body data =>
      if truthy data then
        match parse_body data url with
        | Ok r => if truthy_prices r then (Ok r, w1) else fetch_loop (S n) rest r w1
        | Raise KeyError =>
            fetch_loop (S n) rest None
              (World (http w) (S (sent w)) (stdin w)
                 (trace w ++ [EvAttempt n url; EvGet url; EvParsingError KeyError]))
        | Raise AttributeError =>
            fetch_loop (S n) rest None
              (World (http w) (S (sent w)) (stdin w)
                 (trace w ++ [EvAttempt n url; EvGet url; EvParsingError AttributeError]))
        | Raise e => (Raise e, w1)
        end
      else fetch_loop (S n) rest p w1
  end.
Proof.
  cbn [fetch_loop]. unfold bind, emit, fetch_data, http_get, bind, ret.
  cbn [http sent stdin trace].
  destruct (http w (sent w) url) as [data| |e]; cbn [http sent stdin trace truthy].
  - rewrite <- app_assoc. cbn [app].
    destruct (truthy data); [|reflexivity].
    unfold parse_response.
    destruct (parse_body data url) as [r|[]]; unfold ret, raise, bind, emit;
      cbn [http sent stdin trace]; rewrite <- ?app_assoc; cbn [app]; try reflexivity.
    destruct (truthy_prices r); reflexivity.
  - unfold emit, bind, ret. cbn [http sent stdin trace truthy].
    rewrite <- !app_assoc. reflexivity.
  - unfold raise. rewrite <- app_assoc. reflexivity.
Qed.

Lemma parse_nonempty_truthy (data : json) (url : string) (m : pydict) :
  parse_body data url = Ok (Some m) -> m <> [] -> truthy data = true.
Proof.
  intros H Hm.
  destruct data as [| | | |s|l|[|kv d]]; try reflexivity; exfalso;
    unfold parse_body in H;
    destruct (Str.contains "coindesk" url), (Str.contains "coingecko" url),
             (Str.contains "blockchain" url), (Str.contains "coinbase" url);
    cbn in H; try discriminate; injection H as <-; now apply Hm.
Qed.

Lemma falsy_body_fails (data : json) (url : string) :
  truthy data = false -> attempt_fails (Body data) url = true.
Proof.
  intros Hfalse. unfold attempt_fails, parse_body.
  destruct data as [| | | |s|l|[|kv d]]; try discriminate Hfalse;
    destruct (Str.contains "coindesk" url), (Str.contains "coingecko" url),
             (Str.contains "blockchain" url), (Str.contains "coinbase" url);
    reflexivity.
Qed.

Lemma fetch_loop_skip (n : nat) (url : string) (p : option pydict) (w : world) :
  truthy_prices p = false ->
  attempt_fails (http w (sent w) url) url = true ->
  exists p1 w1,
    (forall rest, fetch_loop n (url :: rest) p w = fetch_loop (S n) rest p1 w1) /\
    truthy_prices p1 = false /\
    http w1 = http w /\ sent w1 = S (sent w) /\ stdin w1 = stdin w /\
    fetched (trace w1) = fetched (trace w) ++ [url].
Proof.
  intros Hp Hf. unfold attempt_fails in Hf.
  destruct (http w (sent w) url) as [data| |e] eqn:Hreply; [| |discriminate].
  - destruct (truthy data) eqn:Ht.
    + destruct (parse_body data url) as [[[|kv m]|]|[]] eqn:Hb; try discriminate.
      all: eexists; eexists; split;
        [intros rest; rewrite fetch_loop_cons, Hreply; cbn zeta; rewrite Ht, Hb;
         cbn [truthy_prices]; reflexivity|].
      all: cbn [http sent stdin trace]; rewrite fetched_app; cbn [fetched];
        repeat split; reflexivity.
    + exists p. eexists. split;
        [intros rest; rewrite fetch_loop_cons, Hreply; cbn zeta; rewrite Ht; reflexivity|].
      cbn [http sent stdin trace]; rewrite fetched_app; cbn [fetched].
      repeat split; try reflexivity; assumption.
  - exists p. eexists. split;
      [intros rest; rewrite fetch_loop_cons, Hreply; reflexivity|].
    cbn [http sent stdin trace]; rewrite fetched_app; cbn [fetched].
    repeat split; try reflexivity; assumption.
Qed.

Lemma fetch_loop_prefix (pre : list string) :
  forall (n : nat) (p : option pydict) (w : world),
    truthy_prices p = false ->
    all_fail (http w) (sent w) pre = true ->
    exists p1 w1,
      (forall tail, fetch_loop n (pre ++ tail) p w
                    = fetch_loop (n + List.length pre) tail p1 w1) /\
      truthy_prices p1 = false /\
      http w1 = http w /\ sent w1 = sent w + List.length pre /\ stdin w1 = stdin w /\
      fetched (trace w1) = fetched (trace w) ++ pre.
Proof.
  induction pre as [|url pre IH]; intros n p w Hp Hall.
  - exists p, w. cbn [List.length app]. rewrite !Nat.add_0_r, app_nil_r.
    repeat split; try reflexivity; assumption.
  - cbn [all_fail] in Hall. apply andb_true_iff in Hall as [Hhead Hrest].
    destruct (fetch_loop_skip n url p w Hp Hhead)
      as (p1 & w1 & Hstep & Hp1 & Hh & Hs & Hi & Ht).
    rewrite <- Hh, <- Hs in Hrest.
    destruct (IH (S n) p1 w1 Hp1 Hrest) as (p2 & w2 & Hrun & Hp2 & Hh2 & Hs2 & Hi2 & Ht2).
    exists p2, w2. repeat split.
    + intros tail. cbn [app List.length]. rewrite Hstep, Hrun. f_equal. lia.
    + assumption.
    + congruence.
    + cbn [List.length]. lia.
    + congruence.
    + rewrite Ht2, Ht, <- app_assoc. reflexivity.
Qed.

Lemma fetch_loop_hit (n : nat) (url : string) (rest : list string)
      (p : option pydict) (w : world) (data : json) (m : pydict) :
  http w (sent w) url = Body data ->
  parse_body data url = Ok (Some m) -> m <> [] ->
  fetch_loop n (url :: rest) p w =
  (Ok (Some m),
   World (http w) (S (sent w)) (stdin w) (trace w ++ [EvAttempt n url; EvGet url])).
Proof.
  intros Hreply Hb Hm. rewrite fetch_loop_cons, Hreply. cbn zeta.
  rewrite (parse_nonempty_truthy data url m Hb Hm), Hb.
  destruct m; [contradiction|reflexivity].
Qed.

Lemma fetch_loop_origin (urls : list string) :
  forall (n : nat) (p : option pydict) (w w' : world) (m : pydict),
    truthy_prices p = false ->
    fetch_loop n urls p w = (Ok (Some m), w') -> m <> [] ->
    exists i url data,
      nth_error urls i = Some url /\
      http w (sent w + i) url = Body data /\
      parse_body data url = Ok (Some m).
Proof.
  induction urls as [|url urls IH]; intros n p w w' m Hp Hrun Hm.
  - cbn in Hrun. injection Hrun as -> _. destruct m; [contradiction|discriminate].
  - rewrite fetch_loop_cons in Hrun. cbn zeta in Hrun.
    assert (Hnext : forall p1 w1, truthy_prices p1 = false ->
                      http w1 = http w -> sent w1 = S (sent w) ->
                      fetch_loop (S n) urls p1 w1 = (Ok (Some m), w') ->
                      exists i url0 data, nth_error (url :: urls) i = Some url0 /\
                        http w (sent w + i) url0 = Body data /\
                        parse_body data url0 = Ok (Some m)).
    { intros p1 w1 Hp1 Hh Hs Hrun1.
      destruct (IH (S n) p1 w1 w' m Hp1 Hrun1 Hm) as (i & u & d & Hi & Hr & Hb).
      exists (S i), u, d. repeat split; try assumption.
      rewrite <- Hh. replace (sent w + S i) with (sent w1 + i) by lia. assumption. }
    destruct (http w (sent w) url) as [data| |e] eqn:Hreply.
    + destruct (truthy data).
      * destruct (parse_body data url) as [r|[]] eqn:Hb.
        -- destruct (truthy_prices r) eqn:Hr.
           ++ injection Hrun as -> _. exists 0, url, data.
              rewrite Nat.add_0_r. repeat split; assumption.
           ++ refine (Hnext r _ Hr _ _ Hrun); reflexivity.
        -- refine (Hnext None _ eq_refl _ _ Hrun); reflexivity.
        -- refine (Hnext None _ eq_refl _ _ Hrun); reflexivity.
        -- discriminate.
        -- discriminate.
        -- discriminate.
      * refine (Hnext p _ Hp _ _ Hrun); reflexivity.
    + refine (Hnext p _ Hp _ _ Hrun); reflexivity.
    + discriminate.
Qed.

Lemma resolve_prices_run (candidates : list string) (w : world) :
  resolve_prices candidates w =
  match fetch_loop 1 candidates None w with
  | (Ok (Some (p :: ps)), w') => (Ok (Success (p :: ps)), w')
  | (Ok _, w') => (Ok AllFailed, w')
  | (Raise e, w') => (Raise e, w')
  end.
Proof.
  unfold resolve_prices, bind.
  destruct (fetch_loop 1 candidates None w) as [[[[|p ps]|]|e] w']; reflexivity.
Qed.

Lemma main_prices_start (w : world) (answer : string) (rest : list string) :
  stdin w = answer :: rest ->
  main_prices w =
  (r <- resolve_prices (chosen_url answer :: BACKUP_APIS) ;;
   match r with
   | Success prices => ret (Success prices)
   | AllFailed => emit EvAllFailed ;; _ <- py_input exit_prompt ;; ret AllFailed
   end)
    (World (http w) (sent w) rest (trace w ++ [EvInput url_prompt])).
Proof.
  intros Hin. unfold main_prices, get_user_input, py_input, chosen_url.
  unfold bind at 1 2. rewrite Hin. cbn [tl ret].
  destruct (String.eqb (Str.strip answer) "") eqn:E.
  - reflexivity.
  - rewrite E. reflexivity.
Qed.

(** ** Properties of the orchestrator *)

(** When every candidate before [url] fails and [url] is fetched and
    normalised to a non-empty mapping [m], the orchestrator returns exactly
    [m]; the requests of the run are those for the failed candidates and
    for [url], in the order of the list, and the run is the same whatever
    candidates follow [url]: none of them is fetched or normalised. *)
Theorem first_success_wins (pre : list string) (url : string) (post : list string)
        (w : world) (data : json) (m : pydict) :
  all_fail (http w) (sent w) pre = true ->
  http w (sent w + List.length pre) url = Body data ->
  parse_body data url = Ok (Some m) ->
  m <> [] ->
  exists w',
    resolve_prices (pre ++ url :: post) w = (Ok (Success m), w') /\
    resolve_prices (pre ++ [url]) w = (Ok (Success m), w') /\
    sent w' = sent w + List.length pre + 1 /\
    fetched (trace w') = fetched (trace w) ++ pre ++ [url].
Proof.
  intros Hpre Hreply Hb Hm.
  destruct (fetch_loop_prefix pre 1 None w eq_refl Hpre)
    as (p1 & w1 & Hrun & Hp1 & Hh & Hs & _ & Ht).
  rewrite <- Hh, <- Hs in Hreply.
  exists (World (http w1) (S (sent w1)) (stdin w1)
                (trace w1 ++ [EvAttempt (1 + List.length pre) url; EvGet url])).
  assert (Hrun' : forall tail,
             resolve_prices (pre ++ url :: tail) w =
             (Ok (Success m),
              World (http w1) (S (sent w1)) (stdin w1)
                    (trace w1 ++ [EvAttempt (1 + List.length pre) url; EvGet url]))).
  { intros tail. rewrite resolve_prices_run, Hrun.
    rewrite (fetch_loop_hit _ url tail p1 w1 data m Hreply Hb Hm).
    destruct m; [contradiction|reflexivity]. }
  repeat split.
  - apply Hrun'.
  - apply Hrun'.
  - cbn [sent]. lia.
  - cbn [trace]. rewrite fetched_app, Ht. cbn [fetched]. now rewrite <- app_assoc.
Qed.

(** C1, where the code departs from it. On a network whose
    blockchain-like source answers [{"USD": 64123}], whose coinbase-like
    source answers well and whose other sources are out of reach, the first
    candidate that is fetched and normalised to a non-empty mapping is the
    coinbase-like one. The orchestrator does not return that mapping: the
    member [64123] is subscripted with ["last"], the [TypeError] is not one
    of the two exceptions that [parse_response] catches, and the run, like
    [main], ends with it after four requests, the coinbase-like source never
    being asked. *)
Theorem TypeError_before_the_first_success :
  all_fail broken_ticker 0 [DEFAULT_API; coindesk_url; coingecko_url] = true /\
  broken_ticker 3 blockchain_url = Body (JDict [("USD", JInt 64123)]) /\
  parse_body (JDict [("USD", JInt 64123)]) blockchain_url = Raise TypeError /\
  broken_ticker 4 coinbase_url = Body coinbase_fixture /\
  parse_body coinbase_fixture coinbase_url
  = Ok (Some [("USD", JStr "64123.45"); ("EUR", JStr "59001.2")]) /\
  (exists w',
      resolve_prices (DEFAULT_API :: BACKUP_APIS) (session broken_ticker [])
      = (Raise TypeError, w') /\
      sent w' = 4 /\
      fetched (trace w') = [DEFAULT_API; coindesk_url; coingecko_url; blockchain_url]) /\
  fst (main_prices (session broken_ticker [""])) = Raise TypeError.
Proof.
  split; [reflexivity|]. split; [reflexivity|]. split; [reflexivity|].
  split; [reflexivity|]. split; [reflexivity|]. split.
  - eexists. split; [vm_compute; reflexivity|]. split; reflexivity.
  - vm_compute. reflexivity.
Qed.

(** C2. A reported success carries a non-empty mapping; and a candidate
    whose fetch fails, or whose normalisation yields [None] or an empty
    mapping, records no success: the loop goes on with the next candidate,
    one request later, with [prices] still false. *)
Theorem success_is_never_empty :
  (forall candidates w w' m,
      resolve_prices candidates w = (Ok (Success m), w') -> m <> []) /\
  (forall n url p w,
      truthy_prices p = false ->
      attempt_fails (http w (sent w) url) url = true ->
      exists p1 w1,
        (forall rest, fetch_loop n (url :: rest) p w = fetch_loop (S n) rest p1 w1) /\
        truthy_prices p1 = false /\
        http w1 = http w /\ sent w1 = S (sent w) /\ stdin w1 = stdin w /\
        fetched (trace w1) = fetched (trace w) ++ [url]).
Proof.
  split.
  - intros candidates w w' m H. rewrite resolve_prices_run in H.
    destruct (fetch_loop 1 candidates None w) as [[[[|p ps]|]|e] w1];
      try discriminate; injection H as <- _; discriminate.
  - intros n url p w Hp Hf. exact (fetch_loop_skip n url p w Hp Hf).
Qed.


(** C7. A source that selects none of the four rules is normalised to
    [None]: nothing is raised, nothing is reported, no mapping is built. *)
Theorem unsupported_source_yields_None (data : json) (source : string) (w : world) :
  schema_tag source = None ->
  parse_response data source w = (Ok None, w).
Proof.
  intros Htag. apply parse_response_ok. now apply parse_body_untagged.
Qed.

(** C10. The default URL selects none of the four rules, so whatever it
    answers is normalised to [None]; when the user keeps the default, the
    mapping of a successful session is the normalised answer of one of the
    four backup sources. *)
Theorem default_api_never_succeeds :
  schema_tag DEFAULT_API = None /\
  (forall d w, parse_response d DEFAULT_API w = (Ok None, w)) /\
  (forall w answer rest m w',
      stdin w = answer :: rest ->
      Str.strip answer = "" ->
      main_prices w = (Ok (Success m), w') ->
      exists i url data,
        nth_error BACKUP_APIS i = Some url /\
        http w (sent w + 1 + i) url = Body data /\
        parse_body data url = Ok (Some m) /\
        m <> []).
Proof.
  assert (Htag : schema_tag DEFAULT_API = None) by reflexivity.
  split; [exact Htag|]. split.
  - intros d w. apply parse_response_ok. now apply parse_body_untagged.
  - intros w answer rest m w' Hin Hblank Hmain.
    rewrite (main_prices_start w answer rest Hin) in Hmain.
    unfold chosen_url in Hmain. rewrite Hblank in Hmain. cbn [String.eqb] in Hmain.
    set (w0 := World (http w) (sent w) rest (trace w ++ [EvInput url_prompt])) in Hmain.
    unfold bind at 1 in Hmain. rewrite resolve_prices_run in Hmain.
    destruct (fetch_loop 1 (DEFAULT_API :: BACKUP_APIS) None w0)
      as [[[[|p ps]|]|e] w1] eqn:Hloop.
    + unfold bind, emit, py_input, ret in Hmain. cbn [stdin http sent trace] in Hmain.
      destruct (stdin w1); discriminate.
    + cbn [ret] in Hmain. injection Hmain as <- <-.
      destruct (fetch_loop_origin _ 1 None w0 w1 (p :: ps) eq_refl Hloop)
        as (i & url & data & Hi & Hr & Hb); [discriminate|].
      destruct i as [|i]; cbn [nth_error] in Hi.
      * injection Hi as <-. rewrite (parse_body_untagged data DEFAULT_API Htag) in Hb.
        discriminate.
      * exists i, url, data. repeat split; try assumption; [|discriminate].
        cbn [http sent w0] in Hr. now replace (sent w + 1 + i) with (sent w + S i) by lia.
    + unfold bind, emit, py_input, ret in Hmain. cbn [stdin http sent trace] in Hmain.
      destruct (stdin w1); discriminate.
    + discriminate.
Qed.

(** ** Properties of the normaliser *)

Ltac by_schema Htag :=
  unfold schema_tag in Htag; unfold parse_body;
  repeat match type of Htag with
         | (if ?c then _ else _) = _ => destruct c; try discriminate Htag
         end.


(** A first member that is not an object makes the subscript raise
    [TypeError], which the handler does not catch: the exception leaves
    [parse_response]. *)
Lemma non_object_member_raises (source k : string) (v : json) (post : pydict) (w : world) :
  schema_tag source = Some Blockchain ->
  (forall info, v <> JDict info) ->
  parse_response (JDict ((k, v) :: post)) source w = (Raise TypeError, w).
Proof.
  intros Htag Hv. unfold parse_response.
  assert (Hbody : parse_body (JDict ((k, v) :: post)) source = Raise TypeError).
  { by_schema Htag. destruct v; try reflexivity. now destruct (Hv d). }
  now rewrite Hbody.
Qed.

(** C4. The coinbase-like rule outputs the entries of [data.rates] other
    than the one keyed BTC, in their order, each with its value
    stringified; so BTC is not a key of the output. *)
Theorem coinbase_never_lists_BTC (source : string) (d dd rates : pydict) (w : world) :
  schema_tag source = Some Coinbase ->
  Dict.get d "data" = Some (JDict dd) ->
  Dict.get dd "rates" = Some (JDict rates) ->
  NoDup (Dict.keys rates) ->
  exists m,
    parse_response (JDict d) source w = (Ok (Some m), w) /\
    ~ In "BTC" (Dict.keys m) /\
    m = List.map (fun kv => (fst kv, JStr (py_str (snd kv))))
                 (List.filter (fun kv => negb (String.eqb (fst kv) "BTC")) rates).
Proof.
  intros Htag Hd Hr Hnd. eexists. split; [|split; [|reflexivity]].
  - apply parse_response_ok. by_schema Htag. cbn [py_get rbind]. rewrite Hd.
    cbn [py_get rbind]. rewrite Hr. cbn [py_items rbind].
    rewrite (comprehension_filter_map (fun k => negb (String.eqb k "BTC"))
                                      (fun v => JStr (py_str v)) rates []).
    + reflexivity.
    + exact Hnd.
  - unfold Dict.keys. rewrite map_map. cbn [fst]. intros Hin.
    apply in_map_iff in Hin as ([k v] & Hk & Hkv). cbn in Hk. subst k.
    apply filter_In in Hkv as [_ Hkeep]. discriminate.
Qed.

(** C5. For each of the four schemas, a well-formed fixture is normalised,
    without any report, to a non-empty mapping whose keys are upper-case
    and whose values are strings. *)
Theorem fixtures_normalise (t : schema) (source : string) (data : json) (w : world) :
  schema_tag source = Some t ->
  well_formed_fixture t data ->
  exists m,
    parse_response data source w = (Ok (Some m), w) /\
    m <> [] /\
    Forall (fun kv => uppercase (fst kv) /\ is_str (snd kv)) m.
Proof.
  intros Htag Hwf.
  assert (Hgoal : forall elt items,
             parse_body data source
             = (let* m := Dict.comprehension elt items [] in Ok (Some m)) ->
             (forall k v, In (k, v) items ->
                          exists o, elt k v = Ok o /\
                                    match o with
                                    | Some kv => uppercase (fst kv) /\ is_str (snd kv)
                                    | None => True
                                    end) ->
             (exists k v kv, In (k, v) items /\ elt k v = Ok (Some kv)) ->
             exists m,
               parse_response data source w = (Ok (Some m), w) /\
               m <> [] /\
               Forall (fun kv => uppercase (fst kv) /\ is_str (snd kv)) m).
  { intros elt items Hbody Helt (k & v & kv & Hin & Hkv).
    destruct (comprehension_total elt items []) as [m Hm].
    { intros k0 v0 Hin0. destruct (Helt k0 v0 Hin0) as (o & -> & _). eauto. }
    exists m. repeat split.
    - apply parse_response_ok. rewrite Hbody, Hm. reflexivity.
    - exact (comprehension_produces elt items k v kv [] m Hin Hkv Hm).
    - apply (comprehension_invariant _ elt items [] m); [|constructor|exact Hm].
      intros k0 v0 kv0 Hin0 Hkv0. destruct (Helt k0 v0 Hin0) as (o & Ho & HP).
      rewrite Hkv0 in Ho. injection Ho as <-. exact HP. }
  destruct t; cbn [well_formed_fixture] in Hwf.
  - destruct Hwf as (d & bpi & -> & Hbpi & Hne & Hall).
    rewrite Forall_forall in Hall.
    apply (Hgoal (fun curr info => let* rate := py_getitem info "rate" in
                                   Ok (Some (curr, rate))) bpi).
    + by_schema Htag. cbn [py_get rbind]. rewrite Hbpi. reflexivity.
    + intros k v Hin. destruct (Hall _ Hin) as (Hu & info & rate & Hv & Hrate).
      cbn in Hu, Hv. subst v. cbn. rewrite Hrate. cbn.
      eexists. split; [reflexivity|]. split; [exact Hu|now exists rate].
    + destruct bpi as [|[k v] bpi]; [contradiction|].
      destruct (Hall _ (or_introl eq_refl)) as (_ & info & rate & Hv & Hrate).
      cbn in Hv. subst v. exists k, (JDict info). eexists. split; [now left|].
      cbn. rewrite Hrate. reflexivity.
  - destruct Hwf as (d & bitcoin & -> & Hb & Hne).
    apply (Hgoal (fun curr price => Ok (Some (Str.upper curr, JStr (py_str price))))
                 bitcoin).
    + by_schema Htag. cbn [py_get rbind]. rewrite Hb. reflexivity.
    + intros k v Hin. eexists. split; [reflexivity|]. split.
      * apply upper_idempotent.
      * now eexists.
    + destruct bitcoin as [|[k v] bitcoin]; [contradiction|].
      exists k, v. eexists. split; [now left|reflexivity].
  - destruct Hwf as (d & -> & Hne & Hall).
    rewrite Forall_forall in Hall.
    apply (Hgoal (fun curr info => let* last := py_getitem info "last" in
                                   Ok (Some (curr, JStr (py_str last)))) d).
    + by_schema Htag. reflexivity.
    + intros k v Hin. destruct (Hall _ Hin) as (Hu & info & last & Hv & Hlast).
      cbn in Hu, Hv. subst v. cbn. rewrite Hlast. cbn.
      eexists. split; [reflexivity|]. split; [exact Hu|now eexists].
    + destruct d as [|[k v] d]; [contradiction|].
      destruct (Hall _ (or_introl eq_refl)) as (_ & info & last & Hv & Hlast).
      cbn in Hv. subst v. exists k, (JDict info). eexists. split; [now left|].
      cbn. rewrite Hlast. reflexivity.
  - destruct Hwf as (d & dd & rates & -> & Hd & Hr & Hall & [k v] & Hin & Hk).
    rewrite Forall_forall in Hall. cbn in Hk.
    apply (Hgoal (fun curr rate => if negb (String.eqb curr "BTC")
                                   then Ok (Some (curr, JStr (py_str rate)))
                                   else Ok None) rates).
    + by_schema Htag. cbn [py_get rbind]. rewrite Hd. cbn [py_get rbind].
      rewrite Hr. reflexivity.
    + intros k0 v0 Hin0. destruct (negb (String.eqb k0 "BTC")).
      * eexists. split; [reflexivity|]. split; [exact (Hall _ Hin0)|now eexists].
      * eexists. split; [reflexivity|exact I].
    + exists k, v. eexists. split; [exact Hin|].
      apply String.eqb_neq in Hk. rewrite Hk. reflexivity.
Qed.

(** ** Formatting *)

(** C8. The two examples of the specification, and the rule behind the
    second: a price that [float] rejects once its commas are removed comes
    back as it is, behind the symbol of the currency, which is empty for a
    currency without a symbol. *)
Theorem format_price_examples :
  format_price "USD" "1234.5" = "$1,234.50" /\
  format_price "XYZ" "not-a-number" = "not-a-number" /\
  (forall currency price symbol,
      assoc_get CURRENCY_SYMBOLS currency = Some symbol ->
      PyFloat.py_float (Str.remove "," price) = None ->
      format_price currency price = (symbol ++ price)%string) /\
  (forall currency price,
      assoc_get CURRENCY_SYMBOLS currency = None ->
      PyFloat.py_float (Str.remove "," price) = None ->
      format_price currency price = price).
Proof.
  split; [vm_compute; reflexivity|]. split; [vm_compute; reflexivity|]. split.
  - intros currency price symbol Hsym Hbad. unfold format_price.
    now rewrite Hsym, Hbad.
  - intros currency price Hsym Hbad. unfold format_price.
    now rewrite Hsym, Hbad.
Qed.

(** ** Currency selection *)

Lemma upper_empty (s : string) : Str.upper s = "" -> s = "".
Proof.
  destruct s; [reflexivity|discriminate].
Qed.

Lemma mem_In (x : string) (l : list string) : Str.mem x l = true <-> In x l.
Proof.
  unfold Str.mem. rewrite existsb_exists. split.
  - intros (y & Hy & Heq). apply String.eqb_eq in Heq. now subst.
  - intros Hin. exists x. split; [assumption|apply String.eqb_refl].
Qed.

Lemma no_invalid_all_valid (available l : list string) :
  List.filter (fun c => negb (Str.mem c available)) l = [] <->
  Forall (fun c => In c available) l.
Proof.
  induction l as [|c l IH]; cbn.
  - split; [constructor|reflexivity].
  - destruct (Str.mem c available) eqn:E; cbn.
    + rewrite IH. split.
      * intros H. constructor; [now apply mem_In|assumption].
      * intros H. now inversion H.
    + split; [discriminate|].
      intros H. inversion H as [|? ? Hc _]. apply mem_In in Hc. congruence.
Qed.

Lemma select_loop_unfold (turns : nat) (available : list string) :
  select_loop turns available =
  (r <- select_turn available ;;
   match r with
   | Some selected => ret selected
   | None => match turns with
             | O => raise EOFError
             | S turns' => select_loop turns' available
             end
   end).
Proof.
  destruct turns; reflexivity.
Qed.

(** One turn of the selection loop, written out. *)
Lemma select_turn_run (available : list string) (w : world) :
  select_turn available w =
  let w1 := World (http w) (sent w) (tl (stdin w)) (trace w ++ [EvInput select_prompt]) in
  match stdin w with
  | [] => (Raise EOFError, w1)
  | line :: _ =>
      if String.eqb (Str.strip line) "" then (Ok (Some available), w1)
      else
        match List.filter (fun c => negb (Str.mem c available)) (codes_of line) with
        | [] => (Ok (Some (codes_of line)), w1)
        | c :: cs =>
            (Ok None,
             World (http w) (sent w) (tl (stdin w))
                   (trace w ++ [EvInput select_prompt; EvInvalid (c :: cs)]))
        end
  end.
Proof.
  unfold select_turn, get_user_input, py_input, codes_of. unfold bind at 1 2.
  destruct (stdin w) as [|line rest]; [reflexivity|]. cbn [tl ret].
  destruct (String.eqb_spec (Str.strip line) "") as [Hblank|Hsome].
  - reflexivity.
  - destruct (String.eqb_spec (Str.upper (Str.strip line)) "") as [Hup|_].
    + apply upper_empty in Hup. contradiction.
    + destruct (List.filter _ _); [reflexivity|].
      unfold bind, emit, ret. cbn [http sent stdin trace].
      now rewrite <- app_assoc.
Qed.

(** The bound on the turns is never the reason why the loop ends. *)
Lemma select_loop_turns (available : list string) :
  forall turns w,
    List.length (stdin w) <= turns ->
    select_loop turns available w = select_loop (List.length (stdin w)) available w.
Proof.
  induction turns as [|turns IH]; intros w Hlen.
  - now replace (List.length (stdin w)) with 0 by lia.
  - rewrite (select_loop_unfold (S turns)), (select_loop_unfold (List.length (stdin w))).
    unfold bind. rewrite select_turn_run. cbn zeta.
    destruct (stdin w) as [|line rest] eqn:Hin; [reflexivity|].
    destruct (String.eqb (Str.strip line) ""); [reflexivity|].
    destruct (List.filter _ _); [reflexivity|].
    cbn [List.length tl]. cbn [List.length] in Hlen.
    rewrite IH by (cbn [stdin]; lia). reflexivity.
Qed.

(** The loop starts by asking its question, whatever comes next. *)
Lemma select_loop_asks (available : list string) :
  forall turns w,
  exists more,
    trace (snd (select_loop turns available w))
    = trace w ++ EvInput select_prompt :: more.
Proof.
  induction turns as [|turns IH]; intros w;
    rewrite select_loop_unfold; unfold bind; rewrite select_turn_run; cbn zeta;
    destruct (stdin w) as [|line rest]; try (now exists []);
    destruct (String.eqb (Str.strip line) ""); try (now exists []);
    destruct (List.filter _ _) as [|c0 cs]; try (now exists []).
  - now exists [EvInvalid (c0 :: cs)].
  - destruct (IH (World (http w) (sent w) (tl (line :: rest))
                        (trace w ++ [EvInput select_prompt; EvInvalid (c0 :: cs)])))
      as [more Hmore].
    exists (EvInvalid (c0 :: cs) :: EvInput select_prompt :: more).
    rewrite Hmore. cbn [trace]. now rewrite <- app_assoc.
Qed.

Lemma select_loop_accepts (available : list string) :
  forall turns w selected w',
    select_loop turns available w = (Ok selected, w') ->
    selected = available \/
    exists line,
      In line (stdin w) /\ selected = codes_of line /\
      Forall (fun c => In c available) selected.
Proof.
  induction turns as [|turns IH]; intros w selected w' Hrun;
    rewrite select_loop_unfold in Hrun; unfold bind in Hrun;
    rewrite select_turn_run in Hrun; cbn zeta in Hrun;
    destruct (stdin w) as [|line rest] eqn:Hin; try discriminate;
    destruct (String.eqb (Str.strip line) "");
    try (injection Hrun as <- _; now left);
    destruct (List.filter _ _) as [|c0 cs] eqn:Hinv;
    try (injection Hrun as <- _; right; exists line;
         split; [now left|split; [reflexivity|now apply no_invalid_all_valid]]).
  - discriminate.
  - destruct (IH _ _ _ Hrun) as [->|(l & Hl & Hsel & Hall)]; [now left|].
    right. exists l. cbn [stdin tl] in Hl. split; [now right|now split].
Qed.

(** C9. With USD, EUR and GBP on offer, in any order, the line [usd, eur]
    selects USD and EUR; a line naming a code that is not on offer selects nothing:
    the complaint is printed and the same question is asked again, of
    the lines that follow; a blank line selects all that is on offer; and
    whatever is selected is either all that is on offer or the codes of
    one line, all of them on offer. *)
Theorem select_currencies_validates :
  (forall available net k rest t,
      (forall c, In c available <-> c = "USD" \/ c = "EUR" \/ c = "GBP") ->
      select_currencies available (World net k ("usd, eur" :: rest) t) =
      (Ok ["USD"; "EUR"],
       World net k rest
             (t ++ [EvAvailable (sorted available); EvInput select_prompt]))) /\
  (forall available line net k rest t,
      Str.strip line <> "" ->
      (exists c, In c (codes_of line) /\ ~ In c available) ->
      exists invalid,
        invalid <> [] /\
        invalid = List.filter (fun c => negb (Str.mem c available)) (codes_of line) /\
        select_currencies available (World net k (line :: rest) t) =
        select_loop (List.length rest) available
          (World net k rest
                 (t ++ [EvAvailable (sorted available); EvInput select_prompt;
                        EvInvalid invalid])) /\
        exists more,
          trace (snd (select_currencies available (World net k (line :: rest) t))) =
          t ++ [EvAvailable (sorted available); EvInput select_prompt;
                EvInvalid invalid; EvInput select_prompt] ++ more) /\
  (forall available line net k rest t,
      Str.strip line = "" ->
      select_currencies available (World net k (line :: rest) t) =
      (Ok available,
       World net k rest (t ++ [EvAvailable (sorted available); EvInput select_prompt]))) /\
  (forall available w selected w',
      select_currencies available w = (Ok selected, w') ->
      selected = available \/
      exists line,
        In line (stdin w) /\ selected = codes_of line /\
        Forall (fun c => In c available) selected).
Proof.
  assert (Hstart : forall available net k lines t,
             select_currencies available (World net k lines t) =
             select_loop (List.length lines) available
               (World net k lines (t ++ [EvAvailable (sorted available)]))).
  { reflexivity. }
  repeat split.
  - intros available net k rest t Hset. rewrite Hstart, select_loop_unfold. unfold bind.
    rewrite select_turn_run. cbn [stdin tl http sent trace]. cbn zeta.
    replace (String.eqb (Str.strip "usd, eur") "") with false by reflexivity.
    replace (codes_of "usd, eur") with ["USD"; "EUR"] by reflexivity.
    assert (Hvalid : List.filter (fun c => negb (Str.mem c available)) ["USD"; "EUR"] = []).
    { apply no_invalid_all_valid. repeat constructor; apply Hset; auto. }
    rewrite Hvalid. now rewrite <- app_assoc.
  - intros available line net k rest t Hsome (c & Hc & Hbad).
    exists (List.filter (fun c => negb (Str.mem c available)) (codes_of line)).
    assert (Hne : List.filter (fun c => negb (Str.mem c available)) (codes_of line) <> []).
    { intros Hnil. apply no_invalid_all_valid in Hnil. rewrite Forall_forall in Hnil.
      now apply Hbad, Hnil. }
    split; [exact Hne|]. split; [reflexivity|].
    assert (Hagain :
              select_currencies available (World net k (line :: rest) t) =
              select_loop (List.length rest) available
                (World net k rest
                   (t ++ [EvAvailable (sorted available); EvInput select_prompt;
                          EvInvalid (List.filter (fun c => negb (Str.mem c available))
                                                 (codes_of line))]))).
    { rewrite Hstart. cbn [List.length]. rewrite select_loop_unfold. unfold bind.
      rewrite select_turn_run. cbn [stdin tl http sent trace]. cbn zeta.
      apply String.eqb_neq in Hsome. rewrite Hsome.
      destruct (List.filter _ _) as [|c0 cs]; [contradiction|].
      now rewrite <- app_assoc. }
    split; [exact Hagain|].
    rewrite Hagain.
    destruct (select_loop_asks available (List.length rest)
                (World net k rest
                   (t ++ [EvAvailable (sorted available); EvInput select_prompt;
                          EvInvalid (List.filter (fun c => negb (Str.mem c available))
                                                 (codes_of line))])))
      as [more Hmore].
    exists more. rewrite Hmore. cbn [trace]. now rewrite <- app_assoc.
  - intros available line net k rest t Hblank.
    rewrite Hstart, select_loop_unfold. unfold bind.
    rewrite select_turn_run. cbn [stdin tl http sent trace]. cbn zeta.
    rewrite Hblank. cbn [String.eqb]. unfold ret. now rewrite <- app_assoc.
  - intros available w selected w' Hrun. destruct w as [net k lines t].
    rewrite Hstart in Hrun. apply select_loop_accepts in Hrun. exact Hrun.
Qed.

(** * Further properties of the code *)

(** ** What can leave the normaliser *)

Lemma rbind_raise {A B : Type} (r : result A) (k : A -> result B) (e : exn) :
  rbind r k = Raise e -> r = Raise e \/ exists a, r = Ok a /\ k a = Raise e.
Proof.
  destruct r as [a|e0]; cbn; intros H.
  - right. now exists a.
  - left. injection H as <-. reflexivity.
Qed.

Lemma py_get_raises (v : json) (k : string) (default : json) (e : exn) :
  py_get v k default = Raise e -> e = AttributeError.
Proof.
  destruct v; cbn; intros H; try discriminate; now injection H.
Qed.

Lemma py_items_raises (v : json) (e : exn) :
  py_items v = Raise e -> e = AttributeError.
Proof.
  destruct v; cbn; intros H; try discriminate; now injection H.
Qed.

Lemma py_getitem_raises (v : json) (k : string) (e : exn) :
  py_getitem v k = Raise e -> e = KeyError \/ e = TypeError.
Proof.
  destruct v; cbn; intros H; try (injection H as <-; now right).
  destruct (Dict.get d k); [discriminate|]. injection H as <-. now left.
Qed.

Lemma comprehension_raise_only (P : exn -> Prop)
      (elt : string -> json -> result (option (string * json))) (items : pydict) :
  forall acc e,
    (forall k v e0, elt k v = Raise e0 -> P e0) ->
    Dict.comprehension elt items acc = Raise e -> P e.
Proof.
  induction items as [|[k v] items IH]; intros acc e Helt Hrun; cbn in Hrun.
  - discriminate.
  - destruct (elt k v) as [[[k' v']|]|e0] eqn:E.
    + apply (IH _ e Helt Hrun).
    + apply (IH _ e Helt Hrun).
    + injection Hrun as <-. apply (Helt k v e0 E).
Qed.

Lemma comprehension_never_raises
      (elt : string -> json -> result (option (string * json))) (items : pydict)
      (acc : pydict) (e : exn) :
  (forall k v, exists o, elt k v = Ok o) ->
  Dict.comprehension elt items acc <> Raise e.
Proof.
  intros Helt Hrun.
  apply (comprehension_raise_only (fun _ => False) elt items acc e); [|exact Hrun].
  intros k v e0 H. destruct (Helt k v) as [o Ho]. congruence.
Qed.

(** The exceptions of the [try] block: an [AttributeError] under any rule,
    a [KeyError] or a [TypeError] only under the two rules that subscript
    the members. *)
Lemma parse_body_raises (data : json) (source : string) (e : exn) :
  parse_body data source = Raise e ->
  e = AttributeError \/
  ((e = KeyError \/ e = TypeError) /\
   (schema_tag source = Some Coindesk \/ schema_tag source = Some Blockchain)).
Proof.
  unfold parse_body, schema_tag. intros H.
  destruct (Str.contains "coindesk" source);
    [|destruct (Str.contains "coingecko" source);
      [|destruct (Str.contains "blockchain" source);
        [|destruct (Str.contains "coinbase" source); [|discriminate]]]].
  - apply rbind_raise in H as [H|(bpi & _ & H)];
      [left; exact (py_get_raises _ _ _ _ H)|].
    apply rbind_raise in H as [H|(items & _ & H)];
      [left; exact (py_items_raises _ _ H)|].
    apply rbind_raise in H as [H|(m & _ & H)]; [|discriminate].
    right. split; [|now left].
    refine (comprehension_raise_only (fun e0 => e0 = KeyError \/ e0 = TypeError)
              _ items [] e _ H).
    intros k v e0 Hk. apply rbind_raise in Hk as [Hk|(rate & _ & Hk)]; [|discriminate].
    exact (py_getitem_raises _ _ _ Hk).
  - apply rbind_raise in H as [H|(bitcoin & _ & H)];
      [left; exact (py_get_raises _ _ _ _ H)|].
    apply rbind_raise in H as [H|(items & _ & H)];
      [left; exact (py_items_raises _ _ H)|].
    apply rbind_raise in H as [H|(m & _ & H)]; [|discriminate].
    exfalso. revert H. apply comprehension_never_raises. intros k v. eauto.
  - apply rbind_raise in H as [H|(items & _ & H)];
      [left; exact (py_items_raises _ _ H)|].
    apply rbind_raise in H as [H|(m & _ & H)]; [|discriminate].
    right. split; [|now right].
    refine (comprehension_raise_only (fun e0 => e0 = KeyError \/ e0 = TypeError)
              _ items [] e _ H).
    intros k v e0 Hk. apply rbind_raise in Hk as [Hk|(last & _ & Hk)]; [|discriminate].
    exact (py_getitem_raises _ _ _ Hk).
  - apply rbind_raise in H as [H|(d & _ & H)];
      [left; exact (py_get_raises _ _ _ _ H)|].
    apply rbind_raise in H as [H|(rates & _ & H)];
      [left; exact (py_get_raises _ _ _ _ H)|].
    apply rbind_raise in H as [H|(items & _ & H)];
      [left; exact (py_items_raises _ _ H)|].
    apply rbind_raise in H as [H|(m & _ & H)]; [|discriminate].
    exfalso. revert H. apply comprehension_never_raises. intros k v.
    destruct (negb (String.eqb k "BTC")); eauto.
Qed.

(** X1. The only exception that leaves [parse_response] is [TypeError]; it
    leaves before anything is printed, and only under the coindesk-like and
    the blockchain-like rules, the two that subscript the members. *)
Theorem only_TypeError_leaves_parse_response
        (data : json) (source : string) (w w' : world) (e : exn) :
  parse_response data source w = (Raise e, w') ->
  e = TypeError /\ w' = w /\
  (schema_tag source = Some Coindesk \/ schema_tag source = Some Blockchain).
Proof.
  unfold parse_response. intros H.
  destruct (parse_body data source) as [r|e0] eqn:Hb.
  - discriminate.
  - destruct (parse_body_raises data source e0 Hb) as [->|[[->| ->] Htag]];
      try discriminate.
    injection H as <- <-. repeat split. exact Htag.
Qed.

(** X2. The test [if data:] of [main] hides no prices: a body that it
    skips would have been normalised, without an exception, to [None] or
    to an empty mapping. *)
Theorem falsy_body_has_no_prices (data : json) (url : string) (w : world) :
  truthy data = false ->
  exists r w',
    parse_response data url w = (Ok r, w') /\ truthy_prices r = false.
Proof.
  intros Hfalse. pose proof (falsy_body_fails data url Hfalse) as Hf.
  unfold attempt_fails in Hf. unfold parse_response.
  destruct (parse_body data url) as [[[|kv m]|]|[]]; try discriminate;
    eexists; eexists; split; reflexivity.
Qed.

Lemma dict_set_keys (d : pydict) (k : string) (v : json) :
  Dict.keys (Dict.set d k v)
  = if Str.mem k (Dict.keys d) then Dict.keys d else Dict.keys d ++ [k].
Proof.
  induction d as [|[k' v'] d IH]; cbn; [reflexivity|].
  rewrite (String.eqb_sym k k'). destruct (String.eqb k' k) eqn:E; cbn.
  - reflexivity.
  - unfold Dict.keys, Str.mem in IH. rewrite IH.
    now destruct (existsb (String.eqb k) (List.map fst d)).
Qed.

Lemma dict_set_NoDup (d : pydict) (k : string) (v : json) :
  NoDup (Dict.keys d) -> NoDup (Dict.keys (Dict.set d k v)).
Proof.
  intros Hd. rewrite dict_set_keys. destruct (Str.mem k (Dict.keys d)) eqn:E.
  - exact Hd.
  - apply NoDup_app; [exact Hd|repeat constructor; intros []|].
    intros x Hx [<-|[]]. apply mem_In in Hx. congruence.
Qed.

Lemma comprehension_NoDup
      (elt : string -> json -> result (option (string * json))) (items : pydict) :
  forall acc r,
    NoDup (Dict.keys acc) ->
    Dict.comprehension elt items acc = Ok r -> NoDup (Dict.keys r).
Proof.
  induction items as [|[k v] items IH]; intros acc r Hacc Hrun; cbn in Hrun.
  - now injection Hrun as <-.
  - destruct (elt k v) as [[[k' v']|]|e]; [| |discriminate].
    + apply (IH _ r (dict_set_NoDup acc k' v' Hacc) Hrun).
    + apply (IH _ r Hacc Hrun).
Qed.

(** The association list returned by [parse_response] is a dictionary:
    its keys are pairwise distinct, whatever the document. *)
Lemma normalised_keys_are_distinct
        (data : json) (source : string) (w w' : world) (m : pydict) :
  parse_response data source w = (Ok (Some m), w') ->
  NoDup (Dict.keys m).
Proof.
  unfold parse_response. intros H.
  destruct (parse_body data source) as [r|e] eqn:Hb.
  - injection H as -> _. unfold parse_body in Hb.
    assert (Hcomp : forall elt items,
               (let* m0 := Dict.comprehension elt items [] in Ok (Some m0))
               = Ok (Some m) -> NoDup (Dict.keys m)).
    { intros elt items Hc.
      destruct (Dict.comprehension elt items []) as [m0|e0] eqn:E; [|discriminate].
      injection Hc as <-. apply (comprehension_NoDup elt items [] m0); [constructor|exact E]. }
    destruct (Str.contains "coindesk" source);
      [|destruct (Str.contains "coingecko" source);
        [|destruct (Str.contains "blockchain" source);
          [|destruct (Str.contains "coinbase" source); [|discriminate]]]].
    + destruct (py_get data "bpi" (JDict [])) as [bpi|]; [|discriminate].
      cbn [rbind] in Hb. destruct (py_items bpi) as [items|]; [|discriminate].
      exact (Hcomp _ _ Hb).
    + destruct (py_get data "bitcoin" (JDict [])) as [b|]; [|discriminate].
      cbn [rbind] in Hb. destruct (py_items b) as [items|]; [|discriminate].
      exact (Hcomp _ _ Hb).
    + destruct (py_items data) as [items|]; [|discriminate].
      exact (Hcomp _ _ Hb).
    + destruct (py_get data "data" (JDict [])) as [d|]; [|discriminate].
      cbn [rbind] in Hb. destruct (py_get d "rates" (JDict [])) as [rates|]; [|discriminate].
      cbn [rbind] in Hb. destruct (py_items rates) as [items|]; [|discriminate].
      exact (Hcomp _ _ Hb).
  - destruct e; discriminate.
Qed.

Lemma dict_get_set_same (d : pydict) (k : string) (v : json) :
  Dict.get (Dict.set d k v) k = Some v.
Proof.
  induction d as [|[k' v'] d IH]; cbn.
  - now rewrite String.eqb_refl.
  - destruct (String.eqb k' k) eqn:E; cbn; now rewrite E.
Qed.

Lemma dict_get_set_other (d : pydict) (k k' : string) (v : json) :
  k' <> k -> Dict.get (Dict.set d k' v) k = Dict.get d k.
Proof.
  intros Hne. induction d as [|[k0 v0] d IH]; cbn.
  - destruct (String.eqb_spec k' k); [contradiction|reflexivity].
  - destruct (String.eqb_spec k0 k') as [->|Hk0]; cbn.
    + destruct (String.eqb_spec k' k); [contradiction|reflexivity].
    + now rewrite IH.
Qed.

Lemma dict_set_In_keys (d : pydict) (k : string) (v : json) (c : string) :
  In c (Dict.keys (Dict.set d k v)) <-> In c (Dict.keys d) \/ c = k.
Proof.
  rewrite dict_set_keys. destruct (Str.mem k (Dict.keys d)) eqn:E.
  - split; [now left|]. intros [H| ->]; [exact H|]. now apply mem_In.
  - rewrite in_app_iff. cbn. intuition congruence.
Qed.

(** A comprehension that renames every key with [f] and maps every value
    with [g]: the keys of the result are the images of the keys, and a key
    of the result holds the value of the last item that is renamed to it. *)
Lemma comprehension_renamed (f : string -> string) (g : json -> json) (items : pydict) :
  forall acc,
  exists r,
    Dict.comprehension (fun k v => Ok (Some (f k, g v))) items acc = Ok r /\
    (forall c, In c (Dict.keys r) <->
               In c (Dict.keys acc) \/ exists k, In k (Dict.keys items) /\ f k = c) /\
    (forall c, (forall k, In k (Dict.keys items) -> f k <> c) ->
               Dict.get r c = Dict.get acc c) /\
    (forall pre k v post,
        items = pre ++ (k, v) :: post ->
        (forall k', In k' (Dict.keys post) -> f k' <> f k) ->
        Dict.get r (f k) = Some (g v)).
Proof.
  induction items as [|[k0 v0] items IH]; intros acc.
  - exists acc. split; [reflexivity|]. split; [|split].
    + intros c. split; [now left|]. intros [H|(k & [] & _)]. exact H.
    + reflexivity.
    + intros [|? pre] k v post H; discriminate H.
  - destruct (IH (Dict.set acc (f k0) (g v0))) as (r & Hrun & Hkeys & Hkeep & Hlast).
    exists r. cbn [Dict.comprehension]. split; [exact Hrun|]. split; [|split].
    + intros c. rewrite Hkeys, dict_set_In_keys. cbn [Dict.keys List.map fst In].
      split.
      * intros [[H| ->]|(k & Hk & Hf)].
        -- now left.
        -- right. exists k0. split; [now left|reflexivity].
        -- right. exists k. split; [now right|exact Hf].
      * intros [H|(k & [<-|Hk] & Hf)].
        -- left. now left.
        -- left. right. now symmetry.
        -- right. now exists k.
    + intros c Hc. rewrite Hkeep.
      * apply dict_get_set_other. apply Hc. now left.
      * intros k Hk. apply Hc. now right.
    + intros [|[k1 v1] pre] k v post Hsplit Hpost; cbn [app] in Hsplit;
        injection Hsplit as -> -> ->.
      * rewrite (Hkeep (f k) Hpost). apply dict_get_set_same.
      * apply (Hlast pre k v post eq_refl Hpost).
Qed.

(** X3. Codes that differ only by their case meet after the upper-casing
    of the coingecko-like rule and share one entry: the mapping returned
    has the upper-cased codes as its keys, each once, and a code holds the
    price of the last member that is upper-cased to it, stringified. *)
Theorem codes_that_meet_share_one_entry
        (source : string) (d bitcoin : pydict) (w : world) :
  schema_tag source = Some Coingecko ->
  Dict.get d "bitcoin" = Some (JDict bitcoin) ->
  exists m,
    parse_response (JDict d) source w = (Ok (Some m), w) /\
    NoDup (Dict.keys m) /\
    (forall c, In c (Dict.keys m) <->
               exists k, In k (Dict.keys bitcoin) /\ Str.upper k = c) /\
    (forall pre k v post,
        bitcoin = pre ++ (k, v) :: post ->
        (forall k', In k' (Dict.keys post) -> Str.upper k' <> Str.upper k) ->
        Dict.get m (Str.upper k) = Some (JStr (py_str v))).
Proof.
  intros Htag Hbitcoin.
  destruct (comprehension_renamed Str.upper (fun v => JStr (py_str v)) bitcoin [])
    as (m & Hrun & Hkeys & _ & Hlast).
  exists m. split; [|split; [|split]].
  - apply parse_response_ok. by_schema Htag.
    cbn [py_get rbind]. rewrite Hbitcoin. cbn [py_items rbind]. now rewrite Hrun.
  - refine (comprehension_NoDup _ bitcoin [] m _ Hrun). constructor.
  - intros c. rewrite Hkeys. cbn [Dict.keys List.map In]. intuition.
  - exact Hlast.
Qed.

(** X4. Only the coindesk-like rule can return a price that is not a
    string: the three other rules stringify every value they output, so
    what they return is fit for [format_price]. *)
Theorem only_coindesk_prices_may_not_be_strings
        (data : json) (source : string) (w w' : world) (m : pydict) :
  parse_response data source w = (Ok (Some m), w') ->
  Str.contains "coindesk" source = false ->
  Forall (fun kv => is_str (snd kv)) m.
Proof.
  unfold parse_response. intros H Hsource.
  destruct (parse_body data source) as [r|e] eqn:Hb;
    [|destruct e; discriminate].
  injection H as -> _. unfold parse_body in Hb. rewrite Hsource in Hb.
  assert (Hcomp : forall elt items,
             (forall k v kv, elt k v = Ok (Some kv) -> is_str (snd kv)) ->
             (let* m0 := Dict.comprehension elt items [] in Ok (Some m0))
             = Ok (Some m) -> Forall (fun kv => is_str (snd kv)) m).
  { intros elt items Helt Hc.
    destruct (Dict.comprehension elt items []) as [m0|e0] eqn:E; [|discriminate].
    injection Hc as <-.
    apply (comprehension_invariant (fun kv => is_str (snd kv)) elt items [] m0);
      [|constructor|exact E].
    intros k v kv _. apply Helt. }
  destruct (Str.contains "coingecko" source);
    [|destruct (Str.contains "blockchain" source);
      [|destruct (Str.contains "coinbase" source); [|discriminate]]].
  - destruct (py_get data "bitcoin" (JDict [])) as [b|]; [|discriminate].
    cbn [rbind] in Hb. destruct (py_items b) as [items|]; [|discriminate].
    refine (Hcomp _ _ _ Hb). intros k v kv Hkv. injection Hkv as <-. cbn. now eexists.
  - destruct (py_items data) as [items|]; [|discriminate].
    refine (Hcomp _ _ _ Hb). intros k v kv Hkv.
    destruct (py_getitem v "last") as [last|]; [|discriminate].
    injection Hkv as <-. cbn. now eexists.
  - destruct (py_get data "data" (JDict [])) as [d|]; [|discriminate].
    cbn [rbind] in Hb. destruct (py_get d "rates" (JDict [])) as [rates|]; [|discriminate].
    cbn [rbind] in Hb. destruct (py_items rates) as [items|]; [|discriminate].
    refine (Hcomp _ _ _ Hb). intros k v kv Hkv.
    destruct (negb (String.eqb k "BTC")); [|discriminate].
    injection Hkv as <-. cbn. now eexists.
Qed.

(** ** The rules that subscript the members *)

Lemma dict_get_In (d : pydict) (k : string) (v : json) :
  NoDup (Dict.keys d) -> In (k, v) d -> Dict.get d k = Some v.
Proof.
  induction d as [|[k' v'] d IH]; intros Hnd Hin; [contradiction|].
  cbn in Hnd. inversion Hnd as [|? ? Hk' Hd]; subst. cbn.
  destruct Hin as [Heq|Hin].
  - injection Heq as -> ->. now rewrite String.eqb_refl.
  - destruct (String.eqb_spec k' k) as [->|_]; [|now apply IH].
    exfalso. apply Hk'. change k with (fst (k, v)). now apply in_map.
Qed.

Lemma py_getitem_member (name : string) (v : json) :
  py_getitem v name =
  match member_field name v with
  | Some x => Ok x
  | None => match v with JDict _ => Raise KeyError | _ => Raise TypeError end
  end.
Proof.
  destruct v; reflexivity.
Qed.

(** A comprehension that subscripts every member succeeds exactly when
    every member has the field, and then keeps every key, in order. *)
Lemma comprehension_members (name : string) (g : json -> json) (items : pydict) :
  forall acc r,
    NoDup (Dict.keys acc ++ Dict.keys items) ->
    Dict.comprehension
      (fun k v => let* x := py_getitem v name in Ok (Some (k, g x))) items acc = Ok r ->
    Forall (fun kv => member_field name (snd kv) <> None) items /\
    r = acc ++ List.map (fun kv => (fst kv,
                                    g (match member_field name (snd kv) with
                                       | Some x => x
                                       | None => JNull
                                       end))) items.
Proof.
  induction items as [|[k v] items IH]; intros acc r Hnd Hrun; cbn in Hrun.
  - injection Hrun as <-. cbn. rewrite app_nil_r. split; [constructor|reflexivity].
  - rewrite py_getitem_member in Hrun.
    destruct (member_field name v) as [x|] eqn:Hx;
      [|destruct v; discriminate].
    cbn [rbind] in Hrun. cbn [Dict.keys List.map fst] in Hnd.
    assert (Hfresh : ~ In k (Dict.keys acc)).
    { apply NoDup_remove_2 in Hnd. intros Hin. apply Hnd. apply in_or_app. now left. }
    rewrite (dict_set_fresh acc k (g x) Hfresh) in Hrun.
    destruct (IH (acc ++ [(k, g x)]) r) as (Hall & Hr); [|exact Hrun|].
    { unfold Dict.keys in *. rewrite map_app, <- app_assoc. exact Hnd. }
    split.
    + constructor; [cbn; congruence|exact Hall].
    + rewrite Hr, <- app_assoc. cbn. now rewrite Hx.
Qed.

Lemma comprehension_members_total (name : string) (g : json -> json) (items : pydict)
      (acc : pydict) :
  Forall (fun kv => member_field name (snd kv) <> None) items ->
  exists r,
    Dict.comprehension
      (fun k v => let* x := py_getitem v name in Ok (Some (k, g x))) items acc = Ok r.
Proof.
  intros Hall. apply comprehension_total. intros k v Hin.
  rewrite Forall_forall in Hall. specialize (Hall _ Hin). cbn in Hall.
  rewrite py_getitem_member. destruct (member_field name v); [|contradiction].
  cbn. eauto.
Qed.

Lemma members_mapped (name : string) (g : json -> json) (items : pydict) :
  let m := List.map (fun kv => (fst kv,
                                g (match member_field name (snd kv) with
                                   | Some x => x
                                   | None => JNull
                                   end))) items in
  NoDup (Dict.keys items) ->
  Dict.keys m = Dict.keys items /\
  (forall k v x, In (k, v) items -> member_field name v = Some x ->
                 Dict.get m k = Some (g x)).
Proof.
  intros m Hnd.
  assert (Hkeys : Dict.keys m = Dict.keys items).
  { unfold m, Dict.keys. rewrite map_map. reflexivity. }
  split; [exact Hkeys|].
  intros k v x Hin Hx. apply dict_get_In; [now rewrite Hkeys|].
  unfold m. apply in_map_iff. exists (k, v). cbn. rewrite Hx. now split.
Qed.

(** X5. The blockchain-like and the coindesk-like rules are all or
    nothing: a mapping is returned exactly when every member is an object
    with the field read ([last], [rate]); it then has the keys of the
    document, in their order, each with the stringified [last], or with
    the [rate] as it is. *)
Theorem member_rules_are_all_or_nothing :
  (forall source d w,
      schema_tag source = Some Blockchain ->
      NoDup (Dict.keys d) ->
      ((exists m, fst (parse_response (JDict d) source w) = Ok (Some m)) <->
       Forall (fun kv => member_field "last" (snd kv) <> None) d) /\
      (forall m,
          fst (parse_response (JDict d) source w) = Ok (Some m) ->
          Dict.keys m = Dict.keys d /\
          forall k v last,
            In (k, v) d -> member_field "last" v = Some last ->
            Dict.get m k = Some (JStr (py_str last)))) /\
  (forall source d bpi w,
      schema_tag source = Some Coindesk ->
      Dict.get d "bpi" = Some (JDict bpi) ->
      NoDup (Dict.keys bpi) ->
      ((exists m, fst (parse_response (JDict d) source w) = Ok (Some m)) <->
       Forall (fun kv => member_field "rate" (snd kv) <> None) bpi) /\
      (forall m,
          fst (parse_response (JDict d) source w) = Ok (Some m) ->
          Dict.keys m = Dict.keys bpi /\
          forall k v rate,
            In (k, v) bpi -> member_field "rate" v = Some rate ->
            Dict.get m k = Some rate)).
Proof.
  assert (Hrule : forall name g data source items w,
             parse_body data source
             = (let* m := Dict.comprehension
                            (fun k v => let* x := py_getitem v name in Ok (Some (k, g x)))
                            items [] in Ok (Some m)) ->
             NoDup (Dict.keys items) ->
             ((exists m, fst (parse_response data source w) = Ok (Some m)) <->
              Forall (fun kv => member_field name (snd kv) <> None) items) /\
             (forall m,
                 fst (parse_response data source w) = Ok (Some m) ->
                 Dict.keys m = Dict.keys items /\
                 forall k v x,
                   In (k, v) items -> member_field name v = Some x ->
                   Dict.get m k = Some (g x))).
  { intros name g data source items w Hbody Hnd.
    assert (Hok : forall m, fst (parse_response data source w) = Ok (Some m) ->
                            Dict.comprehension
                              (fun k v => let* x := py_getitem v name in Ok (Some (k, g x)))
                              items [] = Ok m).
    { intros m Hm. unfold parse_response in Hm. rewrite Hbody in Hm.
      destruct (Dict.comprehension _ items []) as [m0|[]]; cbn in Hm; try discriminate.
      now injection Hm as <-. }
    split; [split|].
    - intros [m Hm]. now apply (comprehension_members name g items [] m Hnd (Hok m Hm)).
    - intros Hall. destruct (comprehension_members_total name g items [] Hall) as [r Hr].
      exists r. unfold parse_response. rewrite Hbody, Hr. reflexivity.
    - intros m Hm.
      destruct (comprehension_members name g items [] m Hnd (Hok m Hm)) as [_ ->].
      exact (members_mapped name g items Hnd). }
  split.
  - intros source d w Htag Hnd.
    apply (Hrule "last" (fun x => JStr (py_str x))); [|exact Hnd].
    by_schema Htag. reflexivity.
  - intros source d bpi w Htag Hbpi Hnd.
    apply (Hrule "rate" (fun x => x)); [|exact Hnd].
    by_schema Htag. cbn [py_get rbind]. rewrite Hbpi. reflexivity.
Qed.

(** ** Every run of the fall-back loop *)

(** Either every candidate fails, or there is a first one that does not. *)
Lemma first_live_candidate (net : nat -> string -> reply) (urls : list string) :
  forall k,
    all_fail net k urls = true \/
    exists pre url post,
      urls = pre ++ url :: post /\
      all_fail net k pre = true /\
      attempt_fails (net (k + List.length pre) url) url = false.
Proof.
  induction urls as [|u urls IH]; intros k.
  - now left.
  - cbn [all_fail]. destruct (attempt_fails (net k u) u) eqn:Hu.
    + destruct (IH (S k)) as [Hall|(pre & url & post & -> & Hpre & Hurl)].
      * left. now rewrite Hall.
      * right. exists (u :: pre), url, post. repeat split.
        -- cbn [all_fail]. now rewrite Hu, Hpre.
        -- cbn [List.length]. now replace (k + S (List.length pre))
             with (S k + List.length pre) by lia.
    + right. exists [], u, urls. repeat split.
      cbn [List.length]. now rewrite Nat.add_0_r.
Qed.

Lemma resolve_prices_all_fail (candidates : list string) (w : world) :
  all_fail (http w) (sent w) candidates = true ->
  exists w',
    resolve_prices candidates w = (Ok AllFailed, w') /\
    http w' = http w /\
    sent w' = sent w + List.length candidates /\
    stdin w' = stdin w /\
    fetched (trace w') = fetched (trace w) ++ candidates.
Proof.
  intros Hall.
  destruct (fetch_loop_prefix candidates 1 None w eq_refl Hall)
    as (p1 & w1 & Hrun & Hp1 & Hh & Hs & Hi & Ht).
  exists w1. repeat split; try assumption.
  rewrite resolve_prices_run. specialize (Hrun []). rewrite app_nil_r in Hrun.
  rewrite Hrun. cbn [fetch_loop ret].
  destruct p1 as [[|kv m]|]; try reflexivity; discriminate.
Qed.

(** What a candidate that does not fail is: its fetch raises an exception
    that [fetch_data] does not catch, or its body is true and its
    normalisation either yields a non-empty mapping or raises [TypeError]. *)
Lemma live_candidate (r : reply) (url : string) :
  attempt_fails r url = false ->
  (exists e, r = OtherException e) \/
  exists data,
    r = Body data /\ truthy data = true /\
    ((exists m, parse_body data url = Ok (Some m) /\ m <> []) \/
     parse_body data url = Raise TypeError).
Proof.
  intros Hlive. destruct r as [data| |e]; [|discriminate|left; now exists e].
  right. exists data. split; [reflexivity|].
  assert (Ht : truthy data = true).
  { destruct (truthy data) eqn:E; [reflexivity|].
    rewrite (falsy_body_fails data url E) in Hlive. discriminate. }
  split; [exact Ht|]. unfold attempt_fails in Hlive.
  destruct (parse_body data url) as [[[|kv m]|]|e] eqn:Hb; try discriminate.
  - left. exists (kv :: m). split; [reflexivity|discriminate].
  - right. destruct (parse_body_raises data url e Hb) as [->|[[->| ->] _]];
      try discriminate. reflexivity.
Qed.

(** The ways a run of the orchestrator can go: every candidate fails; or
    the first candidate that does not fail gives the prices, or raises
    [TypeError] when it is normalised, or raises when it is fetched. *)
Lemma resolve_prices_cases (candidates : list string) (w : world) :
  (all_fail (http w) (sent w) candidates = true /\
   exists w',
     resolve_prices candidates w = (Ok AllFailed, w') /\
     http w' = http w /\ stdin w' = stdin w /\
     sent w' = sent w + List.length candidates /\
     fetched (trace w') = fetched (trace w) ++ candidates) \/
  (exists pre url post w',
      candidates = pre ++ url :: post /\
      all_fail (http w) (sent w) pre = true /\
      http w' = http w /\ stdin w' = stdin w /\
      sent w' = sent w + List.length pre + 1 /\
      fetched (trace w') = fetched (trace w) ++ pre ++ [url] /\
      ((exists data m,
           http w (sent w + List.length pre) url = Body data /\
           parse_body data url = Ok (Some m) /\ m <> [] /\
           resolve_prices candidates w = (Ok (Success m), w')) \/
       (exists data,
           http w (sent w + List.length pre) url = Body data /\
           parse_body data url = Raise TypeError /\
           resolve_prices candidates w = (Raise TypeError, w')) \/
       (exists e,
           http w (sent w + List.length pre) url = OtherException e /\
           resolve_prices candidates w = (Raise e, w')))).
Proof.
  destruct (first_live_candidate (http w) candidates (sent w))
    as [Hall|(pre & url & post & -> & Hpre & Hlive)].
  - left. split; [exact Hall|].
    destruct (resolve_prices_all_fail candidates w Hall) as (w' & H1 & H2 & H3 & H4 & H5).
    exists w'. repeat split; assumption.
  - right.
    destruct (fetch_loop_prefix pre 1 None w eq_refl Hpre)
      as (p1 & w1 & Hrun & Hp1 & Hh & Hs & Hi & Ht).
    exists pre, url, post,
      (World (http w1) (S (sent w1)) (stdin w1)
             (trace w1 ++ [EvAttempt (1 + List.length pre) url; EvGet url])).
    cbn [http sent stdin trace].
    split; [reflexivity|]. split; [exact Hpre|]. split; [exact Hh|]. split; [exact Hi|].
    split; [lia|].
    split; [rewrite fetched_app, Ht; cbn [fetched]; now rewrite <- app_assoc|].
    destruct (live_candidate _ _ Hlive) as [[e Hreply]|(data & Hreply & Htruthy & Hcase)].
    + right. right. exists e. split; [exact Hreply|].
      rewrite <- Hh, <- Hs in Hreply.
      rewrite resolve_prices_run, Hrun, fetch_loop_cons, Hreply. reflexivity.
    + pose proof Hreply as Hreply1. rewrite <- Hh, <- Hs in Hreply1.
      destruct Hcase as [(m & Hb & Hm)|Hb].
      * left. exists data, m. repeat split; try assumption.
        rewrite resolve_prices_run, Hrun.
        rewrite (fetch_loop_hit _ url post p1 w1 data m Hreply1 Hb Hm).
        destruct m; [contradiction|reflexivity].
      * right. left. exists data. split; [exact Hreply|]. split; [exact Hb|].
        rewrite resolve_prices_run, Hrun, fetch_loop_cons, Hreply1. cbn zeta.
        now rewrite Htruthy, Hb.
Qed.

(** X6. However a run of the orchestrator ends, the URLs it has requested
    are the first [k] candidates, once each and in their order; it reads
    nothing from the keyboard. *)
Theorem requests_follow_the_candidates (candidates : list string) (w : world) :
  exists k,
    k <= List.length candidates /\
    fetched (trace (snd (resolve_prices candidates w)))
    = fetched (trace w) ++ firstn k candidates /\
    sent (snd (resolve_prices candidates w)) = sent w + k /\
    stdin (snd (resolve_prices candidates w)) = stdin w.
Proof.
  destruct (resolve_prices_cases candidates w)
    as [(_ & w' & Hrun & _ & Hi & Hs & Ht)
       |(pre & url & post & w' & -> & _ & _ & Hi & Hs & Ht & Hcase)].
  - exists (List.length candidates). rewrite Hrun, firstn_all. cbn [snd].
    repeat split; try assumption. lia.
  - exists (List.length pre + 1).
    assert (Hsnd : snd (resolve_prices (pre ++ url :: post) w) = w').
    { destruct Hcase as [(data & m & _ & _ & _ & ->)|[(data & _ & _ & ->)|(e & _ & ->)]];
        reflexivity. }
    rewrite Hsnd. split; [|split; [|split; [lia|exact Hi]]].
    + rewrite length_app. cbn [List.length]. lia.
    + rewrite Ht. f_equal.
      replace (pre ++ url :: post) with ((pre ++ [url]) ++ post)
        by (now rewrite <- app_assoc).
      rewrite firstn_app.
      replace (List.length pre + 1 - List.length (pre ++ [url])) with 0
        by (rewrite length_app; cbn; lia).
      rewrite firstn_O, app_nil_r, firstn_all2; [reflexivity|].
      rewrite length_app. cbn. lia.
Qed.

(** X7. A success is always the whole normalised answer of one candidate,
    the first that does not fail: every candidate before it has failed,
    and none after it has been requested. *)
Theorem success_comes_from_the_first_live_candidate
        (candidates : list string) (w w' : world) (m : pydict) :
  resolve_prices candidates w = (Ok (Success m), w') ->
  exists pre url post data,
    candidates = pre ++ url :: post /\
    all_fail (http w) (sent w) pre = true /\
    http w (sent w + List.length pre) url = Body data /\
    parse_body data url = Ok (Some m) /\
    m <> [] /\
    sent w' = sent w + List.length pre + 1.
Proof.
  intros Hrun.
  destruct (resolve_prices_cases candidates w)
    as [(_ & w1 & Hrun1 & _)
       |(pre & url & post & w1 & Hc & Hpre & _ & _ & Hs & _ & Hcase)].
  - rewrite Hrun in Hrun1. discriminate.
  - destruct Hcase
      as [(data & m1 & Hreply & Hb & Hm & Hrun1)
         |[(data & _ & _ & Hrun1)|(e & _ & Hrun1)]];
      rewrite Hrun in Hrun1; try discriminate.
    injection Hrun1 as <- <-.
    exists pre, url, post, data. repeat split; assumption.
Qed.

(** X8. The outcome [AllFailed] is reached only when every candidate has
    been requested and has failed. *)
Theorem all_failed_means_all_tried (candidates : list string) (w w' : world) :
  resolve_prices candidates w = (Ok AllFailed, w') ->
  all_fail (http w) (sent w) candidates = true /\
  sent w' = sent w + List.length candidates /\
  fetched (trace w') = fetched (trace w) ++ candidates.
Proof.
  intros Hrun.
  destruct (resolve_prices_cases candidates w)
    as [(Hall & w1 & Hrun1 & _ & _ & Hs & Ht)
       |(pre & url & post & w1 & _ & _ & _ & _ & _ & _ & Hcase)].
  - rewrite Hrun in Hrun1. injection Hrun1 as <-. repeat split; assumption.
  - destruct Hcase
      as [(data & m1 & _ & _ & _ & Hrun1)|[(data & _ & _ & Hrun1)|(e & _ & Hrun1)]];
      rewrite Hrun in Hrun1; discriminate.
Qed.


(** ** [main] at the end of the input *)

(** X10. With nothing left to read at its first question, [main] raises
    [EOFError] before any request is sent; with the answer to that question
    as the last line and every source failing, it raises [EOFError] at the
    prompt that follows its advice, after one request per source. *)
Theorem main_prices_at_end_of_input :
  (forall w,
      stdin w = [] ->
      main_prices w =
      (Raise EOFError,
       World (http w) (sent w) [] (trace w ++ [EvInput url_prompt]))) /\
  (forall w answer,
      stdin w = [answer] ->
      all_fail (http w) (sent w) (chosen_url answer :: BACKUP_APIS) = true ->
      exists w',
        main_prices w = (Raise EOFError, w') /\
        sent w' = sent w + 5 /\
        exists before,
          trace w' = before ++ [EvAllFailed; EvInput exit_prompt]).
Proof.
  split.
  - intros w Hin. unfold main_prices, get_user_input, py_input.
    unfold bind at 1 2. now rewrite Hin.
  - intros w answer Hin Hall.
    rewrite (main_prices_start w answer [] Hin).
    set (w0 := World (http w) (sent w) [] (trace w ++ [EvInput url_prompt])).
    destruct (resolve_prices_all_fail (chosen_url answer :: BACKUP_APIS) w0 Hall)
      as (w1 & Hrun & _ & Hs & Hi & _).
    unfold bind at 1. rewrite Hrun.
    unfold bind, emit, py_input, ret. cbn [http sent stdin trace]. rewrite Hi.
    cbn [stdin w0 tl]. eexists. split; [reflexivity|]. cbn [sent trace]. split.
    + rewrite Hs. reflexivity.
    + exists (trace w1). now rewrite <- app_assoc.
Qed.

(** ** Trimming and upper-casing *)

Lemma isspace_upper_char (c : ascii) : Str.isspace (Str.upper_char c) = Str.isspace c.
Proof.
  destruct c as [[] [] [] [] [] [] [] []]; reflexivity.
Qed.

Lemma comma_upper_char (c : ascii) :
  Ascii.eqb (Str.upper_char c) "," = Ascii.eqb c ",".
Proof.
  destruct c as [[] [] [] [] [] [] [] []]; reflexivity.
Qed.

Lemma lstrip_upper (s : string) :
  Str.lstrip_with Str.isspace (Str.upper s) = Str.upper (Str.lstrip_with Str.isspace s).
Proof.
  unfold Str.upper. induction s as [|c s IH]; cbn [Str.map Str.lstrip_with]; [reflexivity|].
  rewrite isspace_upper_char. destruct (Str.isspace c); [exact IH|reflexivity].
Qed.

Lemma rstrip_upper (s : string) :
  Str.rstrip_with Str.isspace (Str.upper s) = Str.upper (Str.rstrip_with Str.isspace s).
Proof.
  unfold Str.upper. induction s as [|c s IH]; cbn [Str.map Str.rstrip_with]; [reflexivity|].
  rewrite IH, isspace_upper_char.
  destruct (Str.rstrip_with Str.isspace s) as [|c' kept]; cbn [Str.map].
  - now destruct (Str.isspace c).
  - reflexivity.
Qed.

Lemma strip_upper (s : string) : Str.strip (Str.upper s) = Str.upper (Str.strip s).
Proof.
  unfold Str.strip, Str.strip_with. now rewrite lstrip_upper, rstrip_upper.
Qed.

Lemma split_upper (s : string) :
  Str.split "," (Str.upper s) = List.map Str.upper (Str.split "," s).
Proof.
  unfold Str.upper. induction s as [|c s IH]; cbn [Str.map Str.split]; [reflexivity|].
  rewrite comma_upper_char, IH. destruct (Ascii.eqb c ","); [reflexivity|].
  destruct (Str.split "," s) as [|field fields]; reflexivity.
Qed.

Lemma lstrip_starts_clean (s : string) : starts_clean (Str.lstrip_with Str.isspace s).
Proof.
  induction s as [|c s IH]; cbn; [exact I|].
  destruct (Str.isspace c) eqn:E; [exact IH|exact E].
Qed.

Lemma lstrip_of_clean (s : string) :
  starts_clean s -> Str.lstrip_with Str.isspace s = s.
Proof.
  destruct s as [|c s]; cbn; [reflexivity|]. now intros ->.
Qed.

Lemma rstrip_keeps_clean (s : string) :
  starts_clean s -> starts_clean (Str.rstrip_with Str.isspace s).
Proof.
  destruct s as [|c s]; cbn; [trivial|]. intros Hc.
  destruct (Str.rstrip_with Str.isspace s); cbn; [now rewrite Hc|exact Hc].
Qed.

Lemma rstrip_idempotent (s : string) :
  Str.rstrip_with Str.isspace (Str.rstrip_with Str.isspace s)
  = Str.rstrip_with Str.isspace s.
Proof.
  induction s as [|c s IH]; cbn [Str.rstrip_with]; [reflexivity|].
  destruct (Str.rstrip_with Str.isspace s) as [|c' kept] eqn:E.
  - destruct (Str.isspace c) eqn:Hc; cbn [Str.rstrip_with]; [reflexivity|].
    now rewrite Hc.
  - cbn [Str.rstrip_with]. cbn [Str.rstrip_with] in IH. now rewrite IH.
Qed.

Lemma strip_idempotent (s : string) : Str.strip (Str.strip s) = Str.strip s.
Proof.
  unfold Str.strip, Str.strip_with.
  rewrite (lstrip_of_clean (Str.rstrip_with Str.isspace (Str.lstrip_with Str.isspace s))).
  - apply rstrip_idempotent.
  - apply rstrip_keeps_clean, lstrip_starts_clean.
Qed.

Lemma codes_are_upper_and_trimmed (line c : string) :
  In c (codes_of line) -> Str.upper c = c /\ Str.strip c = c.
Proof.
  unfold codes_of. rewrite split_upper, map_map. intros Hin.
  apply in_map_iff in Hin as (field & <- & _). split.
  - now rewrite strip_upper, upper_idempotent.
  - apply strip_idempotent.
Qed.

(** ** Every run of the selection loop *)

Lemma rejected_turn (available : list string) (line : string) (rest : list string)
      (net : nat -> string -> reply) (k : nat) (t : list event) :
  rejected available line = true ->
  select_turn available (World net k (line :: rest) t) =
  (Ok None,
   World net k rest
         (t ++ [EvInput select_prompt; EvInvalid (invalid_codes available line)])).
Proof.
  unfold rejected, invalid_codes. intros Hrej. rewrite select_turn_run.
  cbn [stdin tl http sent trace]. cbn zeta.
  apply andb_true_iff in Hrej as [Hblank Hinv].
  apply negb_true_iff in Hblank. rewrite Hblank.
  destruct (List.filter _ (codes_of line)); [discriminate|reflexivity].
Qed.

Lemma accepted_turn (available : list string) (line : string) (rest : list string)
      (net : nat -> string -> reply) (k : nat) (t : list event) :
  rejected available line = false ->
  select_turn available (World net k (line :: rest) t) =
  (Ok (Some (selection_of available line)),
   World net k rest (t ++ [EvInput select_prompt])).
Proof.
  unfold rejected, invalid_codes, selection_of. intros Hacc. rewrite select_turn_run.
  cbn [stdin tl http sent trace]. cbn zeta.
  destruct (String.eqb (Str.strip line) ""); [reflexivity|].
  destruct (List.filter _ (codes_of line)); [reflexivity|discriminate].
Qed.

Lemma select_loop_rejects (available : list string) (bad : list string) :
  forall tail turns net k t,
    Forall (fun line => rejected available line = true) bad ->
    List.length bad <= turns ->
    select_loop turns available (World net k (bad ++ tail) t) =
    select_loop (turns - List.length bad) available
                (World net k tail (t ++ complaints available bad)).
Proof.
  induction bad as [|line bad IH]; intros tail turns net k t Hbad Hlen.
  - cbn. now rewrite Nat.sub_0_r, app_nil_r.
  - inversion Hbad as [|? ? Hline Hrest]; subst.
    cbn [List.length] in Hlen. destruct turns as [|turns]; [lia|].
    rewrite select_loop_unfold. unfold bind. cbn [app].
    rewrite (rejected_turn available line (bad ++ tail) net k t Hline).
    rewrite IH by (assumption || lia).
    cbn [List.length Nat.sub complaints flat_map app].
    now rewrite <- app_assoc.
Qed.

Lemma select_currencies_decided
        (available bad : list string) (good : string) (rest : list string)
        (net : nat -> string -> reply) (k : nat) (t : list event) :
  Forall (fun line => rejected available line = true) bad ->
  rejected available good = false ->
  select_currencies available (World net k (bad ++ good :: rest) t) =
  (Ok (selection_of available good),
   World net k rest
         (t ++ EvAvailable (sorted available)
            :: complaints available bad ++ [EvInput select_prompt])).
Proof.
  intros Hbad Hgood.
  change (select_currencies available (World net k (bad ++ good :: rest) t))
    with (select_loop (List.length (bad ++ good :: rest)) available
            (World net k (bad ++ good :: rest) (t ++ [EvAvailable (sorted available)]))).
  rewrite select_loop_rejects by (assumption || (rewrite length_app; lia)).
  rewrite select_loop_unfold. unfold bind.
  rewrite (accepted_turn available good rest net k _ Hgood). unfold ret.
  now rewrite <- !app_assoc.
Qed.

(** X11. The selection is decided by the first line that is not turned
    down: every line before it costs one complaint, it alone is consumed
    besides them, and the lines after it are left unread. *)
Theorem first_acceptable_line_decides
        (available bad : list string) (good : string) (rest : list string)
        (net : nat -> string -> reply) (k : nat) (t : list event) :
  Forall (fun line => rejected available line = true) bad ->
  rejected available good = false ->
  select_currencies available (World net k (bad ++ good :: rest) t) =
  (Ok (selection_of available good),
   World net k rest
         (t ++ EvAvailable (sorted available)
            :: complaints available bad ++ [EvInput select_prompt])).
Proof.
  exact (select_currencies_decided available bad good rest net k t).
Qed.

(** X12. When every line left is turned down, the selection ends in
    [EOFError], raised by the question asked after the last of them: each
    line has had its complaint and none is left. *)
Theorem selection_runs_out_of_lines
        (available lines : list string)
        (net : nat -> string -> reply) (k : nat) (t : list event) :
  Forall (fun line => rejected available line = true) lines ->
  select_currencies available (World net k lines t) =
  (Raise EOFError,
   World net k []
         (t ++ EvAvailable (sorted available)
            :: complaints available lines ++ [EvInput select_prompt])).
Proof.
  intros Hbad.
  change (select_currencies available (World net k lines t))
    with (select_loop (List.length lines) available
            (World net k lines (t ++ [EvAvailable (sorted available)]))).
  rewrite <- (app_nil_r lines) at 2.
  rewrite select_loop_rejects by (assumption || lia).
  rewrite select_loop_unfold. unfold bind. rewrite select_turn_run.
  cbn [stdin tl http sent trace]. cbn zeta.
  now rewrite <- !app_assoc.
Qed.

(** X13. A selection is either all that is on offer, or codes that are on
    offer, upper-case and free of outer whitespace: a code on offer that is
    not upper-case cannot be selected by typing it. *)
Theorem typed_selection_is_upper_case
        (available : list string) (w w' : world) (selected : list string) :
  select_currencies available w = (Ok selected, w') ->
  selected = available \/
  Forall (fun c => In c available /\ Str.upper c = c /\ Str.strip c = c) selected.
Proof.
  intros Hrun. destruct w as [net k lines t].
  change (select_currencies available (World net k lines t))
    with (select_loop (List.length lines) available
            (World net k lines (t ++ [EvAvailable (sorted available)]))) in Hrun.
  apply select_loop_accepts in Hrun as [->|(line & _ & -> & Hall)]; [now left|].
  right. rewrite Forall_forall in *. intros c Hc. split; [now apply Hall|].
  exact (codes_are_upper_and_trimmed line c Hc).
Qed.

(** X14. [get_user_input] reads one line; what it returns is the default,
    when the line is blank, or else the line trimmed, which is then neither
    empty nor bordered by whitespace; with no line to read it raises
    [EOFError]. *)
Theorem get_user_input_trims (prompt default : string) (w : world) :
  (stdin w = [] ->
   get_user_input prompt default w =
   (Raise EOFError, World (http w) (sent w) [] (trace w ++ [EvInput prompt]))) /\
  (forall line rest,
      stdin w = line :: rest ->
      exists s,
        get_user_input prompt default w =
        (Ok s, World (http w) (sent w) rest (trace w ++ [EvInput prompt])) /\
        ((Str.strip line = "" /\ s = default) \/
         (s = Str.strip line /\ s <> "" /\ Str.strip s = s))).
Proof.
  unfold get_user_input, py_input, bind, ret. split.
  - intros ->. reflexivity.
  - intros line rest ->. cbn [tl].
    destruct (String.eqb_spec (Str.strip line) "") as [Hblank|Hsome].
    + exists default. split; [reflexivity|]. now left.
    + exists (Str.strip line). split; [reflexivity|]. right.
      repeat split; [assumption|apply strip_idempotent].
Qed.

(** ** The report *)

Lemma append_assoc (a b c : string) : ((a ++ b) ++ c = a ++ (b ++ c))%string.
Proof.
  induction a as [|x a IH]; cbn; [reflexivity|]. now rewrite IH.
Qed.

Lemma insert_sorted_perm (x : string) (l : list string) :
  Permutation (insert_sorted x l) (x :: l).
Proof.
  induction l as [|y l IH]; cbn; [reflexivity|].
  destruct (String.leb x y); [reflexivity|].
  rewrite IH. apply perm_swap.
Qed.

Lemma sorted_perm (l : list string) : Permutation (sorted l) l.
Proof.
  induction l as [|x l IH]; cbn; [reflexivity|].
  rewrite insert_sorted_perm. now constructor.
Qed.

Lemma insert_sorted_Sorted (x : string) (l : list string) :
  Sorted code_le l -> Sorted code_le (insert_sorted x l).
Proof.
  induction l as [|y l IH]; intros Hl; cbn.
  - repeat constructor.
  - destruct (String.leb x y) eqn:E.
    + constructor; [exact Hl|constructor; exact E].
    + inversion Hl as [|? ? Hl' Hhd]; subst.
      assert (Hyx : code_le y x).
      { destruct (String.leb_total x y) as [H|H]; [congruence|exact H]. }
      constructor; [now apply IH|].
      destruct l as [|z l]; cbn; [now constructor|].
      destruct (String.leb x z); constructor; [exact Hyx|].
      now inversion Hhd.
Qed.

Lemma sorted_Sorted (l : list string) : Sorted code_le (sorted l).
Proof.
  induction l as [|x l IH]; cbn; [constructor|]. now apply insert_sorted_Sorted.
Qed.

Lemma dict_get_of_key (d : pydict) (k : string) :
  In k (Dict.keys d) -> exists v, Dict.get d k = Some v /\ In (k, v) d.
Proof.
  induction d as [|[k' v'] d IH]; cbn; [intros []|]. intros Hin.
  destruct (String.eqb_spec k' k) as [->|Hne].
  - exists v'. split; [reflexivity|now left].
  - destruct Hin as [Heq|Hin]; [contradiction|].
    destruct (IH Hin) as (v & Hv & Hkv). exists v. split; [exact Hv|now right].
Qed.

(** The writes of the loop when the disk accepts them and every price
    met is a string. *)
Lemma write_prices_completes (ok : nat -> file_op) (prices : pydict)
      (currencies : list string) :
  forall op text,
    (forall n, ok n = Done) ->
    Forall (fun k => exists p, Dict.get prices k = Some (JStr p)) currencies ->
    exists lines,
      write_prices ok op prices currencies text
      = (Completed, (text ++ paste lines)%string, op + List.length currencies) /\
      Forall2 (fun k line => exists p, Dict.get prices k = Some (JStr p) /\
                                        line = priced_line k p)
              currencies lines.
Proof.
  induction currencies as [|k currencies IH]; intros op text Hok Hall.
  - exists []. cbn. split; [|constructor].
    f_equal; [f_equal|lia]. induction text as [|c text IHt]; cbn; congruence.
  - inversion Hall as [|? ? (p & Hp) Hrest]; subst.
    cbn [write_prices]. unfold report_line. cbn [py_getitem]. rewrite Hp.
    cbn [rbind format_price_value]. rewrite Hok.
    destruct (IH (S op) (text ++ priced_line k p)%string Hok Hrest) as (lines & Hrun & Hl).
    exists (priced_line k p :: lines). split.
    + unfold priced_line in Hrun |- *. rewrite Hrun. cbn [paste fold_right List.length].
      f_equal; [f_equal; apply append_assoc|lia].
    + constructor; [|exact Hl]. exists p. now split.
Qed.

Lemma string_prices_have_lines (prices : pydict) (currencies : list string) :
  Forall (fun kv => is_str (snd kv)) prices ->
  incl currencies (Dict.keys prices) ->
  Forall (fun k => exists p, Dict.get prices k = Some (JStr p)) currencies.
Proof.
  intros Hstr Hincl. apply Forall_forall. intros k Hk.
  destruct (dict_get_of_key prices k (Hincl k Hk)) as (v & Hv & Hkv).
  rewrite Forall_forall in Hstr. destruct (Hstr _ Hkv) as [p Hp]. cbn in Hp. subst v.
  now exists p.
Qed.

Lemma generate_report_completes (prices : pydict) (mc : machine) :
  (forall n, disk mc n = Done) ->
  Forall (fun kv => is_str (snd kv)) prices ->
  exists lines,
    generate_report prices mc
    = (Ok true, set_report (Holds (report_header (clock mc) ++ paste lines)) mc) /\
    Forall2 (fun k line => exists p, Dict.get prices k = Some (JStr p) /\
                                      line = priced_line k p)
            (sorted (Dict.keys prices)) lines.
Proof.
  intros Hok Hstr.
  destruct (write_prices_completes (disk mc) prices (sorted (Dict.keys prices)) 2
              (report_header (clock mc)) Hok) as (lines & Hrun & Hl).
  { apply string_prices_have_lines; [exact Hstr|].
    intros k Hk. apply (Permutation_in k (sorted_perm (Dict.keys prices)) Hk). }
  exists lines. split; [|exact Hl].
  unfold generate_report. rewrite !Hok, Hrun, Hok. reflexivity.
Qed.

(** X15. On a disk that accepts every operation, a mapping whose prices
    are all strings gives the report its header and then one line per
    currency, formatted by [format_price], the codes in ascending order,
    each code of the mapping once; [True] is returned and nothing is
    displayed. *)
Theorem report_lists_every_price_in_order (prices : pydict) (mc : machine) :
  (forall n, disk mc n = Done) ->
  Forall (fun kv => is_str (snd kv)) prices ->
  exists codes lines,
    generate_report prices mc
    = (Ok true, set_report (Holds (report_header (clock mc) ++ paste lines)) mc) /\
    Permutation codes (Dict.keys prices) /\
    Sorted code_le codes /\
    Forall2 (fun k line => exists p, Dict.get prices k = Some (JStr p) /\
                                      line = priced_line k p)
            codes lines.
Proof.
  intros Hok Hstr.
  destruct (generate_report_completes prices mc Hok Hstr) as (lines & Hrun & Hl).
  exists (sorted (Dict.keys prices)), lines.
  repeat split; [exact Hrun|apply sorted_perm|apply sorted_Sorted|exact Hl].
Qed.

(** The writes of the loop on any disk, when every price met is a
    string: they complete when the disk accepts them all, and stop at the
    first that it does not. *)
Lemma write_prices_strings (fs : nat -> file_op) (prices : pydict)
      (currencies : list string) :
  forall op text,
    Forall (fun k => exists p, Dict.get prices k = Some (JStr p)) currencies ->
    exists how text' op',
      write_prices fs op prices currencies text = (how, text', op') /\
      op' <= op + List.length currencies /\
      (forall n, op <= n -> S n < op' -> fs n = Done) /\
      ((how = Completed /\ op' = op + List.length currencies /\
        forall n, op <= n < op' -> fs n = Done) \/
       (how = Refused /\ op < op' /\ fs (op' - 1) = IOError) \/
       (exists e, how = Failed e /\ op < op' /\ fs (op' - 1) = OtherError e)).
Proof.
  induction currencies as [|k currencies IH]; intros op text Hall.
  - exists Completed, text, op. split; [reflexivity|]. cbn [List.length].
    split; [lia|]. split; [intros n Hn1 Hn2; lia|].
    left. repeat split; [lia|]. intros n Hn. lia.
  - inversion Hall as [|? ? (p & Hp) Hrest]; subst.
    cbn [write_prices]. unfold report_line. cbn [py_getitem]. rewrite Hp.
    cbn [rbind format_price_value List.length]. destruct (fs op) as [| |e] eqn:Hop.
    + destruct (IH (S op) (text ++ (k ++ ": " ++ format_price k p ++ nl))%string Hrest)
        as (how & text' & op' & Hrun & Hle & Hbefore & Hcase).
      exists how, text', op'. split; [exact Hrun|]. split; [lia|].
      assert (Hdone : forall n, op <= n -> S n < op' -> fs n = Done).
      { intros n Hn1 Hn2. destruct (Nat.eq_dec n op) as [->|Hne]; [exact Hop|].
        apply Hbefore; lia. }
      split; [exact Hdone|].
      destruct Hcase as [(-> & -> & Hok)|[(-> & Hlt & Hbad)|(e & -> & Hlt & Hbad)]].
      * left. repeat split; [lia|].
        intros n Hn. destruct (Nat.eq_dec n op) as [->|Hne]; [exact Hop|].
        apply Hok. lia.
      * right. left. repeat split; [lia|exact Hbad].
      * right. right. exists e. repeat split; [lia|exact Hbad].
    + exists Refused, text, (S op). split; [reflexivity|]. split; [lia|].
      split; [intros n Hn1 Hn2; lia|].
      right. left. repeat split; [lia|].
      replace (S op - 1) with op by lia. exact Hop.
    + exists (Failed e), text, (S op). split; [reflexivity|]. split; [lia|].
      split; [intros n Hn1 Hn2; lia|].
      right. right. exists e. repeat split; [lia|].
      replace (S op - 1) with op by lia. exact Hop.
Qed.

Lemma sorted_length (l : list string) : List.length (sorted l) = List.length l.
Proof.
  apply Permutation_length, sorted_perm.
Qed.

(** X16. When the prices are all strings, the disk alone decides how
    [generate_report] ends. It returns [True] exactly when the opening, the
    header, every line and the closing go through; it returns [False] only
    when one of these operations raised an [IOError], and then the file error
    is on the console and the report file is untouched or damaged; it raises
    only an exception that one of these operations raised and that is not an
    [IOError], and then nothing is displayed. *)
Theorem report_ends_as_the_disk_decides (prices : pydict) (mc : machine) :
  Forall (fun kv => is_str (snd kv)) prices ->
  exists r mc',
    generate_report prices mc = (r, mc') /\
    (r = Ok true <-> forall n, n <= List.length prices + 2 -> disk mc n = Done) /\
    (r = Ok true -> shown mc' = shown mc /\ exists text, report mc' = Holds text) /\
    (r = Ok false ->
     (exists n, n <= List.length prices + 2 /\ disk mc n = IOError) /\
     shown mc' = shown mc ++ [ShowFileError] /\
     (report mc' = report mc \/ report mc' = Damaged)) /\
    (forall e, r = Raise e ->
               (exists n, n <= List.length prices + 2 /\ disk mc n = OtherError e) /\
               shown mc' = shown mc /\
               (report mc' = report mc \/ report mc' = Damaged)) /\
    console mc' = console mc.
Proof.
  intros Hstr.
  assert (Hlen : List.length (sorted (Dict.keys prices)) = List.length prices).
  { rewrite sorted_length. unfold Dict.keys. apply length_map. }
  pose (ends := fun (r : result bool) (mc' : machine) =>
          (r = Ok true <-> forall n, n <= List.length prices + 2 -> disk mc n = Done) /\
          (r = Ok true -> shown mc' = shown mc /\ exists text, report mc' = Holds text) /\
          (r = Ok false ->
           (exists n, n <= List.length prices + 2 /\ disk mc n = IOError) /\
           shown mc' = shown mc ++ [ShowFileError] /\
           (report mc' = report mc \/ report mc' = Damaged)) /\
          (forall e, r = Raise e ->
                     (exists n, n <= List.length prices + 2 /\ disk mc n = OtherError e) /\
                     shown mc' = shown mc /\
                     (report mc' = report mc \/ report mc' = Damaged)) /\
          console mc' = console mc).
  change (exists r mc', generate_report prices mc = (r, mc') /\ ends r mc').
  assert (Hfalse : forall mc0 n,
             console mc0 = console mc -> shown mc0 = shown mc ->
             (report mc0 = report mc \/ report mc0 = Damaged) ->
             n <= List.length prices + 2 -> disk mc n = IOError ->
             exists r mc', file_error mc0 = (r, mc') /\ ends r mc').
  { intros mc0 n Hc Hs Hr Hn Hbad.
    eexists. eexists. split; [reflexivity|]. unfold ends. cbn [console shown report].
    split; [split; [discriminate|]|split; [discriminate|split; [|split]]].
    - intros Hall. rewrite (Hall n Hn) in Hbad. discriminate.
    - intros _. split; [now exists n|]. rewrite Hs. split; [reflexivity|exact Hr].
    - intros e He. discriminate He.
    - exact Hc. }
  assert (Hraise : forall mc0 n e,
             console mc0 = console mc -> shown mc0 = shown mc ->
             (report mc0 = report mc \/ report mc0 = Damaged) ->
             n <= List.length prices + 2 -> disk mc n = OtherError e ->
             exists r mc', (@Raise bool e, mc0) = (r, mc') /\ ends r mc').
  { intros mc0 n e Hc Hs Hr Hn Hbad.
    eexists. eexists. split; [reflexivity|]. unfold ends.
    split; [split; [discriminate|]|split; [discriminate|split; [discriminate|split]]].
    - intros Hall. rewrite (Hall n Hn) in Hbad. discriminate.
    - intros e0 He. injection He as <-. split; [now exists n|]. split; [exact Hs|exact Hr].
    - exact Hc. }
  unfold generate_report.
  destruct (disk mc 0) as [| |e0] eqn:H0;
    [|apply (Hfalse mc 0); try reflexivity; [now left|lia|exact H0]
     |apply (Hraise mc 0 e0); try reflexivity; [now left|lia|exact H0]].
  destruct (write_prices_strings (disk mc) prices (sorted (Dict.keys prices)) 2
              (report_header (clock mc)))
    as (how & text & op & Hrun & Hle & Hbefore & Hcase).
  { apply string_prices_have_lines; [exact Hstr|].
    intros k Hk. apply (Permutation_in k (sorted_perm (Dict.keys prices)) Hk). }
  rewrite Hlen in Hle, Hcase.
  assert (Hclose : forall how0 text0 op0,
             op0 <= List.length prices + 2 ->
             (how0 = Completed ->
              forall n, n <= List.length prices + 2 -> n <> op0 -> disk mc n = Done) ->
             (how0 = Refused -> exists n, n <= List.length prices + 2 /\ disk mc n = IOError) ->
             (forall e, how0 = Failed e ->
                        exists n, n <= List.length prices + 2 /\ disk mc n = OtherError e) ->
             (forall e, how0 <> Escaped e) ->
             exists r mc',
               match disk mc op0 with
               | IOError => file_error (set_report Damaged mc)
               | OtherError e => (Raise e, set_report Damaged mc)
               | Done =>
                   match how0 with
                   | Completed => (Ok true, set_report (Holds text0) mc)
                   | Refused => file_error (set_report Damaged mc)
                   | Failed e => (Raise e, set_report Damaged mc)
                   | Escaped e => (Raise e, set_report (Holds text0) mc)
                   end
               end = (r, mc') /\ ends r mc').
  { intros how0 text0 op0 Hop Hcompleted Hrefused Hfailed Hescaped.
    destruct (disk mc op0) as [| |e1] eqn:Hc.
    - destruct how0 as [| |e|e].
      + eexists. eexists. split; [reflexivity|]. unfold ends.
        cbn [console shown report set_report].
        split; [split; [|reflexivity]
               |split; [|split; [discriminate|split; [discriminate|reflexivity]]]].
        * intros _ n Hn. destruct (Nat.eq_dec n op0) as [->|Hne]; [exact Hc|].
          now apply Hcompleted.
        * intros _. split; [reflexivity|eauto].
      + destruct (Hrefused eq_refl) as (n & Hn & Hbad).
        apply (Hfalse _ n); try reflexivity; [now right|exact Hn|exact Hbad].
      + destruct (Hfailed e eq_refl) as (n & Hn & Hbad).
        apply (Hraise _ n e); try reflexivity; [now right|exact Hn|exact Hbad].
      + now destruct (Hescaped e).
    - apply (Hfalse _ op0); try reflexivity; [now right|exact Hop|exact Hc].
    - apply (Hraise _ op0 e1); try reflexivity; [now right|exact Hop|exact Hc]. }
  destruct (disk mc 1) as [| |e1] eqn:H1.
  - rewrite Hrun. apply Hclose.
    + lia.
    + intros -> n Hn Hne.
      destruct Hcase as [(_ & -> & Hok)|[(Hc & _)|(e & Hc & _)]]; try discriminate.
      destruct (Nat.eq_dec n 0) as [->|]; [exact H0|].
      destruct (Nat.eq_dec n 1) as [->|]; [exact H1|].
      apply Hok. lia.
    + intros ->.
      destruct Hcase as [(Hc & _)|[(_ & Hlt & Hbad)|(e & Hc & _)]]; try discriminate.
      exists (op - 1). split; [lia|exact Hbad].
    + intros e ->.
      destruct Hcase as [(Hc & _)|[(Hc & _)|(e1 & Hc & Hlt & Hbad)]]; try discriminate.
      injection Hc as <-. exists (op - 1). split; [lia|exact Hbad].
    + intros e ->.
      destruct Hcase as [(Hc & _)|[(Hc & _)|(e1 & Hc & _)]]; discriminate.
  - apply (Hclose Refused EmptyString 2).
    + lia.
    + discriminate.
    + intros _. exists 1. split; [lia|exact H1].
    + discriminate.
    + discriminate.
  - apply (Hclose (Failed e1) EmptyString 2).
    + lia.
    + discriminate.
    + discriminate.
    + intros e He. injection He as <-. exists 1. split; [lia|exact H1].
    + discriminate.
Qed.

Lemma write_prices_escapes (ok : nat -> file_op) (prices : pydict)
      (currencies : list string) :
  forall op text,
    (forall n, ok n = Done) ->
    (forall k, In k currencies ->
               (exists line, report_line prices k = Ok line) \/
               report_line prices k = Raise AttributeError) ->
    (exists k, In k currencies /\ report_line prices k = Raise AttributeError) ->
    exists text' op',
      write_prices ok op prices currencies text = (Escaped AttributeError, text', op').
Proof.
  induction currencies as [|k currencies IH]; intros op text Hok Hall (k0 & Hin & Hbad).
  - contradiction.
  - cbn [write_prices].
    destruct (Hall k (or_introl eq_refl)) as [[line Hline]|Hraise].
    + rewrite Hline, Hok. apply IH; [exact Hok| |].
      * intros k1 Hk1. apply Hall. now right.
      * destruct Hin as [<-|Hin]; [congruence|]. now exists k0.
    + rewrite Hraise. eauto.
Qed.

Lemma report_line_of_key (prices : pydict) (k : string) (v : json) :
  Dict.get prices k = Some v ->
  (exists p, v = JStr p /\ report_line prices k = Ok (priced_line k p)) \/
  (~ is_str v /\ report_line prices k = Raise AttributeError).
Proof.
  intros Hv. unfold report_line. cbn [py_getitem]. rewrite Hv. cbn [rbind].
  destruct v; try (right; split; [intros [s Hs]; discriminate|reflexivity]).
  left. exists s. split; reflexivity.
Qed.

(** X17. A price that is not a string makes [generate_report] raise
    [AttributeError]: the handler, which catches [IOError] alone, does not
    turn it into [False]; the file is left written and closed. *)
Theorem non_string_price_escapes_the_report (prices : pydict) (mc : machine) :
  (forall n, disk mc n = Done) ->
  NoDup (Dict.keys prices) ->
  (exists k v, In (k, v) prices /\ ~ is_str v) ->
  exists text,
    generate_report prices mc = (Raise AttributeError, set_report (Holds text) mc).
Proof.
  intros Hok Hnd (k & v & Hin & Hv).
  destruct (write_prices_escapes (disk mc) prices (sorted (Dict.keys prices)) 2
              (report_header (clock mc)) Hok) as (text & op & Hrun).
  - intros k1 Hk1.
    apply (Permutation_in k1 (sorted_perm (Dict.keys prices))) in Hk1.
    destruct (dict_get_of_key prices k1 Hk1) as (v1 & Hv1 & _).
    destruct (report_line_of_key prices k1 v1 Hv1) as [(p & _ & Hl)|(_ & Hl)];
      [left; eauto|now right].
  - exists k. split.
    + apply (Permutation_in k (Permutation_sym (sorted_perm (Dict.keys prices)))).
      change k with (fst (k, v)). now apply in_map.
    + destruct (report_line_of_key prices k v (dict_get_In prices k v Hnd Hin))
        as [(p & -> & _)|(_ & Hl)]; [|exact Hl].
      exfalso. apply Hv. now exists p.
  - exists text. unfold generate_report. rewrite !Hok, Hrun, Hok. reflexivity.
Qed.

(** ** The rest of [main] *)

Lemma filter_comprehension (selected : list string) (prices : pydict) :
  NoDup (Dict.keys prices) ->
  Dict.comprehension
    (fun k v => if Str.mem k selected then Ok (Some (k, v)) else Ok None) prices []
  = Ok (List.filter (fun kv => Str.mem (fst kv) selected) prices).
Proof.
  intros Hnd.
  rewrite (comprehension_filter_map (fun k => Str.mem k selected) (fun v => v) prices []);
    [|exact Hnd].
  cbn [app]. f_equal.
  induction (List.filter (fun kv => Str.mem (fst kv) selected) prices) as [|[k v] l IH];
    cbn; [reflexivity|]. now rewrite IH.
Qed.

Lemma show_prices_strings (items : pydict) :
  forall mc,
    Forall (fun kv => is_str (snd kv)) items ->
    exists shows,
      show_prices items mc
      = (Ok tt, Machine (console mc) (online mc) (clock mc) (disk mc) (report mc)
                        (shown mc ++ shows)) /\
      Forall2 (fun kv d => exists p, snd kv = JStr p /\
                                     d = ShowPrice (fst kv) (format_price (fst kv) p))
              items shows.
Proof.
  induction items as [|[k v] items IH]; intros mc Hstr.
  - exists []. split; [|constructor]. cbn. rewrite app_nil_r. now destruct mc.
  - inversion Hstr as [|? ? [p Hp] Hrest]; subst. cbn in Hp. subst v.
    cbn [show_prices]. unfold pbind, of_result, show. cbn [format_price_value].
    destruct (IH (Machine (console mc) (online mc) (clock mc) (disk mc) (report mc)
                          (shown mc ++ [ShowPrice k (format_price k p)])) Hrest)
      as (shows & Hrun & Hshows).
    exists (ShowPrice k (format_price k p) :: shows). split.
    + rewrite Hrun. cbn [console online clock disk report shown].
      now rewrite <- app_assoc.
    + constructor; [|exact Hshows]. exists p. now split.
Qed.

Lemma show_prices_escapes (items : pydict) :
  forall mc,
    (exists k v, In (k, v) items /\ ~ is_str v) ->
    exists mc',
      show_prices items mc = (Raise AttributeError, mc') /\
      report mc' = report mc /\ console mc' = console mc.
Proof.
  induction items as [|[k v] items IH]; intros mc (k0 & v0 & Hin & Hbad).
  - contradiction.
  - cbn [show_prices]. unfold pbind, of_result, show.
    destruct v; cbn [format_price_value]; try (eexists; repeat split; reflexivity).
    destruct Hin as [Heq|Hin].
    + injection Heq as <- <-. exfalso. apply Hbad. now exists s.
    + destruct (IH (Machine (console mc) (online mc) (clock mc) (disk mc) (report mc)
                            (shown mc ++ [ShowPrice k (format_price k s)])))
        as (mc' & Hrun & Hr & Hc); [now exists k0, v0|].
      exists mc'. split; [exact Hrun|]. now split.
Qed.

Lemma lift_run {A : Type} (m : M A) (w w' : world) (r : result A)
      (on : bool) (clk : string) (dsk : nat -> file_op) (rep : file_state)
      (shn : list display) :
  m w = (r, w') ->
  lift m (Machine w on clk dsk rep shn) = (r, Machine w' on clk dsk rep shn).
Proof.
  intros H. unfold lift. cbn [console]. now rewrite H.
Qed.

(** X18. Once the prices are known and a line is accepted, [main] shows
    the selected prices in the order of the mapping, writes them to the
    report in the order of their codes, announces the report and waits for
    Enter: both listings hold the entries of the mapping whose code is
    selected, and nothing else. *)
Theorem selected_prices_are_shown_and_saved
        (prices : pydict) (mc : machine) (bad : list string) (good enter : string)
        (rest : list string) :
  stdin (console mc) = bad ++ good :: enter :: rest ->
  Forall (fun line => rejected (Dict.keys prices) line = true) bad ->
  rejected (Dict.keys prices) good = false ->
  NoDup (Dict.keys prices) ->
  Forall (fun kv => is_str (snd kv)) prices ->
  (forall n, disk mc n = Done) ->
  let filtered :=
    List.filter (fun kv => Str.mem (fst kv) (selection_of (Dict.keys prices) good))
                prices in
  exists mc' shows codes lines,
    main_report prices mc = (Ok tt, mc') /\
    stdin (console mc') = rest /\
    sent (console mc') = sent (console mc) /\
    shown mc' = shown mc ++ ShowHeading :: shows ++ [ShowSaved] /\
    Forall2 (fun kv d => exists p, snd kv = JStr p /\
                                   d = ShowPrice (fst kv) (format_price (fst kv) p))
            filtered shows /\
    report mc' = Holds (report_header (clock mc) ++ paste lines) /\
    Permutation codes (Dict.keys filtered) /\
    Sorted code_le codes /\
    Forall2 (fun k line => exists p, Dict.get filtered k = Some (JStr p) /\
                                      line = priced_line k p)
            codes lines.
Proof.
  intros Hin Hbad Hgood Hnd Hstr Hdisk filtered.
  assert (Hfstr : Forall (fun kv => is_str (snd kv)) filtered).
  { apply Forall_forall. intros kv Hkv. apply filter_In in Hkv as [Hkv _].
    rewrite Forall_forall in Hstr. now apply Hstr. }
  destruct mc as [[net k lines t] on clk dsk rep shn]. cbn in Hin, Hdisk. subst lines.
  unfold main_report. unfold pbind at 1.
  rewrite (lift_run _ _ _ _ on clk dsk rep shn
                    (select_currencies_decided (Dict.keys prices) bad good
                       (enter :: rest) net k t Hbad Hgood)).
  cbn [console online clock disk report shown].
  unfold pbind at 1. unfold of_result at 1.
  rewrite (filter_comprehension _ prices Hnd). fold filtered.
  unfold pbind at 1. unfold show at 1. cbn [console online clock disk report shown].
  unfold pbind at 1.
  match goal with
  | |- context [show_prices filtered ?m] =>
      destruct (show_prices_strings filtered m Hfstr) as (shows & Hshow & Hshows);
      rewrite Hshow
  end.
  cbn [console online clock disk report shown].
  unfold pbind at 1.
  match goal with
  | |- context [generate_report filtered ?m] =>
      destruct (generate_report_completes filtered m Hdisk Hfstr) as (lines & Hrep & Hlines);
      rewrite Hrep
  end.
  unfold set_report. cbn [console online clock disk report shown].
  unfold pbind, show, lift, py_input, pret.
  cbn [console online clock disk report shown stdin tl http sent trace].
  eexists. exists shows, (sorted (Dict.keys filtered)), lines.
  split; [reflexivity|]. cbn [console online clock disk report shown stdin sent].
  repeat split; try assumption.
  - now rewrite <- !app_assoc.
  - apply sorted_perm.
  - apply sorted_Sorted.
Qed.

(** X19. A selected price that is not a string stops [main] with
    [AttributeError] while the prices are being shown: the report file is
    not opened and the closing prompt is not reached. *)
Theorem non_string_price_stops_the_display
        (prices : pydict) (mc : machine) (bad : list string) (good : string)
        (rest : list string) :
  stdin (console mc) = bad ++ good :: rest ->
  Forall (fun line => rejected (Dict.keys prices) line = true) bad ->
  rejected (Dict.keys prices) good = false ->
  NoDup (Dict.keys prices) ->
  (exists k v, In (k, v) prices /\
               Str.mem k (selection_of (Dict.keys prices) good) = true /\
               ~ is_str v) ->
  exists mc',
    main_report prices mc = (Raise AttributeError, mc') /\
    report mc' = report mc /\
    stdin (console mc') = rest.
Proof.
  intros Hin Hbad Hgood Hnd (k0 & v0 & Hk0 & Hsel & Hv0).
  destruct mc as [[net k lines t] on clk dsk rep shn]. cbn in Hin. subst lines.
  unfold main_report. unfold pbind at 1.
  rewrite (lift_run _ _ _ _ on clk dsk rep shn
                    (select_currencies_decided (Dict.keys prices) bad good
                       rest net k t Hbad Hgood)).
  cbn [console online clock disk report shown].
  unfold pbind at 1. unfold of_result at 1.
  rewrite (filter_comprehension _ prices Hnd).
  unfold pbind at 1. unfold show at 1. cbn [console online clock disk report shown].
  unfold pbind at 1.
  match goal with
  | |- context [show_prices ?items ?m] =>
      destruct (show_prices_escapes items m) as (mc' & Hshow & Hr & Hc);
      [|rewrite Hshow]
  end.
  - exists k0, v0. split; [|exact Hv0]. apply filter_In. now split.
  - exists mc'. split; [reflexivity|]. cbn in Hr, Hc. split; [exact Hr|].
    now rewrite Hc.
Qed.

(** X20. Without a connection [main] sends no request and asks only for
    Enter; and whenever the prices could not be had (no connection, every
    source failed, or the pipeline raised) the report file is left as it
    was and no report is announced. *)
Theorem no_report_without_prices (mc : machine) :
  (online mc = false ->
   sent (console (snd (main mc))) = sent (console mc) /\
   trace (console (snd (main mc)))
   = trace (console mc) ++ [EvInput "Press Enter to exit..."]) /\
  ((online mc = false \/
    forall prices, fst (main_prices (console mc)) <> Ok (Success prices)) ->
   report (snd (main mc)) = report mc /\
   exists extra,
     shown (snd (main mc)) = shown mc ++ extra /\ ~ In ShowSaved extra).
Proof.
  unfold main, pbind, show, check_internet.
  cbn [console online clock disk report shown].
  split.
  - intros ->. cbn [negb]. unfold pbind, show, lift, py_input, pret.
    cbn [console online clock disk report shown http sent stdin trace].
    destruct (stdin (console mc)); cbn [snd console trace sent]; split; reflexivity.
  - intros Hcase. destruct (online mc) eqn:Hon; cbn [negb].
    + destruct Hcase as [?|Hnone]; [discriminate|].
      unfold lift. cbn [console].
      destruct (main_prices (console mc)) as [[[prices|]|e] w'] eqn:Hmain;
        cbn [fst] in Hnone.
      * now destruct (Hnone prices).
      * unfold pret. cbn [snd report shown]. split; [reflexivity|].
        exists [ShowTitle]. split; [reflexivity|]. intros [H|[]]. discriminate.
      * cbn [snd report shown]. split; [reflexivity|].
        exists [ShowTitle]. split; [reflexivity|]. intros [H|[]]. discriminate.
    + unfold pbind, show, lift, py_input, pret.
      cbn [console online clock disk report shown http sent stdin trace].
      destruct (stdin (console mc)); cbn [snd report shown];
        (split; [reflexivity|]);
        exists [ShowTitle; ShowNoInternet];
        (split; [now rewrite <- app_assoc|]);
        intros [H|[H|[]]]; discriminate.
Qed.

(** ** Formatting *)

Lemma remove_commas_append (a b : string) :
  Str.remove "," (a ++ b) = (Str.remove "," a ++ Str.remove "," b)%string.
Proof.
  induction a as [|c a IH]; cbn; [reflexivity|].
  destruct (Ascii.eqb c ","); cbn; now rewrite IH.
Qed.

(** X21. The separators that the format [,.2f] puts into a run of digits
    are the commas that [format_price] removes before reading a price:
    taking the commas out gives the digits back; and a run of [n] digits
    gets one separator for every three digits after the first. *)
Theorem separators_come_out_again (digits : string) :
  Str.remove "," (PyFloat.commas digits) = Str.remove "," digits /\
  String.length (PyFloat.commas digits)
  = String.length digits + (String.length digits - 1) / 3.
Proof.
  split.
  - induction digits as [|c digits IH]; cbn [PyFloat.commas]; [reflexivity|].
    cbn [Str.remove].
    destruct ((String.length digits mod 3 =? 0) && negb (String.length digits =? 0))%nat.
    + rewrite remove_commas_append. cbn [Str.remove Ascii.eqb Bool.eqb append].
      change (Ascii.eqb "," ",") with true. cbn. now rewrite IH.
    + now rewrite IH.
  - induction digits as [|c digits IH]; cbn [PyFloat.commas String.length]; [reflexivity|].
    rewrite Nat.sub_succ, Nat.sub_0_r.
    pose proof (Nat.div_mod_eq (String.length digits) 3) as Hn.
    pose proof (Nat.mod_upper_bound (String.length digits) 3 ltac:(lia)) as Hr.
    pose proof (Nat.div_mod_eq (String.length digits - 1) 3) as Hn1.
    pose proof (Nat.mod_upper_bound (String.length digits - 1) 3 ltac:(lia)) as Hr1.
    destruct (Nat.eqb_spec (String.length digits mod 3) 0) as [Hz|Hnz]; cbn [andb].
    + destruct (Nat.eqb_spec (String.length digits) 0) as [Hl|Hl]; cbn [negb].
      * rewrite IH, Hl. reflexivity.
      * assert (Hlen : forall a b, String.length (a ++ b)
                                   = String.length a + String.length b).
        { intros a b. induction a as [|x a IHa]; cbn; [reflexivity|]. now rewrite IHa. }
        rewrite Hlen, IH. cbn [String.length]. lia.
    + rewrite IH. lia.
Qed.

Lemma round_half_even_nearest (num den : Z) :
  (0 < den)%Z ->
  let n := PyFloat.round_half_even num den in
  (Z.abs (2 * (n * den - num)) <= den)%Z /\
  (Z.abs (2 * (n * den - num)) = den -> Z.even n = true)%Z.
Proof.
  intros Hden. unfold PyFloat.round_half_even. cbn zeta.
  pose proof (Z.div_mod num den ltac:(lia)) as Hdm.
  pose proof (Z.mod_pos_bound num den Hden) as Hr.
  set (q := (num / den)%Z) in *. set (r := (num mod den)%Z) in *.
  clearbody q r.
  assert (Hdown : (q * den - num = - r)%Z) by lia.
  assert (Hup : ((q + 1) * den - num = den - r)%Z) by lia.
  destruct (2 * r ?= den)%Z eqn:Hc.
  - apply Z.compare_eq in Hc. destruct (Z.even q) eqn:He.
    + rewrite Hdown. split; [lia|intros _; exact He].
    + rewrite Hup. split; [lia|]. intros _. rewrite Z.even_add, He. reflexivity.
  - pose proof (proj1 (Z.compare_lt_iff _ _) Hc) as Hlt. rewrite Hdown.
    split; [lia|intros Heq; exfalso; lia].
  - pose proof (proj1 (Z.compare_gt_iff _ _) Hc) as Hgt. rewrite Hup.
    split; [lia|intros Heq; exfalso; lia].
Qed.

Lemma two_digits_shape (k : Z) :
  (0 <= k < 100)%Z ->
  exists a b,
    PyFloat.two_digits k = String a (String b EmptyString) /\
    PyFloat.is_digit a = true /\ PyFloat.is_digit b = true /\
    (10 * PyFloat.digit_value a + PyFloat.digit_value b = k)%Z.
Proof.
  intros Hk. rewrite <- (Z2Nat.id k) by lia.
  assert (Hj : (Z.to_nat k < 100)%nat) by lia.
  revert Hj. generalize (Z.to_nat k) as j. intros j Hj.
  do 100 (destruct j as [|j];
          [eexists; eexists; repeat split; vm_compute; reflexivity|]).
  lia.
Qed.

(** X22. The amount that [,.2f] shows for a finite number is the nearest
    multiple of one hundredth, the even one of the two when they are
    equally near; it is written with the whole part, a point and exactly
    two digits. *)
Theorem amounts_are_rounded_to_the_nearest_hundredth (s : bool) (m : positive) (e : Z) :
  exists n a b,
    n = PyFloat.hundredths m e /\
    (0 <= e -> n = Zpos m * 2 ^ e * 100)%Z /\
    (e < 0 -> Z.abs (2 * (n * 2 ^ (- e) - Zpos m * 100)) <= 2 ^ (- e))%Z /\
    (e < 0 -> Z.abs (2 * (n * 2 ^ (- e) - Zpos m * 100)) = 2 ^ (- e) ->
              Z.even n = true)%Z /\
    PyFloat.format_2f (S754_finite s m e)
    = (PyFloat.sign_string s ++ PyFloat.commas (Z_to_string (n / 100)) ++ "."
         ++ String a (String b EmptyString))%string /\
    PyFloat.is_digit a = true /\ PyFloat.is_digit b = true /\
    (10 * PyFloat.digit_value a + PyFloat.digit_value b = n mod 100)%Z.
Proof.
  destruct (two_digits_shape (PyFloat.hundredths m e mod 100)) as (a & b & Hab & Ha & Hb & Hv).
  { apply Z.mod_pos_bound. lia. }
  exists (PyFloat.hundredths m e), a, b.
  split; [reflexivity|].
  assert (Hshape :
            PyFloat.format_2f (S754_finite s m e)
            = (PyFloat.sign_string s
                 ++ PyFloat.commas (Z_to_string (PyFloat.hundredths m e / 100)) ++ "."
                 ++ String a (String b EmptyString))%string).
  { cbn [PyFloat.format_2f]. now rewrite Hab. }
  destruct (Z.leb_spec 0 e) as [Hpos|Hneg].
  - assert (Hh : PyFloat.hundredths m e = (Zpos m * 2 ^ e * 100)%Z).
    { unfold PyFloat.hundredths. destruct (Z.leb_spec 0 e); [reflexivity|lia]. }
    split; [intros _; exact Hh|]. split; [lia|]. split; [lia|].
    split; [exact Hshape|now repeat split].
  - assert (Hh : PyFloat.hundredths m e
                 = PyFloat.round_half_even (Zpos m * 100) (2 ^ (- e))).
    { unfold PyFloat.hundredths. destruct (Z.leb_spec 0 e); [lia|reflexivity]. }
    assert (Hden : (0 < 2 ^ (- e))%Z) by (apply Z.pow_pos_nonneg; lia).
    destruct (round_half_even_nearest (Zpos m * 100) (2 ^ (- e)) Hden) as [Hnear Htie].
    rewrite <- Hh in Hnear, Htie.
    split; [lia|]. split; [intros _; exact Hnear|]. split; [intros _; exact Htie|].
    split; [exact Hshape|now repeat split].
Qed.

(** ** Whole prices

    [float] is exact on a run of digits that writes an integer below [2^53],
    so [format_price] shows such a price digit for digit. *)

Lemma digit_facts (c : ascii) :
  PyFloat.is_digit c = true ->
  Ascii.eqb c "_" = false /\ Ascii.eqb c "," = false /\
  PyFloat.c_isspace c = false /\ Str.lower_char c = c /\
  Ascii.eqb c "i" = false /\ Ascii.eqb c "n" = false /\
  Ascii.eqb c "-" = false /\ Ascii.eqb c "+" = false /\ Ascii.eqb c "." = false.
Proof.
  destruct c as [[] [] [] [] [] [] [] []]; intros H;
    try discriminate H; repeat split; reflexivity.
Qed.

Lemma string_of_uint_digits (d : Decimal.uint) :
  digits_only (NilEmpty.string_of_uint d) = true.
Proof.
  induction d; cbn; auto.
Qed.

Lemma span_uint_acc (d : Decimal.uint) :
  forall acc : positive,
    PyFloat.span_digits (Zpos acc) (NilEmpty.string_of_uint d)
    = (Zpos (Pos.of_uint_acc d acc), Decimal.nb_digits d, EmptyString).
Proof.
  induction d; intros acc; cbn [NilEmpty.string_of_uint PyFloat.span_digits
                                  Pos.of_uint_acc Decimal.nb_digits];
    try reflexivity;
    (match goal with
     | |- context [PyFloat.is_digit ?c] => change (PyFloat.is_digit c) with true
     end);
    cbv iota;
    (match goal with
     | |- context [PyFloat.span_digits ?z _] =>
         match goal with
         | |- context [Pos.of_uint_acc d ?q] =>
             replace z with (Zpos q)
               by (vm_compute PyFloat.digit_value; lia)
         end
     end);
    rewrite IHd; reflexivity.
Qed.

Lemma span_uint (d : Decimal.uint) :
  PyFloat.span_digits 0 (NilEmpty.string_of_uint d)
  = (Z.of_N (Pos.of_uint d), Decimal.nb_digits d, EmptyString).
Proof.
  induction d; cbn [NilEmpty.string_of_uint PyFloat.span_digits
                      Pos.of_uint Decimal.nb_digits]; try reflexivity;
    (match goal with
     | |- context [PyFloat.is_digit ?c] => change (PyFloat.is_digit c) with true
     end);
    cbv iota.
  - change (10 * 0 + PyFloat.digit_value "0")%Z with 0%Z. now rewrite IHd.
  - change (10 * 0 + PyFloat.digit_value "1")%Z with 1%Z. now rewrite span_uint_acc.
  - change (10 * 0 + PyFloat.digit_value "2")%Z with 2%Z. now rewrite span_uint_acc.
  - change (10 * 0 + PyFloat.digit_value "3")%Z with 3%Z. now rewrite span_uint_acc.
  - change (10 * 0 + PyFloat.digit_value "4")%Z with 4%Z. now rewrite span_uint_acc.
  - change (10 * 0 + PyFloat.digit_value "5")%Z with 5%Z. now rewrite span_uint_acc.
  - change (10 * 0 + PyFloat.digit_value "6")%Z with 6%Z. now rewrite span_uint_acc.
  - change (10 * 0 + PyFloat.digit_value "7")%Z with 7%Z. now rewrite span_uint_acc.
  - change (10 * 0 + PyFloat.digit_value "8")%Z with 8%Z. now rewrite span_uint_acc.
  - change (10 * 0 + PyFloat.digit_value "9")%Z with 9%Z. now rewrite span_uint_acc.
Qed.

Lemma Z_to_string_pos (p : positive) :
  Z_to_string (Zpos p) = NilEmpty.string_of_uint (Pos.to_uint p) /\
  Z_to_string (Zpos p) <> EmptyString.
Proof.
  unfold Z_to_string. cbn [Z.to_int NilZero.string_of_int]. unfold NilZero.string_of_uint.
  pose proof (Unsigned.to_uint_nonnil p) as Hnn.
  destruct (Pos.to_uint p) eqn:E; try contradiction; split; try reflexivity;
    cbn; discriminate.
Qed.

Lemma span_Z_to_string (p : positive) :
  exists k,
    PyFloat.span_digits 0 (Z_to_string (Zpos p)) = (Zpos p, S k, EmptyString).
Proof.
  destruct (Z_to_string_pos p) as [-> _]. rewrite span_uint, Unsigned.of_to.
  pose proof (Unsigned.to_uint_nonnil p) as Hnn.
  destruct (Pos.to_uint p); try contradiction; cbn [Decimal.nb_digits]; eauto.
Qed.

Lemma drop_underscores_digits (s : string) :
  forall prev,
    digits_only s = true ->
    (s = EmptyString -> Ascii.eqb prev "_" = false) ->
    PyFloat.drop_underscores prev s = Some s.
Proof.
  induction s as [|c s IH]; intros prev Hd Hprev; cbn.
  - now rewrite (Hprev eq_refl).
  - cbn in Hd. apply andb_true_iff in Hd as [Hc Hs].
    destruct (digit_facts c Hc) as (Hu & _).
    rewrite Hu, Hc. cbn [negb]. rewrite andb_false_r.
    rewrite (IH c Hs); [reflexivity|]. intros _. exact Hu.
Qed.

Lemma rstrip_digits (s : string) :
  digits_only s = true -> Str.rstrip_with PyFloat.c_isspace s = s.
Proof.
  induction s as [|c s IH]; intros Hd; cbn; [reflexivity|].
  cbn in Hd. apply andb_true_iff in Hd as [Hc Hs].
  destruct (digit_facts c Hc) as (_ & _ & Hsp & _).
  rewrite (IH Hs). destruct s; [now rewrite Hsp|reflexivity].
Qed.

Lemma remove_commas_digits (s : string) :
  digits_only s = true -> Str.remove "," s = s.
Proof.
  induction s as [|c s IH]; intros Hd; cbn; [reflexivity|].
  cbn in Hd. apply andb_true_iff in Hd as [Hc Hs].
  destruct (digit_facts c Hc) as (_ & Hcomma & _).
  now rewrite Hcomma, (IH Hs).
Qed.

(** [float] of a run of digits is the nearest number to the integer they
    write. *)
Lemma py_float_digits (s : string) (n : Z) (k : nat) :
  digits_only s = true ->
  PyFloat.span_digits 0 s = (n, S k, EmptyString) ->
  PyFloat.py_float s = Some (PyFloat.of_decimal false n 0).
Proof.
  intros Hd Hspan. unfold PyFloat.py_float.
  destruct s as [|c s]; [discriminate|].
  rewrite drop_underscores_digits; [|exact Hd|discriminate].
  unfold Str.strip_with. cbn [Str.lstrip_with].
  pose proof Hd as Hd'. cbn in Hd'. apply andb_true_iff in Hd' as [Hc Hs].
  destruct (digit_facts c Hc) as (_ & _ & Hsp & Hlow & Hi & Hn & Hminus & Hplus & Hdot).
  rewrite Hsp, (rstrip_digits _ Hd).
  assert (Hsign : PyFloat.take_sign (String c s) = (false, String c s)).
  { destruct c as [[] [] [] [] [] [] [] []]; try discriminate Hc; reflexivity. }
  rewrite Hsign. unfold Str.lower. cbn [Str.map]. rewrite Hlow.
  cbn [String.eqb]. rewrite Hi, Hn. cbn [orb].
  unfold PyFloat.parse_number. rewrite Hspan. cbn. reflexivity.
Qed.

Local Open Scope Z_scope.

Lemma digits2_bound (p : positive) :
  forall n, 0 <= n -> Zpos p < 2 ^ n -> Zpos (digits2_pos p) <= n.
Proof.
  induction p as [p IH|p IH|]; intros n Hn Hp; cbn [digits2_pos].
  - assert (Hn1 : 1 <= n).
    { destruct (Z.eq_dec n 0) as [->|]; [cbn in Hp; lia|lia]. }
    replace n with (Z.succ (n - 1)) in Hp by lia. rewrite Z.pow_succ_r in Hp by lia.
    specialize (IH (n - 1) ltac:(lia) ltac:(lia)). lia.
  - assert (Hn1 : 1 <= n).
    { destruct (Z.eq_dec n 0) as [->|]; [cbn in Hp; lia|lia]. }
    replace n with (Z.succ (n - 1)) in Hp by lia. rewrite Z.pow_succ_r in Hp by lia.
    specialize (IH (n - 1) ltac:(lia) ltac:(lia)). lia.
  - destruct (Z.eq_dec n 0) as [->|]; [cbn in Hp; lia|lia].
Qed.

Lemma iter_xO (p k : positive) :
  digits2_pos (Pos.iter xO p k) = (digits2_pos p + k)%positive /\
  Zpos (Pos.iter xO p k) = Zpos p * 2 ^ Zpos k.
Proof.
  induction k as [|k IH] using Pos.peano_ind.
  - cbn [Pos.iter digits2_pos]. split; lia.
  - rewrite Pos.iter_succ. cbn [digits2_pos]. destruct IH as [-> IHv].
    split; [lia|]. rewrite Pos2Z.inj_xO, IHv, Pos2Z.inj_succ, Z.pow_succ_r; lia.
Qed.

Lemma binary_round_aux_exact (mz : positive) (ez : Z) :
  Zpos (digits2_pos mz) = 53 -> -1074 <= ez <= 971 ->
  binary_round_aux PyFloat.prec PyFloat.emax false (Zpos mz) ez loc_Exact
  = S754_finite false mz ez.
Proof.
  intros Hd He. unfold binary_round_aux, shr_fexp, fexp, emin, PyFloat.prec, PyFloat.emax.
  cbn [Zdigits2 shr_record_of_loc]. rewrite Hd.
  replace (Z.max (53 + ez - 53) (3 - 1024 - 53) - ez) with 0 by lia.
  cbn [shr shr_m loc_of_shr_record round_nearest_even Zdigits2 shr_record_of_loc].
  rewrite Hd.
  replace (Z.max (53 + ez - 53) (3 - 1024 - 53) - ez) with 0 by lia.
  cbn [shr shr_m].
  destruct (Z.leb_spec ez (1024 - 53)); [reflexivity|lia].
Qed.

(** The binary64 number nearest to an integer below [2^53] is that
    integer. *)
Lemma binary_round_small (p : positive) :
  Zpos p < 2 ^ 53 ->
  exists mz ez,
    binary_round PyFloat.prec PyFloat.emax false p 0 = S754_finite false mz ez /\
    ez <= 0 /\ Zpos mz = Zpos p * 2 ^ (- ez).
Proof.
  intros Hp. pose proof (digits2_bound p 53 ltac:(lia) Hp) as Hd.
  unfold binary_round, shl_align, fexp, emin, PyFloat.prec, PyFloat.emax.
  replace (Z.max (Zpos (digits2_pos p) + 0 - 53) (3 - 1024 - 53) - 0)
    with (Zpos (digits2_pos p) - 53) by lia.
  replace (Z.max (Zpos (digits2_pos p) + 0 - 53) (3 - 1024 - 53))
    with (Zpos (digits2_pos p) - 53) by lia.
  destruct (Zpos (digits2_pos p) - 53) as [|k|k] eqn:Hk; [|lia|].
  - exists p, 0. split; [|split; [lia|cbn; lia]].
    apply (binary_round_aux_exact p 0); lia.
  - destruct (iter_xO p k) as [Hdig Hval].
    exists (Pos.iter xO p k), (Zneg k). split; [|split; [lia|]].
    + apply (binary_round_aux_exact (Pos.iter xO p k) (Zneg k)); [rewrite Hdig|]; lia.
    + rewrite Hval. reflexivity.
Qed.

Lemma hundredths_of_integer (p mz : positive) (ez : Z) :
  ez <= 0 -> Zpos mz = Zpos p * 2 ^ (- ez) ->
  PyFloat.hundredths mz ez = Zpos p * 100.
Proof.
  intros He Hv. unfold PyFloat.hundredths.
  destruct (Z.leb_spec 0 ez) as [H0|Hneg].
  - replace ez with 0 in * by lia. cbn in Hv. rewrite Hv. cbn [Z.pow]. lia.
  - unfold PyFloat.round_half_even. rewrite Hv.
    assert (Hden : 0 < 2 ^ (- ez)) by (apply Z.pow_pos_nonneg; lia).
    replace (Zpos p * 2 ^ (- ez) * 100) with (Zpos p * 100 * 2 ^ (- ez)) by lia.
    rewrite Z.div_mul, Z.mod_mul by lia. cbn [Z.mul].
    destruct (0 ?= 2 ^ (- ez)) eqn:Hc; try reflexivity.
    + apply Z.compare_eq in Hc. lia.
    + pose proof (proj1 (Z.compare_gt_iff _ _) Hc). lia.
Qed.

Local Close Scope Z_scope.

(** X23. A price written as a whole number below [2^53], the integers that
    [float] holds exactly, is shown as it is, with its separators, [.00] and
    the symbol of the currency: no digit is lost in the conversion. *)
Theorem whole_prices_are_shown_exactly (currency : string) (n : Z) :
  (0 <= n < 2 ^ 53)%Z ->
  format_price currency (Z_to_string n)
  = (match assoc_get CURRENCY_SYMBOLS currency with
     | Some symbol => symbol
     | None => ""
     end ++ PyFloat.commas (Z_to_string n) ++ ".00")%string.
Proof.
  intros Hn. unfold format_price. destruct n as [|p|p]; [reflexivity| |lia].
  destruct (Z_to_string_pos p) as [Hstr Hne].
  assert (Hd : digits_only (Z_to_string (Zpos p)) = true).
  { rewrite Hstr. apply string_of_uint_digits. }
  rewrite (remove_commas_digits _ Hd).
  destruct (span_Z_to_string p) as [k Hspan].
  rewrite (py_float_digits _ _ _ Hd Hspan).
  unfold PyFloat.of_decimal. cbn [Z.leb Z.compare Z.pow]. rewrite Z.mul_1_r.
  cbn [Z.to_pos].
  destruct (binary_round_small p ltac:(lia)) as (mz & ez & -> & Hez & Hv).
  cbn [PyFloat.format_2f]. rewrite (hundredths_of_integer p mz ez Hez Hv).
  rewrite Z.div_mul, Z.mod_mul by lia. reflexivity.
Qed.

End Pipeline.


(** * The properties at work on the fixtures *)

Lemma first_success_wins_witness :
  all_fail sample_repr coingecko_only 0 [DEFAULT_API; coindesk_url] = true /\
  exists w',
    resolve_prices sample_repr ([DEFAULT_API; coindesk_url] ++ coingecko_url
                                  :: [blockchain_url; coinbase_url])
                   (session coingecko_only [])
    = (Ok (Success [("USD", JStr "64123"); ("EUR", JStr "59001")]), w') /\
    resolve_prices sample_repr ([DEFAULT_API; coindesk_url] ++ [coingecko_url])
                   (session coingecko_only [])
    = (Ok (Success [("USD", JStr "64123"); ("EUR", JStr "59001")]), w') /\
    sent w' = 0 + 2 + 1 /\
    fetched (trace w') = [] ++ [DEFAULT_API; coindesk_url] ++ [coingecko_url].
Proof.
  split; [reflexivity|].
  apply (first_success_wins sample_repr [DEFAULT_API; coindesk_url] coingecko_url
           [blockchain_url; coinbase_url] (session coingecko_only [])
           coingecko_fixture [("USD", JStr "64123"); ("EUR", JStr "59001")]).
  - reflexivity.
  - reflexivity.
  - reflexivity.
  - discriminate.
Defined.

Lemma success_is_never_empty_witness :
  [("USD", JStr "64123"); ("EUR", JStr "59001")] <> [] /\
  exists p1 w1,
    (forall rest,
        fetch_loop sample_repr 1 (DEFAULT_API :: rest) None (session coingecko_only [])
        = fetch_loop sample_repr 2 rest p1 w1) /\
    truthy_prices p1 = false /\
    http w1 = coingecko_only /\ sent w1 = 1 /\ stdin w1 = [] /\
    fetched (trace w1) = [] ++ [DEFAULT_API].
Proof.
  destruct (success_is_never_empty sample_repr) as [Hsuccess Hskip]. split.
  - apply (Hsuccess (DEFAULT_API :: BACKUP_APIS) (session coingecko_only [])
                    (snd (resolve_prices sample_repr (DEFAULT_API :: BACKUP_APIS)
                                         (session coingecko_only [])))).
    reflexivity.
  - apply (Hskip 1 DEFAULT_API None (session coingecko_only [])); reflexivity.
Defined.



Lemma coinbase_never_lists_BTC_witness :
  In "BTC" (Dict.keys coinbase_rates) /\
  exists m,
    parse_response sample_repr coinbase_fixture coinbase_url (session network_down [])
    = (Ok (Some m), session network_down []) /\
    ~ In "BTC" (Dict.keys m) /\
    m = List.map (fun kv => (fst kv, JStr (py_str sample_repr (snd kv))))
                 (List.filter (fun kv => negb (String.eqb (fst kv) "BTC")) coinbase_rates).
Proof.
  split; [right; left; reflexivity|].
  apply (coinbase_never_lists_BTC sample_repr coinbase_url
           [("data", JDict [("currency", JStr "BTC"); ("rates", JDict coinbase_rates)])]
           [("currency", JStr "BTC"); ("rates", JDict coinbase_rates)] coinbase_rates
           (session network_down [])).
  - reflexivity.
  - reflexivity.
  - reflexivity.
  - repeat constructor; cbn; intuition discriminate.
Defined.

Lemma fixtures_are_well_formed (t : schema) : well_formed_fixture t (fixture t).
Proof.
  destruct t; cbn.
  - eexists. eexists. split; [reflexivity|]. split; [reflexivity|]. split; [discriminate|].
    repeat constructor; cbn; eexists; eexists; split; reflexivity.
  - eexists. eexists. split; [reflexivity|]. split; [reflexivity|discriminate].
  - eexists. split; [reflexivity|]. split; [discriminate|].
    repeat constructor; cbn; eexists; eexists; split; reflexivity.
  - eexists. eexists. eexists. split; [reflexivity|]. split; [reflexivity|].
    split; [reflexivity|]. split; [repeat constructor|].
    exists ("USD", JStr "64123.45"). split; [now left|discriminate].
Defined.

Lemma fixtures_normalise_witness :
  (exists m,
      parse_response sample_repr coindesk_fixture coindesk_url (session network_down [])
      = (Ok (Some m), session network_down []) /\
      m <> [] /\
      Forall (fun kv => uppercase (fst kv) /\ is_str (snd kv)) m) /\
  (exists m,
      parse_response sample_repr coingecko_fixture coingecko_url (session network_down [])
      = (Ok (Some m), session network_down []) /\
      m <> [] /\
      Forall (fun kv => uppercase (fst kv) /\ is_str (snd kv)) m) /\
  (exists m,
      parse_response sample_repr blockchain_fixture blockchain_url (session network_down [])
      = (Ok (Some m), session network_down []) /\
      m <> [] /\
      Forall (fun kv => uppercase (fst kv) /\ is_str (snd kv)) m) /\
  (exists m,
      parse_response sample_repr coinbase_fixture coinbase_url (session network_down [])
      = (Ok (Some m), session network_down []) /\
      m <> [] /\
      Forall (fun kv => uppercase (fst kv) /\ is_str (snd kv)) m).
Proof.
  split; [|split; [|split]].
  - apply (fixtures_normalise sample_repr Coindesk coindesk_url coindesk_fixture
                                (session network_down [])).
    + reflexivity.
    + exact (fixtures_are_well_formed Coindesk).
  - apply (fixtures_normalise sample_repr Coingecko coingecko_url coingecko_fixture
                                (session network_down [])).
    + reflexivity.
    + exact (fixtures_are_well_formed Coingecko).
  - apply (fixtures_normalise sample_repr Blockchain blockchain_url blockchain_fixture
                                (session network_down [])).
    + reflexivity.
    + exact (fixtures_are_well_formed Blockchain).
  - apply (fixtures_normalise sample_repr Coinbase coinbase_url coinbase_fixture
                                (session network_down [])).
    + reflexivity.
    + exact (fixtures_are_well_formed Coinbase).
Defined.


Lemma unsupported_source_yields_None_witness :
  schema_tag "https://api.kraken.com/0/public/Ticker?pair=XBTUSD" = None /\
  parse_response sample_repr coingecko_fixture
                 "https://api.kraken.com/0/public/Ticker?pair=XBTUSD"
                 (session network_down [])
  = (Ok None, session network_down []).
Proof.
  split; [reflexivity|].
  apply (unsupported_source_yields_None sample_repr coingecko_fixture
           "https://api.kraken.com/0/public/Ticker?pair=XBTUSD"
           (session network_down [])).
  reflexivity.
Defined.

Lemma format_price_examples_witness :
  format_price "GBP" "12 pounds" = "£12 pounds" /\
  format_price "XYZ" "1,2x" = "1,2x".
Proof.
  destruct format_price_examples as (_ & _ & Hsymbol & Hplain). split.
  - apply (Hsymbol "GBP" "12 pounds" "£"); reflexivity.
  - apply (Hplain "XYZ" "1,2x"); reflexivity.
Defined.

Lemma select_currencies_validates_witness :
  select_currencies ["GBP"; "USD"; "EUR"] (World network_down 0 ("usd, eur" :: ["x"]) [])
  = (Ok ["USD"; "EUR"],
     World network_down 0 ["x"]
           ([] ++ [EvAvailable (sorted ["GBP"; "USD"; "EUR"]); EvInput select_prompt])) /\
  (exists invalid,
      invalid <> [] /\
      invalid = List.filter (fun c => negb (Str.mem c ["USD"; "EUR"; "GBP"]))
                            (codes_of "usd, xyz") /\
      select_currencies ["USD"; "EUR"; "GBP"] (World network_down 0 ("usd, xyz" :: ["eur"]) [])
      = select_loop (List.length ["eur"]) ["USD"; "EUR"; "GBP"]
          (World network_down 0 ["eur"]
                 ([] ++ [EvAvailable (sorted ["USD"; "EUR"; "GBP"]);
                         EvInput select_prompt; EvInvalid invalid])) /\
      exists more,
        trace (snd (select_currencies ["USD"; "EUR"; "GBP"]
                      (World network_down 0 ("usd, xyz" :: ["eur"]) []))) =
        [] ++ [EvAvailable (sorted ["USD"; "EUR"; "GBP"]); EvInput select_prompt;
               EvInvalid invalid; EvInput select_prompt] ++ more) /\
  select_currencies ["USD"; "EUR"; "GBP"] (World network_down 0 ("  " :: ["eur"]) [])
  = (Ok ["USD"; "EUR"; "GBP"],
     World network_down 0 ["eur"]
           ([] ++ [EvAvailable (sorted ["USD"; "EUR"; "GBP"]); EvInput select_prompt])) /\
  (["EUR"] = ["USD"; "EUR"; "GBP"] \/
   exists line,
     In line ["usd, xyz"; "eur"] /\ ["EUR"] = codes_of line /\
     Forall (fun c => In c ["USD"; "EUR"; "GBP"]) ["EUR"]).
Proof.
  destruct select_currencies_validates as (Hexample & Hreject & Hblank & Haccept).
  split; [|split; [|split]].
  - apply (Hexample ["GBP"; "USD"; "EUR"] network_down 0 ["x"] []).
    intros c. cbn. intuition congruence.
  - apply (Hreject ["USD"; "EUR"; "GBP"] "usd, xyz" network_down 0 ["eur"] []).
    + discriminate.
    + exists "XYZ". split; [right; left; reflexivity|].
      cbn. intuition discriminate.
  - apply (Hblank ["USD"; "EUR"; "GBP"] "  " network_down 0 ["eur"] []).
    reflexivity.
  - apply (Haccept ["USD"; "EUR"; "GBP"] (session network_down ["usd, xyz"; "eur"]) ["EUR"]
                   (snd (select_currencies ["USD"; "EUR"; "GBP"]
                                           (session network_down ["usd, xyz"; "eur"])))).
    reflexivity.
Defined.

Lemma default_api_never_succeeds_witness :
  main_prices sample_repr (session coingecko_only ["  "])
  = (Ok (Success [("USD", JStr "64123"); ("EUR", JStr "59001")]),
     snd (main_prices sample_repr (session coingecko_only ["  "]))) /\
  exists i url data,
    nth_error BACKUP_APIS i = Some url /\
    coingecko_only (0 + 1 + i) url = Body data /\
    parse_body sample_repr data url
    = Ok (Some [("USD", JStr "64123"); ("EUR", JStr "59001")]) /\
    [("USD", JStr "64123"); ("EUR", JStr "59001")] <> [].
Proof.
  split; [reflexivity|].
  destruct (default_api_never_succeeds sample_repr) as (_ & _ & Hbackup).
  apply (Hbackup (session coingecko_only ["  "]) "  " []
                 [("USD", JStr "64123"); ("EUR", JStr "59001")]
                 (snd (main_prices sample_repr (session coingecko_only ["  "])))).
  - reflexivity.
  - reflexivity.
  - reflexivity.
Defined.

(** ** The further properties at work *)

Lemma only_TypeError_leaves_parse_response_witness :
  parse_response sample_repr (JDict [("USD", JInt 64123)]) blockchain_url
                 (session network_down [])
  = (Raise TypeError, session network_down []) /\
  schema_tag blockchain_url = Some Blockchain /\
  (TypeError = TypeError /\ session network_down [] = session network_down [] /\
   (schema_tag blockchain_url = Some Coindesk \/
    schema_tag blockchain_url = Some Blockchain)).
Proof.
  split; [reflexivity|]. split; [reflexivity|].
  apply (only_TypeError_leaves_parse_response
           sample_repr (JDict [("USD", JInt 64123)]) blockchain_url
           (session network_down []) (session network_down []) TypeError).
  reflexivity.
Defined.

Lemma falsy_body_has_no_prices_witness :
  truthy (JDict []) = false /\
  exists r w',
    parse_response sample_repr (JDict []) coinbase_url (session network_down [])
    = (Ok r, w') /\
    truthy_prices r = false.
Proof.
  split; [reflexivity|].
  apply (falsy_body_has_no_prices sample_repr (JDict []) coinbase_url
                                  (session network_down [])).
  reflexivity.
Defined.

Lemma codes_that_meet_share_one_entry_witness :
  exists m,
    parse_response sample_repr
                   (JDict [("bitcoin", JDict [("usd", JInt 64123); ("USD", JInt 64000);
                                              ("eur", JInt 59001)])])
                   coingecko_url (session network_down [])
    = (Ok (Some m), session network_down []) /\
    NoDup (Dict.keys m) /\
    (In "USD" (Dict.keys m) <->
     exists k, In k ["usd"; "USD"; "eur"] /\ Str.upper k = "USD") /\
    Dict.get m "USD" = Some (JStr "64000").
Proof.
  destruct (codes_that_meet_share_one_entry
              sample_repr coingecko_url
              [("bitcoin", JDict [("usd", JInt 64123); ("USD", JInt 64000);
                                  ("eur", JInt 59001)])]
              [("usd", JInt 64123); ("USD", JInt 64000); ("eur", JInt 59001)]
              (session network_down []) eq_refl eq_refl)
    as (m & Hrun & Hnd & Hkeys & Hlast).
  exists m. split; [exact Hrun|]. split; [exact Hnd|]. split; [apply Hkeys|].
  apply (Hlast [("usd", JInt 64123)] "USD" (JInt 64000) [("eur", JInt 59001)]).
  - reflexivity.
  - intros k' [<-|[]]. discriminate.
Defined.

Lemma member_rules_are_all_or_nothing_witness :
  (exists m,
      fst (parse_response sample_repr blockchain_fixture blockchain_url
                          (session network_down []))
      = Ok (Some m)) /\
  ~ (exists m,
        fst (parse_response sample_repr
                            (JDict [("USD", JDict [("last", JInt 64123)]);
                                    ("EUR", JDict [("buy", JInt 59001)])])
                            blockchain_url (session network_down []))
        = Ok (Some m)) /\
  Dict.keys [("USD", JStr "64,123.4500"); ("EUR", JStr "59,001.2000")] = ["USD"; "EUR"] /\
  Dict.get [("USD", JStr "64,123.4500"); ("EUR", JStr "59,001.2000")] "EUR"
  = Some (JStr "59,001.2000").
Proof.
  destruct (member_rules_are_all_or_nothing sample_repr) as [Hticker Hbpi].
  split; [|split].
  - destruct (Hticker blockchain_url
                      [("USD", JDict [("15m", JInt 64123); ("last", JInt 64123)]);
                       ("GBP", JDict [("15m", JInt 50210); ("last", JInt 50210)])]
                      (session network_down []))
      as [[_ Hall] _].
    + reflexivity.
    + repeat constructor; cbn; intuition discriminate.
    + apply Hall. repeat constructor; cbn; discriminate.
  - destruct (Hticker blockchain_url
                      [("USD", JDict [("last", JInt 64123)]);
                       ("EUR", JDict [("buy", JInt 59001)])]
                      (session network_down []))
      as [[Hall _] _].
    + reflexivity.
    + repeat constructor; cbn; intuition discriminate.
    + intros Hm. specialize (Hall Hm).
      inversion Hall as [|? ? _ Hrest]. inversion Hrest as [|? ? Heur _].
      apply Heur. reflexivity.
  - destruct (Hbpi coindesk_url
                   [("bpi", JDict [("USD", JDict [("code", JStr "USD");
                                                  ("rate", JStr "64,123.4500")]);
                                   ("EUR", JDict [("code", JStr "EUR");
                                                  ("rate", JStr "59,001.2000")])])]
                   [("USD", JDict [("code", JStr "USD"); ("rate", JStr "64,123.4500")]);
                    ("EUR", JDict [("code", JStr "EUR"); ("rate", JStr "59,001.2000")])]
                   (session network_down []))
      as [_ Hkeys].
    + reflexivity.
    + reflexivity.
    + repeat constructor; cbn; intuition discriminate.
    + destruct (Hkeys [("USD", JStr "64,123.4500"); ("EUR", JStr "59,001.2000")] eq_refl)
        as [Hk Hget].
      split; [exact Hk|].
      apply (Hget "EUR" (JDict [("code", JStr "EUR"); ("rate", JStr "59,001.2000")])).
      * right. left. reflexivity.
      * reflexivity.
Defined.

Lemma success_comes_from_the_first_live_candidate_witness :
  resolve_prices sample_repr (DEFAULT_API :: BACKUP_APIS) (session coingecko_only [])
  = (Ok (Success [("USD", JStr "64123"); ("EUR", JStr "59001")]),
     snd (resolve_prices sample_repr (DEFAULT_API :: BACKUP_APIS)
                         (session coingecko_only []))) /\
  exists pre url post data,
    DEFAULT_API :: BACKUP_APIS = pre ++ url :: post /\
    all_fail sample_repr coingecko_only 0 pre = true /\
    coingecko_only (0 + List.length pre) url = Body data /\
    parse_body sample_repr data url
    = Ok (Some [("USD", JStr "64123"); ("EUR", JStr "59001")]) /\
    [("USD", JStr "64123"); ("EUR", JStr "59001")] <> [] /\
    sent (snd (resolve_prices sample_repr (DEFAULT_API :: BACKUP_APIS)
                              (session coingecko_only [])))
    = 0 + List.length pre + 1.
Proof.
  split; [reflexivity|].
  apply (success_comes_from_the_first_live_candidate
           sample_repr (DEFAULT_API :: BACKUP_APIS) (session coingecko_only [])
           (snd (resolve_prices sample_repr (DEFAULT_API :: BACKUP_APIS)
                                (session coingecko_only [])))
           [("USD", JStr "64123"); ("EUR", JStr "59001")]).
  reflexivity.
Defined.

Lemma all_failed_means_all_tried_witness :
  resolve_prices sample_repr (DEFAULT_API :: BACKUP_APIS) (session network_down [])
  = (Ok AllFailed,
     snd (resolve_prices sample_repr (DEFAULT_API :: BACKUP_APIS)
                         (session network_down []))) /\
  all_fail sample_repr network_down 0 (DEFAULT_API :: BACKUP_APIS) = true /\
  sent (snd (resolve_prices sample_repr (DEFAULT_API :: BACKUP_APIS)
                            (session network_down [])))
  = 0 + List.length (DEFAULT_API :: BACKUP_APIS) /\
  fetched (trace (snd (resolve_prices sample_repr (DEFAULT_API :: BACKUP_APIS)
                                      (session network_down []))))
  = [] ++ DEFAULT_API :: BACKUP_APIS.
Proof.
  split; [vm_compute; reflexivity|].
  apply (all_failed_means_all_tried
           sample_repr (DEFAULT_API :: BACKUP_APIS) (session network_down [])
           (snd (resolve_prices sample_repr (DEFAULT_API :: BACKUP_APIS)
                                (session network_down [])))).
  vm_compute. reflexivity.
Defined.


Lemma main_prices_at_end_of_input_witness :
  main_prices sample_repr (session coingecko_only [])
  = (Raise EOFError, World coingecko_only 0 [] ([] ++ [EvInput url_prompt])) /\
  exists w',
    main_prices sample_repr (session network_down ["  "]) = (Raise EOFError, w') /\
    sent w' = 0 + 5 /\
    exists before, trace w' = before ++ [EvAllFailed; EvInput exit_prompt].
Proof.
  destruct (main_prices_at_end_of_input sample_repr) as [Hempty Hlast]. split.
  - apply (Hempty (session coingecko_only [])). reflexivity.
  - apply (Hlast (session network_down ["  "]) "  "); reflexivity.
Defined.

Lemma first_acceptable_line_decides_witness :
  rejected ["USD"; "EUR"; "GBP"] "usd, xyz" = true /\
  rejected ["USD"; "EUR"; "GBP"] " gbp ,usd" = false /\
  select_currencies ["USD"; "EUR"; "GBP"]
                    (World network_down 0 (["usd, xyz"; "btc"] ++ " gbp ,usd" :: ["eur"]) [])
  = (Ok ["GBP"; "USD"],
     World network_down 0 ["eur"]
           ([] ++ EvAvailable ["EUR"; "GBP"; "USD"]
               :: [EvInput select_prompt; EvInvalid ["XYZ"];
                   EvInput select_prompt; EvInvalid ["BTC"]]
               ++ [EvInput select_prompt])).
Proof.
  split; [reflexivity|]. split; [reflexivity|].
  apply (first_acceptable_line_decides
           ["USD"; "EUR"; "GBP"] ["usd, xyz"; "btc"] " gbp ,usd" ["eur"]
           network_down 0 []).
  - repeat constructor.
  - reflexivity.
Defined.

Lemma selection_runs_out_of_lines_witness :
  select_currencies ["USD"; "EUR"] (World network_down 0 ["usd, xyz"; "btc"] [])
  = (Raise EOFError,
     World network_down 0 []
           ([] ++ EvAvailable ["EUR"; "USD"]
               :: [EvInput select_prompt; EvInvalid ["XYZ"];
                   EvInput select_prompt; EvInvalid ["BTC"]]
               ++ [EvInput select_prompt])).
Proof.
  apply (selection_runs_out_of_lines ["USD"; "EUR"] ["usd, xyz"; "btc"] network_down 0 []).
  repeat constructor.
Defined.

Lemma typed_selection_is_upper_case_witness :
  select_currencies ["USD"; "eur"] (session network_down ["eur"; " usd "; "x"])
  = (Ok ["USD"], World network_down 0 ["x"]
                       [EvAvailable ["USD"; "eur"]; EvInput select_prompt;
                        EvInvalid ["EUR"]; EvInput select_prompt]) /\
  (["USD"] = ["USD"; "eur"] \/
   Forall (fun c => In c ["USD"; "eur"] /\ Str.upper c = c /\ Str.strip c = c) ["USD"]).
Proof.
  split; [reflexivity|].
  apply (typed_selection_is_upper_case
           ["USD"; "eur"] (session network_down ["eur"; " usd "; "x"])
           (World network_down 0 ["x"]
                  [EvAvailable ["USD"; "eur"]; EvInput select_prompt;
                   EvInvalid ["EUR"]; EvInput select_prompt])
           ["USD"]).
  reflexivity.
Defined.

Lemma get_user_input_trims_witness :
  get_user_input "> " "all" (session network_down [])
  = (Raise EOFError, World network_down 0 [] ([] ++ [EvInput "> "])) /\
  exists s,
    get_user_input "> " "all" (session network_down ["  usd, eur "; "x"])
    = (Ok s, World network_down 0 ["x"] ([] ++ [EvInput "> "])) /\
    ((Str.strip "  usd, eur " = "" /\ s = "all") \/
     (s = Str.strip "  usd, eur " /\ s <> "" /\ Str.strip s = s)).
Proof.
  split.
  - apply (proj1 (get_user_input_trims "> " "all" (session network_down []))).
    reflexivity.
  - apply (proj2 (get_user_input_trims "> " "all"
                                       (session network_down ["  usd, eur "; "x"]))
                 "  usd, eur " ["x"]).
    reflexivity.
Defined.

Lemma report_lists_every_price_in_order_witness :
  generate_report quotes (desk [] (fun _ => Done))
  = (Ok true,
     set_report
       (Holds (report_header "2024-01-01 12:00:00"
                 ++ "EUR: €59,001.20" ++ nl ++ "GBP: £n/a" ++ nl
                 ++ "USD: $64,123.45" ++ nl))
       (desk [] (fun _ => Done))) /\
  exists codes lines,
    generate_report quotes (desk [] (fun _ => Done))
    = (Ok true,
       set_report (Holds (report_header "2024-01-01 12:00:00" ++ paste lines))
                  (desk [] (fun _ => Done))) /\
    Permutation codes (Dict.keys quotes) /\
    Sorted code_le codes /\
    Forall2 (fun k line => exists p, Dict.get quotes k = Some (JStr p) /\
                                      line = priced_line k p)
            codes lines.
Proof.
  split; [reflexivity|].
  apply (report_lists_every_price_in_order quotes (desk [] (fun _ => Done))).
  - intros n. reflexivity.
  - repeat (constructor; [cbn; eexists; reflexivity|]). constructor.
Defined.

Lemma report_ends_as_the_disk_decides_witness :
  generate_report quotes (desk [] (fun n => if Nat.eqb n 3 then IOError else Done))
  = (Ok false,
     Machine (session network_down []) true "2024-01-01 12:00:00"
             (fun n => if Nat.eqb n 3 then IOError else Done) Damaged [ShowFileError]) /\
  generate_report quotes
                  (desk [] (fun n => if Nat.eqb n 3 then OtherError ValueError else Done))
  = (Raise ValueError,
     Machine (session network_down []) true "2024-01-01 12:00:00"
             (fun n => if Nat.eqb n 3 then OtherError ValueError else Done) Damaged []) /\
  exists r mc',
    generate_report quotes
                    (desk [] (fun n => if Nat.eqb n 3 then OtherError ValueError else Done))
    = (r, mc') /\
    (r = Ok true <->
     forall n, n <= List.length quotes + 2 ->
               (if Nat.eqb n 3 then OtherError ValueError else Done) = Done) /\
    (r = Ok true -> shown mc' = [] /\ exists text, report mc' = Holds text) /\
    (r = Ok false ->
     (exists n, n <= List.length quotes + 2 /\
                (if Nat.eqb n 3 then OtherError ValueError else Done) = IOError) /\
     shown mc' = [] ++ [ShowFileError] /\
     (report mc' = Untouched \/ report mc' = Damaged)) /\
    (forall e, r = Raise e ->
               (exists n, n <= List.length quotes + 2 /\
                          (if Nat.eqb n 3 then OtherError ValueError else Done)
                          = OtherError e) /\
               shown mc' = [] /\
               (report mc' = Untouched \/ report mc' = Damaged)) /\
    console mc' = session network_down [].
Proof.
  split; [reflexivity|]. split; [reflexivity|].
  apply (report_ends_as_the_disk_decides
           quotes (desk [] (fun n => if Nat.eqb n 3 then OtherError ValueError else Done))).
  repeat (constructor; [cbn; eexists; reflexivity|]). constructor.
Defined.

Lemma non_string_price_escapes_the_report_witness :
  ~ is_str (JInt 59001) /\
  exists text,
    generate_report [("USD", JStr "64,123.45"); ("EUR", JInt 59001)]
                    (desk [] (fun _ => Done))
    = (Raise AttributeError, set_report (Holds text) (desk [] (fun _ => Done))).
Proof.
  assert (Hint : ~ is_str (JInt 59001)) by (intros [s Hs]; discriminate Hs).
  split; [exact Hint|].
  apply (non_string_price_escapes_the_report
           [("USD", JStr "64,123.45"); ("EUR", JInt 59001)] (desk [] (fun _ => Done))).
  - intros n. reflexivity.
  - repeat constructor; cbn; intuition discriminate.
  - exists "EUR", (JInt 59001). split; [right; left; reflexivity|exact Hint].
Defined.

Lemma selected_prices_are_shown_and_saved_witness :
  exists mc' shows codes lines,
    main_report quotes (desk ["usd, xyz"; "gbp,usd"; ""; "left"] (fun _ => Done))
    = (Ok tt, mc') /\
    stdin (console mc') = ["left"] /\
    sent (console mc') = 0 /\
    shown mc' = [] ++ ShowHeading :: shows ++ [ShowSaved] /\
    Forall2 (fun kv d => exists p, snd kv = JStr p /\
                                   d = ShowPrice (fst kv) (format_price (fst kv) p))
            [("USD", JStr "64,123.4500"); ("GBP", JStr "n/a")] shows /\
    report mc' = Holds (report_header "2024-01-01 12:00:00" ++ paste lines) /\
    Permutation codes ["USD"; "GBP"] /\
    Sorted code_le codes /\
    Forall2 (fun k line =>
               exists p,
                 Dict.get [("USD", JStr "64,123.4500"); ("GBP", JStr "n/a")] k
                 = Some (JStr p) /\
                 line = priced_line k p)
            codes lines.
Proof.
  apply (selected_prices_are_shown_and_saved
           quotes (desk ["usd, xyz"; "gbp,usd"; ""; "left"] (fun _ => Done))
           ["usd, xyz"] "gbp,usd" "" ["left"]).
  - reflexivity.
  - repeat constructor.
  - reflexivity.
  - repeat constructor; cbn; intuition discriminate.
  - repeat (constructor; [cbn; eexists; reflexivity|]). constructor.
  - intros n. reflexivity.
Defined.

Lemma non_string_price_stops_the_display_witness :
  exists mc',
    main_report [("USD", JStr "64,123.45"); ("EUR", JInt 59001)]
                (desk ["usd, xyz"; ""; "left"] (fun _ => Done))
    = (Raise AttributeError, mc') /\
    report mc' = Untouched /\
    stdin (console mc') = ["left"].
Proof.
  apply (non_string_price_stops_the_display
           [("USD", JStr "64,123.45"); ("EUR", JInt 59001)]
           (desk ["usd, xyz"; ""; "left"] (fun _ => Done))
           ["usd, xyz"] "" ["left"]).
  - reflexivity.
  - repeat constructor.
  - reflexivity.
  - repeat constructor; cbn; intuition discriminate.
  - exists "EUR", (JInt 59001). split; [right; left; reflexivity|].
    split; [reflexivity|]. intros [s Hs]. discriminate Hs.
Defined.

Lemma no_report_without_prices_witness :
  (sent (console (snd (main sample_repr
                            (Machine (session coingecko_only ["x"]) false
                                     "2024-01-01 12:00:00" (fun _ => Done)
                                     (Holds "old") []))))
   = 0 /\
   trace (console (snd (main sample_repr
                             (Machine (session coingecko_only ["x"]) false
                                      "2024-01-01 12:00:00" (fun _ => Done)
                                      (Holds "old") []))))
   = [] ++ [EvInput "Press Enter to exit..."]) /\
  (report (snd (main sample_repr (desk [""; ""] (fun _ => Done)))) = Untouched /\
   exists extra,
     shown (snd (main sample_repr (desk [""; ""] (fun _ => Done)))) = [] ++ extra /\
     ~ In ShowSaved extra).
Proof.
  split.
  - apply (proj1 (no_report_without_prices
                    sample_repr
                    (Machine (session coingecko_only ["x"]) false
                             "2024-01-01 12:00:00" (fun _ => Done) (Holds "old") []))).
    reflexivity.
  - apply (proj2 (no_report_without_prices sample_repr (desk [""; ""] (fun _ => Done)))).
    right. intros prices Hprices. vm_compute in Hprices. discriminate Hprices.
Defined.

Lemma amounts_are_rounded_to_the_nearest_hundredth_witness :
  exists a b,
    Z.even (PyFloat.hundredths 1 (-3)) = true /\
    PyFloat.format_2f (S754_finite false 1 (-3))
    = (PyFloat.sign_string false
         ++ PyFloat.commas (Z_to_string (PyFloat.hundredths 1 (-3) / 100)) ++ "."
         ++ String a (String b EmptyString))%string /\
    (10 * PyFloat.digit_value a + PyFloat.digit_value b
     = PyFloat.hundredths 1 (-3) mod 100)%Z.
Proof.
  destruct (amounts_are_rounded_to_the_nearest_hundredth false 1 (-3))
    as (n & a & b & -> & _ & _ & Htie & Hshape & _ & _ & Hvalue).
  exists a, b. split; [|split; [exact Hshape|exact Hvalue]].
  apply Htie; reflexivity.
Defined.

Lemma whole_prices_are_shown_exactly_witness :
  (0 <= 9007199254740991 < 2 ^ 53)%Z /\
  format_price "USD" (Z_to_string 9007199254740991)
  = ("$" ++ PyFloat.commas (Z_to_string 9007199254740991) ++ ".00")%string.
Proof.
  split; [lia|].
  apply (whole_prices_are_shown_exactly "USD" 9007199254740991). lia.
Defined.

Lemma only_coindesk_prices_may_not_be_strings_witness :
  parse_response sample_repr blockchain_fixture blockchain_url (session network_down [])
  = (Ok (Some [("USD", JStr "64123"); ("GBP", JStr "50210")]), session network_down []) /\
  Str.contains "coindesk" blockchain_url = false /\
  Forall (fun kv => is_str (snd kv)) [("USD", JStr "64123"); ("GBP", JStr "50210")].
Proof.
  split; [reflexivity|]. split; [reflexivity|].
  apply (only_coindesk_prices_may_not_be_strings
           sample_repr blockchain_fixture blockchain_url
           (session network_down []) (session network_down [])).
  - reflexivity.
  - reflexivity.
Defined.
